(** * matchable: conditions, the condition store and the matching algorithm

    A shallow embedding of [src/matchable/match.py] and
    [src/matchable/spec.py].  Python objects are modelled by a small
    universe of values, exceptions by an explicit [result] type, the
    [NotImplemented] sentinel of binary special methods by [slot], and the
    [defaultdict] behind [Options] by explicit state passing. *)

From Stdlib Require Import List ZArith String Ascii Bool Arith Lia Permutation.
Import ListNotations.

Set Warnings "-register-all".

Local Open Scope string_scope.
Local Open Scope list_scope.

(** ** Exceptions and results *)

(** Modelled from the spec: [matchable/exceptions.py], which declares
    [NoMatchError], is not among the sources; it is the error that [match]
    raises when no condition is satisfied, an exception class of its own
    (neither an [AttributeError] nor a [LookupError]), carrying the
    message that [Options.match] builds.  The other constructors are the
    built-in exception classes that the modelled code raises, catches or
    lets through; [KeyError] and [IndexError] are the subclasses of
    [LookupError] that item access raises. *)
Inductive exn : Type :=
| AttributeError
| KeyError
| IndexError
| TypeError
| ValueError
| NotImplementedError
| NoMatchError (msg : string).

Inductive result (A : Type) : Type :=
| Ok (a : A)
| Raise (e : exn).
Arguments Ok {A} a.
Arguments Raise {A} e.

Definition bind {A B : Type} (r : result A) (k : A -> result B) : result B :=
  match r with
  | Ok a => k a
  | Raise e => Raise e
  end.

Notation "x <- r ;; k" := (bind r (fun x => k))
  (at level 61, r at next level, right associativity).
Notation "' p <- r ;; k" := (bind r (fun x => let 'p := x in k))
  (at level 61, p pattern, r at next level, right associativity).

(** The outcome of calling a binary special method ([__lt__], [__or__],
    ...): it returns a value, returns the sentinel [NotImplemented], or
    raises. *)
Inductive slot (A : Type) : Type :=
| NotImplemented
| Returned (a : A)
| Raised (e : exn).
Arguments NotImplemented {A}.
Arguments Returned {A} a.
Arguments Raised {A} e.

(** An exception of the built-in kinds, that is, not [NoMatchError]. *)
Definition builtin (e : exn) : bool :=
  match e with
  | NoMatchError _ => false
  | _ => true
  end.

(** [isinstance(e, LookupError)] *)
Definition is_LookupError (e : exn) : bool :=
  match e with
  | KeyError | IndexError => true
  | _ => false
  end.

(** ** Types (classes) *)

(** The classes that the code and its tests mention, and user-defined
    classes, identified by name. *)
Inductive pytype : Type :=
| TObject
| TInt
| TStr
| TList
| TDict
| TSet
| TType
| TFunction
| TWrapper
| TCopyUpdate
| TLastSeenWins
| TUser (name : string).

Definition pytype_eq_dec (a b : pytype) : {a = b} + {a <> b}.
Proof. decide equality. apply string_dec. Defined.

Definition pytype_eqb (a b : pytype) : bool :=
  if pytype_eq_dec a b then true else false.

(** ** Values *)

(** The three wrapper classes of [spec.py]. *)
Inductive wrapper_cls : Type :=
| Wrapper
| CopyUpdate
| LastSeenWins.

(** The callables that the wrapper registry stores: the wrapper classes
    themselves and [lambda x: x]. *)
Inductive callable : Type :=
| Cls (k : wrapper_cls)
| Identity.

(** Python objects.  Dictionaries and sets are association lists and lists
    in insertion order.  [VInst cls attrs] is an instance of the
    user-defined class [cls] with instance dictionary [attrs];
    [VWrapper k obj] is an instance of a wrapper class, whose only instance
    attribute is [obj].  User-defined classes are plain classes, as those
    of [tests/conftest.py]: special methods of their own ([__getitem__],
    [__or__], [__eq__], ...) would be user code and are not modelled, so
    the instances of the wrapper classes are the [VWrapper] values. *)
Inductive value : Type :=
| VInt (z : Z)
| VStr (s : string)
| VList (xs : list value)
| VDict (kvs : list (value * value))
| VSet (xs : list value)
| VInst (cls : string) (attrs : list (string * value))
| VWrapper (k : wrapper_cls) (obj : value)
| VCallable (c : callable).

Definition wrapper_cls_eqb (a b : wrapper_cls) : bool :=
  match a, b with
  | Wrapper, Wrapper | CopyUpdate, CopyUpdate | LastSeenWins, LastSeenWins => true
  | _, _ => false
  end.

Definition callable_eqb (a b : callable) : bool :=
  match a, b with
  | Cls k, Cls k' => wrapper_cls_eqb k k'
  | Identity, Identity => true
  | _, _ => false
  end.

(** Induction on values that reaches the elements of the containers. *)
Section ValueInd.
Variable P : value -> Prop.
Hypothesis HInt : forall z, P (VInt z).
Hypothesis HStr : forall s, P (VStr s).
Hypothesis HList : forall xs, Forall P xs -> P (VList xs).
Hypothesis HDict :
  forall kvs, Forall (fun kv => P (fst kv) /\ P (snd kv)) kvs -> P (VDict kvs).
Hypothesis HSet : forall xs, Forall P xs -> P (VSet xs).
Hypothesis HInst :
  forall cls attrs, Forall (fun kv => P (snd kv)) attrs -> P (VInst cls attrs).
Hypothesis HWrapper : forall k o, P o -> P (VWrapper k o).
Hypothesis HCallable : forall c, P (VCallable c).

Fixpoint value_induction (v : value) : P v :=
  match v with
  | VInt z => HInt z
  | VStr s => HStr s
  | VList xs =>
      HList xs
        ((fix go (l : list value) : Forall P l :=
            match l with
            | [] => Forall_nil _
            | x :: l' => Forall_cons x (value_induction x) (go l')
            end) xs)
  | VDict kvs =>
      HDict kvs
        ((fix go (l : list (value * value))
            : Forall (fun kv => P (fst kv) /\ P (snd kv)) l :=
            match l with
            | [] => Forall_nil _
            | kv :: l' =>
                Forall_cons kv
                  (conj (value_induction (fst kv)) (value_induction (snd kv)))
                  (go l')
            end) kvs)
  | VSet xs =>
      HSet xs
        ((fix go (l : list value) : Forall P l :=
            match l with
            | [] => Forall_nil _
            | x :: l' => Forall_cons x (value_induction x) (go l')
            end) xs)
  | VInst cls attrs =>
      HInst cls attrs
        ((fix go (l : list (string * value)) : Forall (fun kv => P (snd kv)) l :=
            match l with
            | [] => Forall_nil _
            | kv :: l' => Forall_cons kv (value_induction (snd kv)) (go l')
            end) attrs)
  | VWrapper k o => HWrapper k o (value_induction o)
  | VCallable c => HCallable c
  end.
End ValueInd.

(** [a == b] on values.  Containers are compared position by position,
    which is Python's answer for lists, and for dictionaries and sets
    filled in the same order; an instance stands for the one object with
    that class and state.  The properties that depend on [==] telling two
    conditions apart are stated for [plain] values, where nothing is lost
    by this. *)
Fixpoint py_eq (a b : value) {struct a} : bool :=
  match a, b with
  | VInt x, VInt y => Z.eqb x y
  | VStr x, VStr y => String.eqb x y
  | VList xs, VList ys =>
      (fix go (xs ys : list value) {struct xs} : bool :=
         match xs, ys with
         | [], [] => true
         | x :: xs', y :: ys' => py_eq x y && go xs' ys'
         | _, _ => false
         end) xs ys
  | VDict xs, VDict ys =>
      (fix go (xs ys : list (value * value)) {struct xs} : bool :=
         match xs, ys with
         | [], [] => true
         | (k, v) :: xs', (k', v') :: ys' => py_eq k k' && py_eq v v' && go xs' ys'
         | _, _ => false
         end) xs ys
  | VSet xs, VSet ys =>
      (fix go (xs ys : list value) {struct xs} : bool :=
         match xs, ys with
         | [], [] => true
         | x :: xs', y :: ys' => py_eq x y && go xs' ys'
         | _, _ => false
         end) xs ys
  | VInst c xs, VInst c' ys =>
      String.eqb c c' &&
      (fix go (xs ys : list (string * value)) {struct xs} : bool :=
         match xs, ys with
         | [], [] => true
         | (k, v) :: xs', (k', v') :: ys' => String.eqb k k' && py_eq v v' && go xs' ys'
         | _, _ => false
         end) xs ys
  | VWrapper k x, VWrapper k' y => wrapper_cls_eqb k k' && py_eq x y
  | VCallable c, VCallable c' => callable_eqb c c'
  | _, _ => false
  end.

(** Numbers, strings and lists of these: the values on which a
    comparison by position is all there is to [==].  When one of the
    operands of [py_eq] is such a value, its answer is that of Python's
    [==] whatever the other operand. *)
Fixpoint plain (v : value) : bool :=
  match v with
  | VInt _ | VStr _ => true
  | VList xs => forallb plain xs
  | _ => false
  end.

(** [hash(v)] succeeds: lists, dictionaries and sets are unhashable. *)
Definition hashable (v : value) : bool :=
  match v with
  | VList _ | VDict _ | VSet _ => false
  | _ => true
  end.

(** A dictionary as Python builds it: the keys are hashable and no key
    occurs twice. *)
Definition dict_ok (d : list (value * value)) : Prop :=
  NoDup (map fst d) /\ Forall (fun kv => hashable (fst kv) = true) d.

Definition wrapper_type (k : wrapper_cls) : pytype :=
  match k with
  | Wrapper => TWrapper
  | CopyUpdate => TCopyUpdate
  | LastSeenWins => TLastSeenWins
  end.

(** [type(v)] *)
Definition type_of (v : value) : pytype :=
  match v with
  | VInt _ => TInt
  | VStr _ => TStr
  | VList _ => TList
  | VDict _ => TDict
  | VSet _ => TSet
  | VInst cls _ => TUser cls
  | VWrapper k _ => wrapper_type k
  | VCallable (Cls _) => TType
  | VCallable Identity => TFunction
  end.

(** ** Association lists as insertion-ordered dictionaries *)

Section Dict.
Context {K V : Type} (eqb : K -> K -> bool).

Fixpoint dict_get (k : K) (d : list (K * V)) : option V :=
  match d with
  | [] => None
  | (k', v) :: d' => if eqb k' k then Some v else dict_get k d'
  end.

(** [d[k] = v]: an existing key keeps its position (and its key
    object), a new key goes last. *)
Fixpoint dict_set (k : K) (v : V) (d : list (K * V)) : list (K * V) :=
  match d with
  | [] => [(k, v)]
  | (k', v') :: d' =>
      if eqb k' k then (k', v) :: d' else (k', v') :: dict_set k v d'
  end.

Fixpoint dict_del (k : K) (d : list (K * V)) : list (K * V) :=
  match d with
  | [] => []
  | (k', v') :: d' => if eqb k' k then d' else (k', v') :: dict_del k d'
  end.
End Dict.

(** ** The interpreter's environment *)

(** What the interpreter knows and the library does not define: the class
    table of the user-defined classes, class-level attributes, the
    behaviour of comparison callables other than the six of the
    [operator] module, and [repr]. *)
Record PyEnv : Type := {
  (** linearised proper ancestors of a user-defined class *)
  user_mro : string -> list pytype;
  (** attributes defined on a class (not inherited ones) *)
  class_attrs : pytype -> list (string * value);
  (** [f(a, b)] for a user-supplied comparison callable [f] *)
  custom_op : nat -> value -> value -> result bool;
  (** [repr(v)] *)
  repr : value -> string
}.

(** ** [sorted]

    [sorted(l, key=...)] as CPython runs it on a list of fewer than 64
    elements: the leading run is found ([count_run]) and reversed when it
    is strictly descending, then every later element is put in place by
    binary insertion ([binarysort]).  The only comparison is [<], which may
    raise. *)

Section Sorted.
Context {A : Type} (lt : A -> A -> result bool).

(** Extend a strictly descending run that ends in [prev]. *)
Fixpoint run_descending (prev : A) (l : list A) : result (list A * list A) :=
  match l with
  | [] => Ok ([], [])
  | x :: l' =>
      b <- lt x prev ;;
      if b then
        '(run, rest) <- run_descending x l' ;; Ok (x :: run, rest)
      else Ok ([], l)
  end.

(** Extend a non-descending run that ends in [prev]. *)
Fixpoint run_ascending (prev : A) (l : list A) : result (list A * list A) :=
  match l with
  | [] => Ok ([], [])
  | x :: l' =>
      b <- lt x prev ;;
      if b then Ok ([], l)
      else '(run, rest) <- run_ascending x l' ;; Ok (x :: run, rest)
  end.

(** The leading run, in ascending order, and the elements after it. *)
Definition count_run (l : list A) : result (list A * list A) :=
  match l with
  | [] => Ok ([], [])
  | [x] => Ok ([x], [])
  | x :: y :: l' =>
      b <- lt y x ;;
      if b then
        '(run, rest) <- run_descending y l' ;; Ok (rev (x :: y :: run), rest)
      else
        '(run, rest) <- run_ascending y l' ;; Ok (x :: y :: run, rest)
  end.

(** The position of [pivot] in the sorted prefix [pre], searched between
    [l] and [r]. *)
Fixpoint bisect (fuel : nat) (pivot : A) (pre : list A) (l r : nat) : result nat :=
  match fuel with
  | O => Ok l
  | S fuel' =>
      if (l <? r)%nat then
        let p := l + Nat.div2 (r - l) in
        match nth_error pre p with
        | Some x =>
            b <- lt pivot x ;;
            if b then bisect fuel' pivot pre l p
            else bisect fuel' pivot pre (S p) r
        | None => Ok l
        end
      else Ok l
  end.

Definition insert_at (i : nat) (x : A) (pre : list A) : list A :=
  firstn i pre ++ x :: skipn i pre.

Fixpoint binarysort (pre rest : list A) : result (list A) :=
  match rest with
  | [] => Ok pre
  | x :: rest' =>
      i <- bisect (S (List.length pre)) x pre 0 (List.length pre) ;;
      binarysort (insert_at i x pre) rest'
  end.

Definition sorted (l : list A) : result (list A) :=
  '(run, rest) <- count_run l ;; binarysort run rest.

(** Two elements that [<] compares without raising, either way round. *)
Definition comparable (x y : A) : Prop :=
  (exists r, lt x y = Ok r) /\ (exists r, lt y x = Ok r).
End Sorted.

(** ** Built-in operations on values *)

Section Model.

Variable E : PyEnv.

(** [type.mro(T)]: the class itself, then its linearised ancestors.  The
    built-in classes and the wrapper classes of [spec.py] have fixed
    linearisations; those of user-defined classes come from the class
    table. *)
Definition mro (T : pytype) : list pytype :=
  match T with
  | TObject => [TObject]
  | TCopyUpdate => [TCopyUpdate; TWrapper; TObject]
  | TLastSeenWins => [TLastSeenWins; TWrapper; TObject]
  | TUser name => TUser name :: user_mro E name
  | _ => [T; TObject]
  end.

(** [T in l] for a list of classes *)
Definition type_in (T : pytype) (l : list pytype) : bool :=
  existsb (pytype_eqb T) l.

(** [isinstance(obj, T)] *)
Definition isinstance (obj : value) (T : pytype) : bool :=
  type_in T (mro (type_of obj)).

(** [T] is [type] or a metaclass: [type] is among its ancestors. *)
Definition is_metaclass (T : pytype) : bool := type_in TType (mro T).

(** [T.mro()], the call without argument.  For an ordinary class the
    attribute is found on its metaclass and is bound to [T], and the
    call gives [type.mro(T)].  For [type] and for a metaclass it is found
    among the ancestors of [T] itself, as the plain function of [type],
    and calling it without an argument raises [TypeError]. *)
Definition mro_call (T : pytype) : result (list pytype) :=
  if is_metaclass T then Raise TypeError else Ok (mro T).

(** The instance dictionary of an object. *)
Definition instance_dict (obj : value) : list (string * value) :=
  match obj with
  | VInst _ attrs => attrs
  | VWrapper _ o => [("obj", o)]
  | _ => []
  end.

(** Look an attribute up along a linearisation. *)
Fixpoint class_lookup (name : string) (l : list pytype) : option value :=
  match l with
  | [] => None
  | T :: l' =>
      match dict_get String.eqb name (class_attrs E T) with
      | Some v => Some v
      | None => class_lookup name l'
      end
  end.

(** [getattr(obj, name)]: the instance dictionary first, then the classes
    of the linearisation; a name that is not a string is a [TypeError].
    The attributes of a class are the plain values of the class table:
    methods and computed attributes, those of the built-in classes
    included, are not part of the model. *)
Definition getattr (obj name : value) : result value :=
  match name with
  | VStr n =>
      match dict_get String.eqb n (instance_dict obj) with
      | Some v => Ok v
      | None =>
          match class_lookup n (mro (type_of obj)) with
          | Some v => Ok v
          | None => Raise AttributeError
          end
      end
  | _ => Raise TypeError
  end.

(** Indexing a sequence of length [length xs] with the integer [i]:
    negative indices count from the end. *)
Definition seq_index {A : Type} (xs : list A) (i : Z) : result A :=
  let n := Z.of_nat (List.length xs) in
  let j := if (i <? 0)%Z then (i + n)%Z else i in
  if ((0 <=? j) && (j <? n))%Z then
    match nth_error xs (Z.to_nat j) with
    | Some x => Ok x
    | None => Raise IndexError
    end
  else Raise IndexError.

(** [obj[key]].  Lists and strings take integer indices, dictionaries take
    hashable keys; every other object is not subscriptable.  A string is
    a sequence of one-byte characters, so that an index counts
    characters as it does in Python for text without wider ones. *)
Definition getitem (obj key : value) : result value :=
  match obj with
  | VList xs =>
      match key with
      | VInt i => seq_index xs i
      | _ => Raise TypeError
      end
  | VStr s =>
      match key with
      | VInt i => c <- seq_index (list_ascii_of_string s) i ;; Ok (VStr (String c EmptyString))
      | _ => Raise TypeError
      end
  | VDict kvs =>
      if hashable key then
        match dict_get py_eq key kvs with
        | Some v => Ok v
        | None => Raise KeyError
        end
      else Raise TypeError
  | _ => Raise TypeError
  end.

(** Membership and inclusion for sets. *)
Definition py_in (x : value) (xs : list value) : bool := existsb (py_eq x) xs.

Definition subset (xs ys : list value) : bool :=
  forallb (fun x => py_in x ys) xs.

(** ** The comparison functions of the [operator] module *)

(** [op] of a [Comparison]: one of the six functions of the [operator]
    module that the pattern builder uses, or any other callable. *)
Inductive operator : Type :=
| op_lt
| op_le
| op_eq
| op_ne
| op_ge
| op_gt
| op_custom (id : nat).

Definition operator_eq_dec (a b : operator) : {a = b} + {a <> b}.
Proof. decide equality. apply Nat.eq_dec. Defined.

Definition operator_eqb (a b : operator) : bool :=
  if operator_eq_dec a b then true else false.

Inductive ordering : Type := OLt | OLe | OGe | OGt.

Definition holds (o : ordering) (c : comparison) : bool :=
  match o, c with
  | OLt, Lt => true
  | OLe, (Lt | Eq) => true
  | OGe, (Gt | Eq) => true
  | OGt, Gt => true
  | _, _ => false
  end.

(** [a < b], [a <= b], [a >= b], [a > b] on values: integers and strings
    by their order, lists lexicographically, sets by inclusion; any other
    pair of operands is a [TypeError]. *)
Fixpoint py_ord (o : ordering) (a b : value) {struct a} : result bool :=
  match a, b with
  | VInt x, VInt y => Ok (holds o (Z.compare x y))
  | VStr x, VStr y => Ok (holds o (String.compare x y))
  | VList xs, VList ys =>
      (fix go (xs ys : list value) {struct xs} : result bool :=
         match xs, ys with
         | x :: xs', y :: ys' => if py_eq x y then go xs' ys' else py_ord o x y
         | [], [] => Ok (holds o Eq)
         | [], _ :: _ => Ok (holds o Lt)
         | _ :: _, [] => Ok (holds o Gt)
         end) xs ys
  | VSet xs, VSet ys =>
      Ok (match o with
          | OLt => subset xs ys && negb (subset ys xs)
          | OLe => subset xs ys
          | OGe => subset ys xs
          | OGt => subset ys xs && negb (subset xs ys)
          end)
  | _, _ => Raise TypeError
  end.

(** [op(a, b)] *)
Definition apply_op (op : operator) (a b : value) : result bool :=
  match op with
  | op_lt => py_ord OLt a b
  | op_le => py_ord OLe a b
  | op_eq => Ok (py_eq a b)
  | op_ne => Ok (negb (py_eq a b))
  | op_ge => py_ord OGe a b
  | op_gt => py_ord OGt a b
  | op_custom id => custom_op E id a b
  end.

(** ** match.py: conditions *)

(** The concrete condition classes.  The base class [Condition] itself is
    abstract: each of its methods, [__hash__] included, raises
    [NotImplementedError], so none of its direct instances can be stored. *)
Inductive Condition : Type :=
| IsInstance (tp : pytype)
| Comparison (tp : pytype) (identifier : value) (op : operator) (ref : value)
| CompareAttr (tp : pytype) (identifier : value) (op : operator) (ref : value)
| CompareItem (tp : pytype) (identifier : value) (op : operator) (ref : value).

(** [type(c)] *)
Inductive condition_cls : Type :=
| IsInstance_cls
| Comparison_cls
| CompareAttr_cls
| CompareItem_cls.

Definition cls_of (c : Condition) : condition_cls :=
  match c with
  | IsInstance _ => IsInstance_cls
  | Comparison _ _ _ _ => Comparison_cls
  | CompareAttr _ _ _ _ => CompareAttr_cls
  | CompareItem _ _ _ _ => CompareItem_cls
  end.

Definition condition_cls_eqb (a b : condition_cls) : bool :=
  match a, b with
  | IsInstance_cls, IsInstance_cls
  | Comparison_cls, Comparison_cls
  | CompareAttr_cls, CompareAttr_cls
  | CompareItem_cls, CompareItem_cls => true
  | _, _ => false
  end.

(** [issubclass(a, b) and a is not b] *)
Definition proper_subclass (a b : condition_cls) : bool :=
  match a, b with
  | (CompareAttr_cls | CompareItem_cls), Comparison_cls => true
  | _, _ => false
  end.

(** [isinstance(c, Comparison)] *)
Definition is_Comparison (c : Condition) : bool :=
  match c with
  | IsInstance _ => false
  | _ => true
  end.

(** [c.type], the class that the condition is bound to *)
Definition cond_type (c : Condition) : pytype :=
  match c with
  | IsInstance tp
  | Comparison tp _ _ _
  | CompareAttr tp _ _ _
  | CompareItem tp _ _ _ => tp
  end.

(** [operator.attrgetter('type', 'identifier', 'op', 'ref')(c)] *)
Definition attributes (c : Condition) : option (pytype * value * operator * value) :=
  match c with
  | IsInstance _ => None
  | Comparison tp i op r
  | CompareAttr tp i op r
  | CompareItem tp i op r => Some (tp, i, op, r)
  end.

(** [Comparison.__eq__] and [IsInstance.__eq__] *)
Definition Condition_eq (self other : Condition) : bool :=
  match self with
  | IsInstance tp =>
      condition_cls_eqb (cls_of self) (cls_of other) && pytype_eqb tp (cond_type other)
  | _ =>
      condition_cls_eqb (cls_of self) (cls_of other) &&
      match attributes self, attributes other with
      | Some (tp, i, op, r), Some (tp', i', op', r') =>
          pytype_eqb tp tp' && py_eq i i' && operator_eqb op op' && py_eq r r'
      | _, _ => false
      end
  end.

(** [hash(c)] succeeds: [Comparison.__hash__] hashes the tuple
    [(type, identifier, op)], [IsInstance.__hash__] the type. *)
Definition Condition_hashable (c : Condition) : bool :=
  match attributes c with
  | Some (_, i, _, _) => hashable i
  | None => true
  end.

(** A condition whose identifier and reference value are [plain]: for
    such a condition [Condition_eq] is Python's [==] against any other
    condition. *)
Definition plain_condition (c : Condition) : bool :=
  match attributes c with
  | Some (_, i, _, r) => plain i && plain r
  | None => true
  end.

(** [Comparison.__lt__] *)
Definition Comparison_lt (self other : Condition) : slot bool :=
  if is_Comparison self && is_Comparison other then Returned false
  else NotImplemented.

(** [IsInstance.__lt__]: [self.type in other.type.mro()] for two
    [IsInstance] conditions, with the [TypeError] of the call [mro()]
    when [other.type] is [type] or a metaclass. *)
Definition IsInstance_lt (self other : Condition) : slot bool :=
  if condition_cls_eqb (cls_of self) (cls_of other)
  then
    match mro_call (cond_type other) with
    | Ok l => Returned (type_in (cond_type self) l)
    | Raise e => Raised e
    end
  else Returned true.

(** [type(self).__lt__(self, other)] *)
Definition Condition_lt (self other : Condition) : slot bool :=
  match self with
  | IsInstance _ => IsInstance_lt self other
  | _ => Comparison_lt self other
  end.

(** The dispatch of a rich comparison [v op w]: the reflected method of
    [w] goes first when [type(w)] is a proper subclass of [type(v)], then
    the method of [v], then the reflected method of [w] unless it was
    tried; a [TypeError] when every attempt returned [NotImplemented]. *)
Definition richcompare {A : Type}
    (method reflected : Condition -> Condition -> slot A)
    (v w : Condition) : result A :=
  let first := proper_subclass (cls_of w) (cls_of v) in
  let attempts :=
    (if first then [reflected w v] else []) ++ [method v w] ++
    (if first then [] else [reflected w v]) in
  (fix try (l : list (slot A)) : result A :=
     match l with
     | [] => Raise TypeError
     | NotImplemented :: l' => try l'
     | Returned a :: _ => Ok a
     | Raised e :: _ => Raise e
     end) attempts.

(** [object.__ne__], which both classes inherit: the negation of
    [__eq__]. *)
Definition Condition_ne (self other : Condition) : slot bool :=
  Returned (negb (Condition_eq self other)).

(** [self != other] *)
Definition py_ne (v w : Condition) : result bool :=
  richcompare Condition_ne Condition_ne v w.

(** [__gt__] as [functools.total_ordering] derives it from [__lt__]:
    [not (self < other) and self != other], or [NotImplemented] when
    [__lt__] returns it. *)
Definition Condition_gt (self other : Condition) : slot bool :=
  match Condition_lt self other with
  | NotImplemented => NotImplemented
  | Raised e => Raised e
  | Returned r =>
      if negb r then
        match py_ne self other with
        | Ok b => Returned b
        | Raise e => Raised e
        end
      else Returned false
  end.

(** [v < w] on conditions *)
Definition py_lt (v w : Condition) : result bool :=
  richcompare Condition_lt Condition_gt v w.

(** [v == w] on conditions *)
Definition py_eq_cond (v w : Condition) : result bool :=
  richcompare (fun a b => Returned (Condition_eq a b))
    (fun a b => Returned (Condition_eq a b)) v w.

(** [__le__] and [__ge__] as [functools.total_ordering] derives them:
    [self < other or self == other] and [not (self < other)]. *)
Definition Condition_le (self other : Condition) : slot bool :=
  match Condition_lt self other with
  | NotImplemented => NotImplemented
  | Raised e => Raised e
  | Returned r =>
      if r then Returned true
      else
        match py_eq_cond self other with
        | Ok b => Returned b
        | Raise e => Raised e
        end
  end.

Definition Condition_ge (self other : Condition) : slot bool :=
  match Condition_lt self other with
  | NotImplemented => NotImplemented
  | Raised e => Raised e
  | Returned r => Returned (negb r)
  end.

(** [v <= w] and [v >= w] on conditions *)
Definition py_le (v w : Condition) : result bool :=
  richcompare Condition_le Condition_ge v w.

Definition py_ge (v w : Condition) : result bool :=
  richcompare Condition_ge Condition_le v w.

(** [Comparison.retrieve], [CompareAttr.retrieve] and
    [CompareItem.retrieve] *)
Definition retrieve (self : Condition) (obj : value) : result value :=
  match self with
  | CompareAttr _ identifier _ _ => getattr obj identifier
  | CompareItem _ identifier _ _ => getitem obj identifier
  | _ => Raise NotImplementedError
  end.

(** [except (AttributeError, LookupError)] *)
Definition caught (e : exn) : bool :=
  match e with
  | AttributeError => true
  | _ => is_LookupError e
  end.

(** [Comparison.match] *)
Definition Comparison_match (self : Condition) (obj : value) : result bool :=
  match (match attributes self with
         | Some (_, _, op, ref) => x <- retrieve self obj ;; apply_op op x ref
         | None => Raise AttributeError
         end) with
  | Ok b => Ok b
  | Raise e => if caught e then Ok false else Raise e
  end.

(** [IsInstance.match] *)
Definition IsInstance_match (self : Condition) (obj : value) : result bool :=
  Ok (isinstance obj (cond_type self)).

(** [c.match(obj)] *)
Definition Condition_match (self : Condition) (obj : value) : result bool :=
  match self with
  | IsInstance _ => IsInstance_match self obj
  | _ => Comparison_match self obj
  end.

(** The pattern builder [Match] and its subclasses. *)
Inductive Match : Type :=
| Match_ (tp : pytype)
| MatchAttr (tp : pytype) (attr : value)
| MatchItem (tp : pytype) (attr : value).

(** [m._type] *)
Definition Match_type (m : Match) : pytype :=
  match m with
  | Match_ tp | MatchAttr tp _ | MatchItem tp _ => tp
  end.

(** [Match.__getattr__], which the interpreter calls for the names that
    the object does not have ([_type] and [_attr] are not among them),
    and [Match.__getitem__] *)
Definition Match_getattr (m : Match) (name : string) : Match :=
  MatchAttr (Match_type m) (VStr name).

Definition Match_getitem (m : Match) (id_ : value) : Match :=
  MatchItem (Match_type m) id_.

(** [_op_func]: [self.Comparison(self._type, self._attr, op, ref)], for
    the characteristics that [Match] objects with an attribute build. *)
Definition op_func (op : operator) (m : Match) (ref : value) : option Condition :=
  match m with
  | Match_ _ => None
  | MatchAttr tp attr => Some (CompareAttr tp attr op ref)
  | MatchItem tp attr => Some (CompareItem tp attr op ref)
  end.

(** [Pattern = Union[type, Condition, Match]] *)
Inductive Pattern : Type :=
| PType (tp : pytype)
| PCondition (c : Condition)
| PMatch (m : Match).

(** ** spec.py: wrappers and their combination *)

(** [obj.copy()]: lists, dictionaries and sets have the method. *)
Definition py_copy (obj : value) : result value :=
  match obj with
  | VList _ | VDict _ | VSet _ => Ok obj
  | _ => Raise AttributeError
  end.

(** One element of the argument of [dict.update], read as a key and a
    value: it has to be an iterable of length two. *)
Definition pair_of (v : value) : result (value * value) :=
  match v with
  | VList [k; x] | VSet [k; x] => Ok (k, x)
  | VDict [(k, _); (k', _)] => Ok (k, k')
  | VList _ | VSet _ | VDict _ => Raise ValueError
  | VStr s =>
      match list_ascii_of_string s with
      | [a; b] => Ok (VStr (String a EmptyString), VStr (String b EmptyString))
      | _ => Raise ValueError
      end
  | _ => Raise TypeError
  end.

Fixpoint mapM {A B : Type} (f : A -> result B) (l : list A) : result (list B) :=
  match l with
  | [] => Ok []
  | x :: l' => y <- f x ;; ys <- mapM f l' ;; Ok (y :: ys)
  end.

(** [iter(v)] as a list of elements. *)
Definition py_iter (v : value) : result (list value) :=
  match v with
  | VList xs | VSet xs => Ok xs
  | VDict kvs => Ok (map fst kvs)
  | VStr s => Ok (map (fun c => VStr (String c EmptyString)) (list_ascii_of_string s))
  | _ => Raise TypeError
  end.

Fixpoint dict_update_items (d : list (value * value)) (items : list (value * value))
  : result (list (value * value)) :=
  match items with
  | [] => Ok d
  | (k, v) :: items' =>
      if hashable k then dict_update_items (dict_set py_eq k v d) items'
      else Raise TypeError
  end.

Fixpoint set_update_items (xs : list value) (items : list value) : result (list value) :=
  match items with
  | [] => Ok xs
  | x :: items' =>
      if hashable x then
        set_update_items (if py_in x xs then xs else xs ++ [x]) items'
      else Raise TypeError
  end.

(** [new.update(other)], returning the updated object: [dict.update]
    takes a mapping or an iterable of pairs, [set.update] an iterable of
    hashable elements; a list has no such method. *)
Definition py_update (new other : value) : result value :=
  match new with
  | VDict d =>
      items <- match other with
               | VDict kvs => Ok kvs
               | _ => xs <- py_iter other ;; mapM pair_of xs
               end ;;
      d' <- dict_update_items d items ;;
      Ok (VDict d')
  | VSet xs =>
      items <- py_iter other ;;
      xs' <- set_update_items xs items ;;
      Ok (VSet xs')
  | _ => Raise AttributeError
  end.

(** [except (ValueError, TypeError)] *)
Definition update_error (e : exn) : bool :=
  match e with
  | ValueError | TypeError => true
  | _ => false
  end.

(** [CopyUpdate.__or__], for [self = CopyUpdate(obj)] *)
Definition CopyUpdate_or (obj other : value) : slot value :=
  match (other' <- (if isinstance other TWrapper then getattr other (VStr "obj")
                    else Ok other) ;;
         new <- py_copy obj ;;
         Ok (new, other')) with
  | Raise e => Raised e
  | Ok (new, other') =>
      match py_update new other' with
      | Ok new' => Returned (VWrapper CopyUpdate new')
      | Raise e => if update_error e then NotImplemented else Raised e
      end
  end.

(** [LastSeenWins.__or__] and [LastSeenWins.__ror__] *)
Definition LastSeenWins_or (self other : value) : slot value := Returned other.

Definition LastSeenWins_ror (self other : value) : slot value := Returned self.

(** [type(self).__or__(self, other)]; the built-in [int], [dict] and [set]
    combine with their own kind only, and a class without the method
    counts as [NotImplemented]. *)
Definition or_method (self other : value) : slot value :=
  match self with
  | VWrapper CopyUpdate obj => CopyUpdate_or obj other
  | VWrapper LastSeenWins _ => LastSeenWins_or self other
  | VInt x =>
      match other with
      | VInt y => Returned (VInt (Z.lor x y))
      | _ => NotImplemented
      end
  | VDict d =>
      match other with
      | VDict d' =>
          match dict_update_items d d' with
          | Ok m => Returned (VDict m)
          | Raise e => Raised e
          end
      | _ => NotImplemented
      end
  | VSet xs =>
      match other with
      | VSet ys =>
          match set_update_items xs ys with
          | Ok m => Returned (VSet m)
          | Raise e => Raised e
          end
      | _ => NotImplemented
      end
  | _ => NotImplemented
  end.

(** [type(self).__ror__(self, other)], tried only for an [other] of a
    different class. *)
Definition ror_method (self other : value) : slot value :=
  match self with
  | VWrapper LastSeenWins _ => LastSeenWins_ror self other
  | _ => NotImplemented
  end.

(** [a | b]: [a.__or__(b)], then [b.__ror__(a)] when the classes differ,
    then a [TypeError].  (The reflected method of a proper subclass would
    go first; the only such pair here is [Wrapper] with [LastSeenWins],
    where [Wrapper] has no [__or__], so the order does not matter.) *)
Definition py_or (a b : value) : result value :=
  match or_method a b with
  | Returned v => Ok v
  | Raised e => Raise e
  | NotImplemented =>
      if pytype_eqb (type_of a) (type_of b) then Raise TypeError
      else
        match ror_method b a with
        | Returned v => Ok v
        | Raised e => Raise e
        | NotImplemented => Raise TypeError
        end
  end.

(** [functools.reduce(operator.or_, values)] *)
Fixpoint reduce_from (acc : value) (l : list value) : result value :=
  match l with
  | [] => Ok acc
  | v :: l' => acc' <- py_or acc v ;; reduce_from acc' l'
  end.

Definition reduce (l : list value) : result value :=
  match l with
  | [] => Raise TypeError
  | v :: l' => reduce_from v l'
  end.

(** ** spec.py: the condition store *)

Definition bucket : Type := list (Condition * value).

(** [Options]: [_types] is a [defaultdict(dict)] from classes to
    insertion-ordered dictionaries from conditions to values. *)
Record Options : Type := { _types : list (pytype * bucket) }.

(** [d[tp]] on the [defaultdict]: a missing key is inserted with an empty
    dictionary. *)
Definition defaultdict_get (d : list (pytype * bucket)) (tp : pytype)
  : bucket * list (pytype * bucket) :=
  match dict_get pytype_eqb tp d with
  | Some b => (b, d)
  | None => ([], d ++ [(tp, [])])
  end.

(** [Options.__getitem__] *)
Definition Options_getitem (self : Options) (condition : Condition)
  : result value * Options :=
  let '(b, d) := defaultdict_get (_types self) (cond_type condition) in
  (if Condition_hashable condition then
     match dict_get (fun k c => Condition_eq k c) condition b with
     | Some v => Ok v
     | None => Raise KeyError
     end
   else Raise TypeError,
   {| _types := d |}).

(** [Options.__setitem__] *)
Definition Options_setitem (self : Options) (condition : Condition) (v : value)
  : result unit * Options :=
  let '(b, d) := defaultdict_get (_types self) (cond_type condition) in
  if Condition_hashable condition then
    (Ok tt,
     {| _types := dict_set pytype_eqb (cond_type condition)
                    (dict_set (fun k c => Condition_eq k c) condition v b) d |})
  else (Raise TypeError, {| _types := d |}).

(** [Options.__delitem__] *)
Definition Options_delitem (self : Options) (condition : Condition)
  : result unit * Options :=
  let '(b, d) := defaultdict_get (_types self) (cond_type condition) in
  if Condition_hashable condition then
    match dict_get (fun k c => Condition_eq k c) condition b with
    | Some _ =>
        (Ok tt,
         {| _types := dict_set pytype_eqb (cond_type condition)
                        (dict_del (fun k c => Condition_eq k c) condition b) d |})
    | None => (Raise KeyError, {| _types := d |})
    end
  else (Raise TypeError, {| _types := d |}).

(** [Options.__init__]: the entries of [other] are set one by one.  The
    keys of a mapping are hashable, so none of the assignments fails. *)
Fixpoint Options_update (self : Options) (other : list (Condition * value)) : Options :=
  match other with
  | [] => self
  | (condition, v) :: other' =>
      Options_update (snd (Options_setitem self condition v)) other'
  end.

Definition Options_init (other : list (Condition * value)) : Options :=
  Options_update {| _types := [] |} other.

(** [list(iter(self))]: the conditions of all buckets, in order. *)
Definition Options_iter (self : Options) : list Condition :=
  flat_map (fun tb => map fst (snd tb)) (_types self).

(** [len(self)] *)
Definition Options_len (self : Options) : nat :=
  list_sum (map (fun tb => List.length (snd tb)) (_types self)).

(** [list(self.items())]: the entries of all buckets, in order. *)
Definition Options_items (self : Options) : list (Condition * value) :=
  flat_map snd (_types self).

(** [[(cond, val) for cond, val in b.items() if cond.match(obj)]] *)
Fixpoint matching (b : bucket) (obj : value) : result bucket :=
  match b with
  | [] => Ok []
  | (cond, val) :: b' =>
      m <- Condition_match cond obj ;;
      rest <- matching b' obj ;;
      Ok (if m then (cond, val) :: rest else rest)
  end.

(** [sorted(options, key=operator.itemgetter(0))] *)
Definition sort_options (options : bucket) : result bucket :=
  sorted (fun x y => py_lt (fst x) (fst y)) options.

(** The loop of [Options.match] over the classes [tps], with the
    [defaultdict] as state. *)
Fixpoint walk (obj : value) (typewise : bool) (tps : list pytype)
    (d : list (pytype * bucket)) (options : bucket)
  : result bucket * list (pytype * bucket) :=
  match tps with
  | [] => (Ok options, d)
  | tp :: tps' =>
      let '(b, d') := defaultdict_get d tp in
      match (tp_options <- matching b obj ;;
             if typewise then sort_options tp_options else Ok tp_options) with
      | Raise e => (Raise e, d')
      | Ok tp_options => walk obj typewise tps' d' (options ++ tp_options)
      end
  end.

(** [f'No matching conditions found for object {obj!r}'] *)
Definition no_match_message (obj : value) : string :=
  "No matching conditions found for object " ++ repr E obj.

(** [Options.match] *)
Definition Options_match (self : Options) (obj : value) (typewise : bool)
  : result value * Options :=
  let '(r, d) := walk obj typewise (rev (mro (type_of obj))) (_types self) [] in
  (options <- r ;;
   options <- (if typewise then Ok options else sort_options options) ;;
   match options with
   | [] => Raise (NoMatchError (no_match_message obj))
   | _ => reduce (map snd options)
   end,
   {| _types := d |}).

(** *** Notions used to state what the store does *)

(** The bucket stored under a class, empty when there is none
    ([self._types.get(tp, {})]). *)
Definition bucket_of (d : list (pytype * bucket)) (tp : pytype) : bucket :=
  match dict_get pytype_eqb tp d with
  | Some b => b
  | None => []
  end.

(** An entry that [Options.match] consults for [obj]: it is stored under a
    class of the linearisation of [type(obj)]. *)
Definition consulted (self : Options) (obj : value) (c : Condition) (v : value) : Prop :=
  exists tp, In tp (mro (type_of obj)) /\ In (c, v) (bucket_of (_types self) tp).

(** [cond.match(obj)] returned [True]. *)
Definition satisfied (obj : value) (cv : Condition * value) : bool :=
  match Condition_match (fst cv) obj with
  | Ok true => true
  | _ => false
  end.

(** The satisfied entries stored under a class, in the order in which
    [Options.match] appends them to [options] (as they are stored, should
    the sort raise). *)
Definition level (obj : value) (typewise : bool) (d : list (pytype * bucket))
    (tp : pytype) : bucket :=
  let s := filter (satisfied obj) (bucket_of d tp) in
  if typewise then
    match sort_options s with
    | Ok s' => s'
    | Raise _ => s
    end
  else s.

(** The satisfied entries of the buckets of the classes [tps], bucket by
    bucket, each bucket sorted with [typewise]; the exception of the
    first sort that raises. *)
Fixpoint gather (obj : value) (typewise : bool) (d : list (pytype * bucket))
    (tps : list pytype) : result bucket :=
  match tps with
  | [] => Ok []
  | tp :: tps' =>
      let s := filter (satisfied obj) (bucket_of d tp) in
      s' <- (if typewise then sort_options s else Ok s) ;;
      rest <- gather obj typewise d tps' ;;
      Ok (s' ++ rest)
  end.

(** The satisfied entries in the order in which [Options.match] folds
    their values, or the exception of the sort that raises. *)
Definition selection (self : Options) (obj : value) (typewise : bool)
  : result bucket :=
  opts <- gather obj typewise (_types self) (rev (mro (type_of obj))) ;;
  if typewise then Ok opts else sort_options opts.

(** The entries that [Options.match] folds, in that order: none when a
    sort raises, since nothing is folded then. *)
Definition selected (self : Options) (obj : value) (typewise : bool) : bucket :=
  match selection self obj typewise with
  | Ok l => l
  | Raise _ => []
  end.

(** The object is not itself a class: no class of its linearisation is
    [type] or a metaclass. *)
Definition not_a_class (obj : value) : Prop :=
  forall tp, In tp (mro (type_of obj)) -> is_metaclass tp = false.

(** Every consulted condition's [match] returns a boolean. *)
Definition all_return (self : Options) (obj : value) : Prop :=
  forall c v, consulted self obj c v -> exists b, Condition_match c obj = Ok b.

(** No consulted condition's [match] returns [True]. *)
Definition none_satisfied (self : Options) (obj : value) : Prop :=
  forall c v, consulted self obj c v -> Condition_match c obj <> Ok true.

(** [x] occurs before [y] in [l]. *)
Definition precedes (x y : pytype) (l : list pytype) : Prop :=
  exists pre mid post, l = pre ++ x :: mid ++ y :: post.

(** A well-formed linearisation, as the interpreter computes it: no class
    occurs twice and every class comes before its proper ancestors. *)
Definition linearised (T : pytype) : Prop :=
  NoDup (mro T) /\
  forall S S', In S (mro T) -> In S' (mro S) -> S' <> S -> precedes S S' (mro T).

(** No two distinct classes are in each other's linearisation: what the
    interpreter guarantees of every class hierarchy. *)
Definition acyclic : Prop :=
  forall S T, In S (mro T) -> In T (mro S) -> S = T.

(** Buckets without entries, as reading the [defaultdict] leaves them
    behind. *)
Definition empties (extra : list (pytype * bucket)) : Prop :=
  Forall (fun tb => snd tb = []) extra.

(** [all_return], decided. *)
Definition all_return_b (self : Options) (obj : value) : bool :=
  forallb
    (fun tp =>
       forallb (fun cv => match Condition_match (fst cv) obj with
                          | Ok _ => true
                          | Raise _ => false
                          end)
         (bucket_of (_types self) tp))
    (mro (type_of obj)).

(** [CompareAttr] and [CompareItem], the comparisons that retrieve. *)
Definition retrieving (c : Condition) : bool :=
  match c with
  | CompareAttr _ _ _ _ | CompareItem _ _ _ _ => true
  | _ => false
  end.

(** An attribute named by a string, a hashable key of a dictionary and an
    integer index of a list or a string are the retrievals whose failure
    is an [AttributeError] or a [LookupError]. *)
Definition lookup_only (c : Condition) (obj : value) : bool :=
  match c with
  | CompareAttr _ (VStr _) _ _ => true
  | CompareItem _ (VInt _) _ _ =>
      match obj with
      | VList _ | VStr _ | VDict _ => true
      | _ => false
      end
  | CompareItem _ i _ _ =>
      match obj with
      | VDict _ => hashable i
      | _ => false
      end
  | _ => false
  end.

(** ** spec.py: the facade *)

Record Spec : Type := { options : Options }.

(** [Spec.__init__]: [options or Options()], where an empty store is
    falsy. *)
Definition Spec_init (o : option Options) : Spec :=
  match o with
  | Some o' =>
      if (Options_len o' =? 0)%nat then {| options := Options_init [] |}
      else {| options := o' |}
  | None => {| options := Options_init [] |}
  end.

(** [Spec.make_condition_from_pattern] *)
Definition make_condition_from_pattern (pattern : Pattern) : Condition :=
  match pattern with
  | PType tp => IsInstance tp
  | PMatch m => IsInstance (Match_type m)
  | PCondition c => c
  end.

(** [Spec.unwrap] *)
Definition unwrap (v : value) : result value :=
  if isinstance v TWrapper then getattr v (VStr "obj") else Ok v.

(** [Spec.match] *)
Definition Spec_match (self : Spec) (obj : value) (typewise : bool)
  : result value * Spec :=
  let '(r, o) := Options_match (options self) obj typewise in
  (v <- r ;; unwrap v, {| options := o |}).

(** [f(x)] for the callables of the model; any other value is not
    callable. *)
Definition call (f x : value) : result value :=
  match f with
  | VCallable (Cls k) => Ok (VWrapper k x)
  | VCallable Identity => Ok x
  | _ => Raise TypeError
  end.

(** [Spec.add_pattern] on a specification [self] other than the registry:
    the state is the registry [WRAPPER_TYPES] (whose [defaultdict] the
    lookup may extend) and [self]. *)
Definition Spec_add_pattern (registry self : Spec) (pattern : Pattern) (v : value)
  : result unit * (Spec * Spec) :=
  let '(r, registry') := Spec_match registry v false in
  match (w_type <- r ;; call w_type v) with
  | Raise e => (Raise e, (registry', self))
  | Ok wrapped =>
      let '(r', o) := Options_setitem (options self)
                        (make_condition_from_pattern pattern) wrapped in
      (r', (registry', {| options := o |}))
  end.

(** [Spec.from_patterns], starting from [self = cls()] *)
Fixpoint add_patterns (registry self : Spec) (patterns : list (Pattern * value))
  : result unit * (Spec * Spec) :=
  match patterns with
  | [] => (Ok tt, (registry, self))
  | (pattern, v) :: patterns' =>
      match Spec_add_pattern registry self pattern v with
      | (Ok _, (registry', self')) => add_patterns registry' self' patterns'
      | (Raise e, st) => (Raise e, st)
      end
  end.

Definition from_patterns (registry : Spec) (patterns : list (Pattern * value))
  : result Spec * Spec :=
  match add_patterns registry (Spec_init None) patterns with
  | (Ok _, (registry', self)) => (Ok self, registry')
  | (Raise e, (registry', _)) => (Raise e, registry')
  end.

(** [Spec.__getitem__], [Spec.get_value] and [Spec.__delitem__] *)
Definition Spec_getitem (self : Spec) (pattern : Pattern) : result value * Spec :=
  let '(r, o) := Options_getitem (options self) (make_condition_from_pattern pattern) in
  (r, {| options := o |}).

Definition get_value (self : Spec) (pattern : Pattern) : result value * Spec :=
  let '(r, self') := Spec_getitem self pattern in
  (v <- r ;; unwrap v, self').

Definition Spec_delitem (self : Spec) (pattern : Pattern) : result unit * Spec :=
  let '(r, o) := Options_delitem (options self) (make_condition_from_pattern pattern) in
  (r, {| options := o |}).

End Model.

(** The initial value of the module-level registry [WRAPPER_TYPES]. *)
Definition WRAPPER_TYPES : Spec :=
  Spec_init (Some (Options_init
    [ (IsInstance TObject, VWrapper LastSeenWins (VCallable (Cls LastSeenWins)));
      (IsInstance TDict, VWrapper LastSeenWins (VCallable (Cls CopyUpdate)));
      (IsInstance TSet, VWrapper LastSeenWins (VCallable (Cls CopyUpdate)));
      (IsInstance TWrapper, VWrapper LastSeenWins (VCallable Identity)) ])).

(** The registry still holds the initial rules for the classes of a
    value: true of [WRAPPER_TYPES] as the module creates it, after any
    number of lookups, and after registrations for other classes. *)
Definition initial_rules_for (E : PyEnv) (registry : Spec) (v : value) : Prop :=
  forall tp, In tp (mro E (type_of v)) ->
             bucket_of (_types (options registry)) tp =
               bucket_of (_types (options WRAPPER_TYPES)) tp.

(** ** The invariant of the store *)

(** A bucket as [Options.__setitem__] fills it: no condition occurs
    twice, and every condition is hashable and bound to the class that
    the bucket is stored under. *)
Definition bucket_ok (tp : pytype) (b : bucket) : Prop :=
  NoDup (map fst b) /\
  forall c v, In (c, v) b -> cond_type c = tp /\ Condition_hashable c = true.

(** A store as the methods of [Options] build it: no class has two
    buckets and every bucket is as above. *)
Definition store_ok (st : Options) : Prop :=
  NoDup (map fst (_types st)) /\
  forall tp b, In (tp, b) (_types st) -> bucket_ok tp b.

(** A list whose elements with [P] all come before its elements with
    [Q]. *)
Definition split_by {A : Type} (P Q : A -> Prop) (l : list A) : Prop :=
  exists l1 l2, l = l1 ++ l2 /\ Forall P l1 /\ Forall Q l2.

(** Entries of type-based and of comparison-based conditions. *)
Definition type_based (cv : Condition * value) : Prop :=
  is_Comparison (fst cv) = false.

Definition comparison_based (cv : Condition * value) : Prop :=
  is_Comparison (fst cv) = true.

(** The satisfied entries that [Options.match] gathers for [obj], class
    by class from the most general one, before any sorting. *)
Definition gathered (E : PyEnv) (st : Options) (obj : value) : bucket :=
  flat_map (fun tp => filter (satisfied E obj) (bucket_of (_types st) tp))
    (rev (mro E (type_of obj))).

(** What [Options.match] does with the entries [l] that it folds. *)
Definition fold_or_raise (E : PyEnv) (obj : value) (l : bucket) : result value :=
  match l with
  | [] => Raise (NoMatchError (no_match_message E obj))
  | _ => reduce E (map snd l)
  end.

(** The wrapper class that the initial rules of [WRAPPER_TYPES] give to
    a value of a built-in class: the rule of [dict] or [set] where there
    is one, else the rule of [object].  Wrappers, which the registry
    leaves alone, and instances of user-defined classes, whose ancestors
    decide, have none here. *)
Definition builtin_wrapper (v : value) : option wrapper_cls :=
  match v with
  | VDict _ | VSet _ => Some CopyUpdate
  | VInt _ | VStr _ | VList _ | VCallable _ => Some LastSeenWins
  | VInst _ _ | VWrapper _ _ => None
  end.

(** A value of a class of the model that lacks [copy] or [update]: a
    list has [copy] only, the others neither. *)
Definition lacks_copy_or_update (v : value) : Prop :=
  match v with
  | VInt _ | VStr _ | VList _ | VCallable _ | VWrapper _ _ => True
  | VDict _ | VSet _ | VInst _ _ => False
  end.

(** ** The class hierarchy of the test suite

    [tests/conftest.py]: [class A: a = 0], [class B(A): b = 0],
    [class C(B): c = 0]. *)
Definition test_env : PyEnv := {|
  user_mro := fun name =>
    if String.eqb name "C" then [TUser "B"; TUser "A"; TObject]
    else if String.eqb name "B" then [TUser "A"; TObject]
    else [TObject];
  class_attrs := fun T =>
    match T with
    | TUser name =>
        if String.eqb name "A" then [("a", VInt 0)]
        else if String.eqb name "B" then [("b", VInt 0)]
        else if String.eqb name "C" then [("c", VInt 0)]
        else []
    | _ => []
    end;
  custom_op := fun _ _ _ => Raise TypeError;
  repr := fun _ => "<object>"
|}.

Definition type_a : pytype := TUser "A".
Definition type_b : pytype := TUser "B".
Definition type_c : pytype := TUser "C".

(** [dict(name=...)] and [dict(msg=...)] *)
Definition name_ (s : string) : value := VDict [(VStr "name", VStr s)].
Definition msg_ (s : string) : value := VDict [(VStr "msg", VStr s)].

(** The [patterns] fixture of [tests/test_spec.py]. *)
Definition test_patterns : list (Pattern * value) :=
  [ (PType type_a, name_ "a");
    (PCondition (CompareAttr type_a (VStr "a") op_gt (VInt 0)), name_ "a+");
    (PCondition (CompareAttr type_a (VStr "a") op_lt (VInt 0)), name_ "a-");
    (PType type_b, name_ "b");
    (PCondition (CompareAttr type_b (VStr "b") op_gt (VInt 0)), name_ "b+");
    (PCondition (CompareAttr type_b (VStr "b") op_lt (VInt 0)), name_ "b-");
    (PMatch (Match_ type_c), name_ "c");
    (PCondition (CompareAttr type_c (VStr "a") op_gt (VInt 0)), name_ "ca+");
    (PCondition (CompareAttr type_c (VStr "a") op_lt (VInt 0)), name_ "ca-");
    (PMatch (Match_ TDict), msg_ "just a dict");
    (PCondition (CompareItem TDict (VStr "key") op_eq (VStr "value")),
     msg_ "dict with value");
    (PCondition (CompareItem TList (VInt 0) op_eq (VStr "first")),
     msg_ "first things first") ].

(** The [spec] fixture: [Spec.from_patterns(patterns)]. *)
Definition test_spec : Spec :=
  match fst (from_patterns test_env WRAPPER_TYPES test_patterns) with
  | Ok spec => spec
  | Raise _ => Spec_init None
  end.

(** A store with a type-based condition of [B] and a comparison bound to
    its base class [A], and an instance of [B] that satisfies both. *)
Definition precedence_store : Options :=
  Options_init
    [ (IsInstance type_b, VWrapper LastSeenWins (VStr "b"));
      (CompareAttr type_a (VStr "a") op_gt (VInt 0),
       VWrapper LastSeenWins (VStr "a+")) ].

Definition b_with_a : value := VInst "B" [("a", VInt 1)].

(** [match(int)[0] == 0]: a comparison of an item, bound to [int]. *)
Definition item_of_int : Condition := CompareItem TInt (VInt 0) op_eq (VInt 0).

(** [Options({match(A).a > 0: LastSeenWins('v')})] and an instance of
    [A] whose attribute [a] is a string. *)
Definition a_positive : Condition := CompareAttr type_a (VStr "a") op_gt (VInt 0).

Definition a_positive_store : Options :=
  Options_init [(a_positive, VWrapper LastSeenWins (VStr "v"))].

Definition a_with_string : value := VInst "A" [("a", VStr "x")].

(** [Spec.from_patterns({object: dict(), int: 'not a mapping'})], the
    specification of [test_last_seen_wins_on_impossible_update]. *)
Definition impossible_update_spec : Spec :=
  match fst (from_patterns test_env WRAPPER_TYPES
               [ (PType TObject, VDict []); (PType TInt, VStr "not a mapping") ]) with
  | Ok spec => spec
  | Raise _ => Spec_init None
  end.


(** * Properties *)

(** ** Facts about [sorted] *)

Section SortedFacts.
Context {A : Type} (lt : A -> A -> result bool).

Lemma run_descending_split (l : list A) :
  forall prev run rest,
    run_descending lt prev l = Ok (run, rest) -> l = run ++ rest.
Proof.
  induction l as [|x l IH]; intros prev run rest; simpl.
  - now intros [= <- <-].
  - destruct (lt x prev) as [b|e]; simpl; [| discriminate]. destruct b.
    + destruct (run_descending lt x l) as [[run' rest']|e] eqn:Hr; simpl;
        [| discriminate].
      intros [= <- <-]. simpl. f_equal. now apply (IH x).
    + now intros [= <- <-].
Qed.

Lemma run_ascending_split (l : list A) :
  forall prev run rest,
    run_ascending lt prev l = Ok (run, rest) -> l = run ++ rest.
Proof.
  induction l as [|x l IH]; intros prev run rest; simpl.
  - now intros [= <- <-].
  - destruct (lt x prev) as [b|e]; simpl; [| discriminate]. destruct b.
    + now intros [= <- <-].
    + destruct (run_ascending lt x l) as [[run' rest']|e] eqn:Hr; simpl;
        [| discriminate].
      intros [= <- <-]. simpl. f_equal. now apply (IH x).
Qed.

Lemma count_run_perm (l run rest : list A) :
  count_run lt l = Ok (run, rest) -> Permutation l (run ++ rest).
Proof.
  destruct l as [|x [|y l]]; simpl.
  - intros [= <- <-]. constructor.
  - intros [= <- <-]. apply Permutation_refl.
  - destruct (lt y x) as [b|e]; simpl; [| discriminate]. destruct b.
    + destruct (run_descending lt y l) as [[run' rest']|e] eqn:Hr; simpl;
        [| discriminate].
      intros [= <- <-]. rewrite (run_descending_split l y run' rest' Hr).
      change (Permutation ((x :: y :: run') ++ rest')
                (rev (x :: y :: run') ++ rest')).
      apply Permutation_app_tail, Permutation_rev.
    + destruct (run_ascending lt y l) as [[run' rest']|e] eqn:Hr; simpl;
        [| discriminate].
      intros [= <- <-]. rewrite (run_ascending_split l y run' rest' Hr).
      apply Permutation_refl.
Qed.

Lemma comparable_sym (x y : A) : comparable lt x y -> comparable lt y x.
Proof. intros [H1 H2]. now split. Qed.

Lemma ForallOrdPairs_perm (R : A -> A -> Prop) (l l' : list A) :
  (forall x y, R x y -> R y x) ->
  Permutation l l' -> ForallOrdPairs R l -> ForallOrdPairs R l'.
Proof.
  intros Hsym HP. induction HP as [|x l l' HP IH|x y l|l l' l'' _ IH1 _ IH2];
    intros H.
  - exact H.
  - inversion H as [|? ? Hx Hl]; subst. constructor; [| now apply IH].
    rewrite Forall_forall in *. intros z Hz. apply Hx.
    now apply (Permutation_in z (Permutation_sym HP)).
  - inversion H as [|? ? Hy Hxl]; subst. inversion Hxl as [|? ? Hx Hl]; subst.
    inversion Hy as [|? ? Hyx Hyl]; subst.
    constructor; [| now constructor].
    constructor; [now apply Hsym | exact Hx].
  - now apply IH2, IH1.
Qed.

Lemma run_descending_total (l : list A) :
  forall prev,
    Forall (comparable lt prev) l -> ForallOrdPairs (comparable lt) l ->
    exists run rest, run_descending lt prev l = Ok (run, rest).
Proof.
  induction l as [|x l IH]; intros prev Hprev Hord; simpl.
  - now exists [], [].
  - inversion Hprev as [|? ? [_ [b Hb]] _]; subst.
    inversion Hord as [|? ? Hx Hl]; subst.
    rewrite Hb. simpl. destruct b.
    + destruct (IH x Hx Hl) as (run & rest & ->). simpl. eauto.
    + eauto.
Qed.

Lemma run_ascending_total (l : list A) :
  forall prev,
    Forall (comparable lt prev) l -> ForallOrdPairs (comparable lt) l ->
    exists run rest, run_ascending lt prev l = Ok (run, rest).
Proof.
  induction l as [|x l IH]; intros prev Hprev Hord; simpl.
  - now exists [], [].
  - inversion Hprev as [|? ? [_ [b Hb]] _]; subst.
    inversion Hord as [|? ? Hx Hl]; subst.
    rewrite Hb. simpl. destruct b.
    + eauto.
    + destruct (IH x Hx Hl) as (run & rest & ->). simpl. eauto.
Qed.

Lemma count_run_total (l : list A) :
  ForallOrdPairs (comparable lt) l ->
  exists run rest, count_run lt l = Ok (run, rest).
Proof.
  destruct l as [|x [|y l]]; intros Hord; simpl; [eauto | eauto |].
  inversion Hord as [|? ? Hx Hyl]; subst.
  inversion Hx as [|? ? [_ [b Hb]] _]; subst.
  inversion Hyl as [|? ? Hy Hl]; subst.
  rewrite Hb. simpl. destruct b.
  - destruct (run_descending_total l y Hy Hl) as (run & rest & ->). simpl. eauto.
  - destruct (run_ascending_total l y Hy Hl) as (run & rest & ->). simpl. eauto.
Qed.

Lemma bisect_total (fuel : nat) (pivot : A) (pre : list A) :
  Forall (comparable lt pivot) pre ->
  forall l r, exists i, bisect lt fuel pivot pre l r = Ok i.
Proof.
  intros Hpre. induction fuel as [|fuel IH]; intros l r; simpl.
  - now exists l.
  - destruct (l <? r)%nat; [| now exists l].
    destruct (nth_error pre (l + Nat.div2 (r - l))) as [x|] eqn:Hnth; [| now exists l].
    apply nth_error_In in Hnth. rewrite Forall_forall in Hpre.
    destruct (Hpre x Hnth) as [[b ->] _]. simpl. destruct b; apply IH.
Qed.

Lemma run_descending_Raise (l : list A) :
  forall prev e,
    run_descending lt prev l = Raise e -> exists a b, lt a b = Raise e.
Proof.
  induction l as [|x l IH]; intros prev e; simpl; [discriminate |].
  destruct (lt x prev) as [b|e'] eqn:Hlt; simpl; [| intros [= <-]; eauto].
  destruct b; [| discriminate].
  destruct (run_descending lt x l) as [[run rest]|e'] eqn:Hr; simpl; [discriminate |].
  intros [= <-]. now apply (IH x).
Qed.

Lemma run_ascending_Raise (l : list A) :
  forall prev e,
    run_ascending lt prev l = Raise e -> exists a b, lt a b = Raise e.
Proof.
  induction l as [|x l IH]; intros prev e; simpl; [discriminate |].
  destruct (lt x prev) as [b|e'] eqn:Hlt; simpl; [| intros [= <-]; eauto].
  destruct b; [discriminate |].
  destruct (run_ascending lt x l) as [[run rest]|e'] eqn:Hr; simpl; [discriminate |].
  intros [= <-]. now apply (IH x).
Qed.

Lemma count_run_Raise (l : list A) (e : exn) :
  count_run lt l = Raise e -> exists a b, lt a b = Raise e.
Proof.
  destruct l as [|x [|y l]]; simpl; [discriminate | discriminate |].
  destruct (lt y x) as [b|e'] eqn:Hlt; simpl; [| intros [= <-]; eauto].
  destruct b.
  - destruct (run_descending lt y l) as [[run rest]|e'] eqn:Hr; simpl; [discriminate |].
    intros [= <-]. now apply (run_descending_Raise l y).
  - destruct (run_ascending lt y l) as [[run rest]|e'] eqn:Hr; simpl; [discriminate |].
    intros [= <-]. now apply (run_ascending_Raise l y).
Qed.

Lemma bisect_Raise (fuel : nat) (pivot : A) (pre : list A) (e : exn) :
  forall l r,
    bisect lt fuel pivot pre l r = Raise e -> exists a b, lt a b = Raise e.
Proof.
  induction fuel as [|fuel IH]; intros l r; simpl; [discriminate |].
  destruct (l <? r)%nat; [| discriminate].
  destruct (nth_error pre (l + Nat.div2 (r - l))) as [x|]; [| discriminate].
  destruct (lt pivot x) as [b|e'] eqn:Hlt; simpl; [| intros [= <-]; eauto].
  destruct b; apply IH.
Qed.

End SortedFacts.

(** The fuel that [binarysort] gives to [bisect] is enough: any amount
    above the width of the interval gives the same position. *)
Lemma bisect_fuel {A : Type} (lt : A -> A -> result bool) (pivot : A) (pre : list A) :
  forall f1 f2 l r,
    (r - l < f1)%nat -> (r - l < f2)%nat ->
    bisect lt f1 pivot pre l r = bisect lt f2 pivot pre l r.
Proof.
  induction f1 as [|f1 IH]; intros f2 l r H1 H2; [lia |].
  destruct f2 as [|f2]; [lia |]. simpl.
  destruct (l <? r)%nat eqn:Hlt; [| reflexivity].
  apply Nat.ltb_lt in Hlt.
  assert (Hdiv : (Nat.div2 (r - l) < r - l)%nat) by (apply Nat.lt_div2; lia).
  generalize dependent (Nat.div2 (r - l)). intros d Hdiv.
  destruct (nth_error pre (l + d)) as [x|]; [| reflexivity].
  destruct (lt pivot x) as [b|e]; simpl; [| reflexivity].
  destruct b; apply IH; lia.
Qed.

Section SortedPerm.
Context {A : Type} (lt : A -> A -> result bool).

Lemma insert_at_perm (i : nat) (x : A) (pre : list A) :
  Permutation (x :: pre) (insert_at i x pre).
Proof.
  unfold insert_at. rewrite <- (firstn_skipn i pre) at 1.
  apply Permutation_middle.
Qed.

Lemma binarysort_perm (rest : list A) :
  forall pre l', binarysort lt pre rest = Ok l' -> Permutation (pre ++ rest) l'.
Proof.
  induction rest as [|x rest IH]; intros pre l'; cbn [binarysort].
  - intros [= <-]. rewrite app_nil_r. apply Permutation_refl.
  - destruct (bisect lt (S (List.length pre)) x pre 0 (List.length pre)) as [i|e];
      cbn [bind]; [| discriminate].
    intros Hs. apply IH in Hs.
    eapply Permutation_trans; [| exact Hs].
    eapply Permutation_trans; [apply Permutation_sym, Permutation_middle |].
    change (Permutation ((x :: pre) ++ rest) (insert_at i x pre ++ rest)).
    apply Permutation_app_tail, insert_at_perm.
Qed.

(** What [sorted] returns is a permutation of its argument. *)
Lemma sorted_perm (l l' : list A) :
  sorted lt l = Ok l' -> Permutation l l'.
Proof.
  unfold sorted.
  destruct (count_run lt l) as [[run rest]|e] eqn:Hc; simpl; [| discriminate].
  intros Hs. apply binarysort_perm in Hs. apply count_run_perm in Hc.
  eapply Permutation_trans; eassumption.
Qed.

Lemma binarysort_total (rest : list A) :
  forall pre,
    ForallOrdPairs (comparable lt) (pre ++ rest) ->
    exists l', binarysort lt pre rest = Ok l'.
Proof.
  induction rest as [|x rest IH]; intros pre Hord; cbn [binarysort].
  - now exists pre.
  - assert (Hord' : ForallOrdPairs (comparable lt) (x :: pre ++ rest)).
    { apply (ForallOrdPairs_perm (comparable lt) (pre ++ x :: rest));
        [apply (comparable_sym lt) | apply Permutation_sym, Permutation_middle | exact Hord]. }
    inversion Hord' as [|? ? Hx Hrest]; subst.
    apply Forall_app in Hx as [Hpre _].
    destruct (bisect_total lt (S (List.length pre)) x pre Hpre 0 (List.length pre))
      as [i Hi].
    rewrite Hi. cbn [bind]. apply IH.
    apply (ForallOrdPairs_perm (comparable lt) ((x :: pre) ++ rest));
      [apply (comparable_sym lt) | apply Permutation_app_tail, insert_at_perm | exact Hord'].
Qed.

(** When any two elements at different places of the list can be
    compared, [sorted] returns. *)
Lemma sorted_total (l : list A) :
  ForallOrdPairs (comparable lt) l -> exists l', sorted lt l = Ok l'.
Proof.
  intros Hord. unfold sorted.
  destruct (count_run_total lt l Hord) as (run & rest & Hc). rewrite Hc. simpl.
  apply binarysort_total.
  apply (ForallOrdPairs_perm (comparable lt) l);
    [apply (comparable_sym lt) | exact (count_run_perm lt _ _ _ Hc) | exact Hord].
Qed.

Lemma binarysort_Raise (rest : list A) (e : exn) :
  forall pre, binarysort lt pre rest = Raise e -> exists a b, lt a b = Raise e.
Proof.
  induction rest as [|x rest IH]; intros pre; cbn [binarysort]; [discriminate |].
  destruct (bisect lt (S (List.length pre)) x pre 0 (List.length pre)) as [i|e']
    eqn:Hb; cbn [bind].
  - apply IH.
  - intros [= <-]. now apply (bisect_Raise lt _ _ _ _ _ _ Hb).
Qed.

(** An exception of [sorted] is the exception of a comparison. *)
Lemma sorted_Raise (l : list A) (e : exn) :
  sorted lt l = Raise e -> exists a b, lt a b = Raise e.
Proof.
  unfold sorted.
  destruct (count_run lt l) as [[run rest]|e'] eqn:Hc; simpl.
  - apply binarysort_Raise.
  - intros [= <-]. now apply (count_run_Raise lt l).
Qed.

End SortedPerm.

(** ** The order on conditions *)

Section Order.
Variable E : PyEnv.

Lemma pytype_eqb_refl (T : pytype) : pytype_eqb T T = true.
Proof. unfold pytype_eqb. destruct (pytype_eq_dec T T); congruence. Qed.

Lemma pytype_eqb_eq (S T : pytype) : pytype_eqb S T = true <-> S = T.
Proof. unfold pytype_eqb. destruct (pytype_eq_dec S T); split; congruence. Qed.

Lemma type_in_In (T : pytype) (l : list pytype) : type_in T l = true <-> In T l.
Proof.
  unfold type_in. rewrite existsb_exists. split.
  - intros (x & Hx & Heq). apply pytype_eqb_eq in Heq. now subst.
  - intros H. exists T. split; [exact H | apply pytype_eqb_refl].
Qed.

Lemma mro_self (T : pytype) : In T (mro E T).
Proof. destruct T; simpl; auto. Qed.

(** [<] on two [IsInstance] conditions: the membership test, after the
    call [mro()] on the class of the right operand. *)
Lemma py_lt_IsInstance (A B : pytype) :
  py_lt E (IsInstance A) (IsInstance B) = (l <- mro_call E B ;; Ok (type_in A l)).
Proof. cbn. now destruct (mro_call E B). Qed.

(** [<] on conditions raises nothing but the [TypeError] of [mro()]. *)
Lemma py_lt_error (a b : Condition) (e : exn) :
  py_lt E a b = Raise e -> e = TypeError.
Proof.
  destruct a, b; cbn; unfold mro_call;
    repeat match goal with
           | |- context [if ?c then _ else _] => destruct c; cbn
           end; congruence.
Qed.

(** An [IsInstance] condition bound to [type] or to a metaclass cannot be
    the right operand of [<] with another [IsInstance] condition. *)
Lemma py_lt_metaclass (A B : pytype) :
  is_metaclass E B = true ->
  py_lt E (IsInstance A) (IsInstance B) = Raise TypeError.
Proof. intros HB. rewrite py_lt_IsInstance. unfold mro_call. now rewrite HB. Qed.

(** [<] returns unless both operands are [IsInstance] conditions and the
    right one is bound to [type] or to a metaclass. *)
Lemma py_lt_returns (a b : Condition) :
  is_Comparison a = true \/ is_Comparison b = true \/
  is_metaclass E (cond_type b) = false ->
  exists r, py_lt E a b = Ok r.
Proof.
  destruct a, b; cbn; unfold mro_call; intros [H | [H | H]];
    try discriminate; try rewrite H;
    repeat match goal with
           | |- context [if ?c then _ else _] => destruct c; cbn
           end; eauto.
Qed.

(** An [IsInstance] condition is below every [Comparison] and no
    [Comparison] is below an [IsInstance] condition. *)
Lemma IsInstance_lt_Comparison (tp : pytype) (C : Condition) :
  is_Comparison C = true ->
  py_lt E (IsInstance tp) C = Ok true /\ py_lt E C (IsInstance tp) = Ok false.
Proof. destruct C; cbn; intros H; try discriminate; split; reflexivity. Qed.

(** C1: for every [IsInstance] condition [D] and every [Comparison]
    condition [C] (of any of the three comparison classes, with any bound
    type, identifier, operator and reference value), [D < C] evaluates to
    true and [C < D] evaluates to false. *)
Theorem cross_kind_ordering (D C : Condition) :
  cls_of D = IsInstance_cls ->
  is_Comparison C = true ->
  py_lt E D C = Ok true /\ py_lt E C D = Ok false.
Proof.
  intros HD HC. destruct D; try discriminate.
  now apply IsInstance_lt_Comparison.
Qed.

(** C5 (the code at the failing input): an [IsInstance] condition of a
    class that is not a metaclass is below itself, because a class is a
    member of its own linearisation, although it also equals itself; of
    the derived comparisons, [>=] then denies what [==] and [<=]
    affirm.  (For [type] and for a metaclass the comparison raises.) *)
Theorem IsInstance_lt_reflexive (T : pytype) :
  is_metaclass E T = false ->
  py_lt E (IsInstance T) (IsInstance T) = Ok true /\
  Condition_eq (IsInstance T) (IsInstance T) = true /\
  py_le E (IsInstance T) (IsInstance T) = Ok true /\
  py_ge E (IsInstance T) (IsInstance T) = Ok false.
Proof.
  intros HT.
  assert (H : type_in T (mro E T) = true) by (apply type_in_In, mro_self).
  assert (Hlt : Condition_lt E (IsInstance T) (IsInstance T) = Returned true).
  { cbn. unfold mro_call. now rewrite HT, H. }
  unfold py_lt, py_le, py_ge, richcompare, Condition_le, Condition_ge.
  cbn [cls_of proper_subclass app]. rewrite Hlt. cbn.
  rewrite pytype_eqb_refl. repeat split; reflexivity.
Qed.

(** For distinct classes of an acyclic hierarchy the order is
    antisymmetric, related or not. *)
Lemma IsInstance_lt_antisymmetric (A B : pytype) :
  acyclic E ->
  A <> B ->
  ~ (py_lt E (IsInstance A) (IsInstance B) = Ok true /\
     py_lt E (IsInstance B) (IsInstance A) = Ok true).
Proof.
  intros Hacyc Hneq. rewrite !py_lt_IsInstance. unfold mro_call.
  destruct (is_metaclass E A), (is_metaclass E B); cbn;
    intros [H1 H2]; try discriminate.
  injection H1 as H1. injection H2 as H2.
  apply type_in_In in H1, H2. apply Hneq. now apply Hacyc.
Qed.


End Order.

(** ** Matching a single condition *)

Section Matching.
Variable E : PyEnv.

Lemma seq_index_errors {A : Type} (xs : list A) (i : Z) (e : exn) :
  seq_index xs i = Raise e -> e = IndexError.
Proof.
  unfold seq_index.
  destruct (_ && _)%bool; [| congruence].
  destruct (nth_error _ _); congruence.
Qed.

(** Retrieval fails with an [AttributeError], a [KeyError], an
    [IndexError] or a [TypeError] only. *)
Lemma retrieve_errors (c : Condition) (obj : value) (e : exn) :
  retrieving c = true ->
  retrieve E c obj = Raise e ->
  e = AttributeError \/ e = KeyError \/ e = IndexError \/ e = TypeError.
Proof.
  destruct c as [| | tp i op r | tp i op r]; try discriminate; intros _; simpl.
  - unfold getattr. destruct i; try (intros [= <-]; tauto).
    destruct (dict_get _ _ _); [discriminate |].
    destruct (class_lookup _ _ _); [discriminate |].
    intros [= <-]; tauto.
  - unfold getitem. destruct obj; try (intros [= <-]; tauto).
    + destruct i; try (intros [= <-]; tauto).
      destruct (seq_index _ _) eqn:Hs; simpl; [discriminate |].
      intros [= <-]. apply seq_index_errors in Hs. tauto.
    + destruct i; try (intros [= <-]; tauto).
      intros Hs. apply seq_index_errors in Hs. tauto.
    + destruct (hashable i); [| intros [= <-]; tauto].
      destruct (dict_get _ _ _); [discriminate |].
      intros [= <-]; tauto.
Qed.

Lemma lookup_only_caught (c : Condition) (obj : value) (e : exn) :
  lookup_only c obj = true ->
  retrieve E c obj = Raise e ->
  caught e = true.
Proof.
  destruct c as [| | tp i op r | tp i op r]; try discriminate; simpl.
  - destruct i; try discriminate. intros _. unfold getattr.
    destruct (dict_get _ _ _); [discriminate |].
    destruct (class_lookup _ _ _); [discriminate |].
    now intros [= <-].
  - unfold getitem.
    destruct i, obj; try discriminate; simpl; intros _;
      repeat match goal with
             | |- context [seq_index ?xs ?z] =>
                 let Hs := fresh "Hs" in
                 destruct (seq_index xs z) eqn:Hs; simpl;
                 [| apply seq_index_errors in Hs; subst ]
             | |- context [dict_get ?f ?k ?d] => destruct (dict_get f k d)
             end;
      try discriminate; now intros [= <-].
Qed.

(** [Comparison.match], spelled out for a condition with known
    attributes. *)
Lemma Comparison_match_unfold (c : Condition) (obj : value)
    (tp : pytype) (i : value) (op : operator) (r : value) :
  attributes c = Some (tp, i, op, r) ->
  Condition_match E c obj =
    match (x <- retrieve E c obj ;; apply_op E op x r) with
    | Ok b => Ok b
    | Raise e => if caught e then Ok false else Raise e
    end.
Proof.
  destruct c; try discriminate; simpl; intros [= -> -> -> ->]; reflexivity.
Qed.

(** C2, amended: [match] of a [CompareAttr] or [CompareItem] condition
    returns a boolean or raises.  A retrieval that fails with an
    [AttributeError] or a [LookupError] (a missing attribute, a missing
    key, an index out of range) gives [False]; a retrieval that succeeds
    gives the result of the operator, or [False] when the operator raises
    one of these two.  Every other exception, of the retrieval or of the
    operator, is not caught and leaves [match] as it is; these are the
    only exceptions that leave [match]: a [TypeError] of the retrieval
    (the object does not support the access) and the exceptions of the
    operator that the [except] clause does not name. *)
Theorem Comparison_match_outcome (c : Condition) (obj : value)
    (tp : pytype) (i : value) (op : operator) (r : value) :
  retrieving c = true ->
  attributes c = Some (tp, i, op, r) ->
  (forall e, retrieve E c obj = Raise e -> caught e = true ->
             Condition_match E c obj = Ok false) /\
  (lookup_only c obj = true ->
   forall e, retrieve E c obj = Raise e -> Condition_match E c obj = Ok false) /\
  (forall x b, retrieve E c obj = Ok x -> apply_op E op x r = Ok b ->
               Condition_match E c obj = Ok b) /\
  (forall x e, retrieve E c obj = Ok x -> apply_op E op x r = Raise e ->
               caught e = true -> Condition_match E c obj = Ok false) /\
  (forall e, Condition_match E c obj = Raise e ->
             caught e = false /\
             ((e = TypeError /\ retrieve E c obj = Raise TypeError) \/
              (exists x, retrieve E c obj = Ok x /\ apply_op E op x r = Raise e))) /\
  (forall e, retrieve E c obj = Raise e -> caught e = false ->
             Condition_match E c obj = Raise e) /\
  (forall x e, retrieve E c obj = Ok x -> apply_op E op x r = Raise e ->
               caught e = false -> Condition_match E c obj = Raise e).
Proof.
  intros Hc Hattr.
  rewrite (Comparison_match_unfold c obj tp i op r Hattr).
  split; [| split; [| split; [| split; [| split; [| split]]]]];
    [| | | | | intros e -> He; simpl; now rewrite He
           | intros x e -> Hop He; simpl; now rewrite Hop, He].
  - intros e -> He. simpl. now rewrite He.
  - intros Hl e He. rewrite He. simpl.
    now rewrite (lookup_only_caught c obj e Hl He).
  - intros x b -> Hop. simpl. now rewrite Hop.
  - intros x e -> Hop He. simpl. now rewrite Hop, He.
  - intros e.
    destruct (retrieve E c obj) as [x|e'] eqn:Hr; simpl.
    + destruct (apply_op E op x r) as [b|e''] eqn:Hop; [discriminate |].
      destruct (caught e'') eqn:Hcaught; [discriminate |].
      intros [= <-]. split; [exact Hcaught |]. right. now exists x.
    + destruct (caught e') eqn:Hcaught; [discriminate |].
      intros [= <-]. split; [exact Hcaught |]. left.
      destruct (retrieve_errors c obj e' Hc Hr) as [-> | [-> | [-> | ->]]];
        try discriminate. split; reflexivity.
Qed.

(** The bound type plays no part in [match] of a comparison. *)
Lemma Comparison_match_type_irrelevant (tp tp' : pytype) (i : value)
    (op : operator) (r : value) (obj : value) :
  Condition_match E (Comparison tp i op r) obj =
    Condition_match E (Comparison tp' i op r) obj /\
  Condition_match E (CompareAttr tp i op r) obj =
    Condition_match E (CompareAttr tp' i op r) obj /\
  Condition_match E (CompareItem tp i op r) obj =
    Condition_match E (CompareItem tp' i op r) obj.
Proof. repeat split; reflexivity. Qed.

End Matching.

(** ** The condition store *)

Section Store.
Variable E : PyEnv.

Lemma dict_get_app {K V : Type} (eqb : K -> K -> bool) (k : K) (d d' : list (K * V)) :
  dict_get eqb k (d ++ d') =
    match dict_get eqb k d with
    | Some v => Some v
    | None => dict_get eqb k d'
    end.
Proof.
  induction d as [|[k' v'] d IH]; simpl; [reflexivity |].
  destruct (eqb k' k); [reflexivity | exact IH].
Qed.

Lemma bucket_of_empties (d extra : list (pytype * bucket)) (tp : pytype) :
  empties extra -> bucket_of (d ++ extra) tp = bucket_of d tp.
Proof.
  intros Hex. unfold bucket_of. rewrite dict_get_app.
  destruct (dict_get pytype_eqb tp d); [reflexivity |].
  induction Hex as [|[tp' b] extra Hb _ IH]; simpl; [reflexivity |].
  simpl in Hb. subst b. destruct (pytype_eqb tp' tp); [reflexivity | exact IH].
Qed.

Lemma defaultdict_get_spec (d : list (pytype * bucket)) (tp : pytype) :
  exists extra,
    defaultdict_get d tp = (bucket_of d tp, d ++ extra) /\ empties extra.
Proof.
  unfold defaultdict_get, bucket_of.
  destruct (dict_get pytype_eqb tp d).
  - exists []. rewrite app_nil_r. split; [reflexivity | constructor].
  - exists [(tp, [])]. split; [reflexivity |]. repeat constructor.
Qed.

(** The state after the loop: the buckets that were there, then empty
    ones. *)
Lemma walk_state (obj : value) (tw : bool) (tps : list pytype) :
  forall d acc, exists extra,
    snd (walk E obj tw tps d acc) = d ++ extra /\ empties extra.
Proof.
  induction tps as [|tp tps IH]; intros d acc; simpl.
  - exists []. rewrite app_nil_r. split; [reflexivity | constructor].
  - destruct (defaultdict_get_spec d tp) as (ex1 & -> & H1).
    destruct (_ <- matching E (bucket_of d tp) obj ;; _) as [s|e]; simpl.
    + destruct (IH (d ++ ex1) (acc ++ s)) as (ex2 & -> & H2).
      exists (ex1 ++ ex2). rewrite app_assoc. split; [reflexivity |].
      now apply Forall_app.
    + now exists ex1.
Qed.

(** The loop reads the buckets of the classes it visits and nothing
    else. *)
Lemma walk_ext (obj : value) (tw : bool) (tps : list pytype) :
  forall d1 d2 acc,
    (forall tp, In tp tps -> bucket_of d1 tp = bucket_of d2 tp) ->
    fst (walk E obj tw tps d1 acc) = fst (walk E obj tw tps d2 acc).
Proof.
  induction tps as [|tp tps IH]; intros d1 d2 acc Hb; simpl; [reflexivity |].
  destruct (defaultdict_get_spec d1 tp) as (ex1 & -> & H1).
  destruct (defaultdict_get_spec d2 tp) as (ex2 & -> & H2).
  rewrite (Hb tp (or_introl eq_refl)).
  destruct (_ <- matching E (bucket_of d2 tp) obj ;; _) as [s|e]; simpl;
    [| reflexivity].
  apply IH. intros tp' Hin. rewrite !bucket_of_empties by assumption.
  apply Hb. now right.
Qed.

Lemma matching_filter (obj : value) (b : bucket) :
  (forall c v, In (c, v) b -> exists r, Condition_match E c obj = Ok r) ->
  matching E b obj = Ok (filter (satisfied E obj) b).
Proof.
  induction b as [|[c v] b IH]; intros Hret; simpl; [reflexivity |].
  destruct (Hret c v (or_introl eq_refl)) as [r Hr].
  unfold satisfied at 1. simpl. rewrite Hr. simpl.
  rewrite IH by (intros c' v' Hin; apply (Hret c' v'); now right).
  simpl. destruct r; reflexivity.
Qed.

Lemma sort_options_perm (s s' : bucket) :
  sort_options E s = Ok s' -> Permutation s s'.
Proof. apply sorted_perm. Qed.

(** Sorting raises nothing but the [TypeError] of [mro()]. *)
Lemma sort_options_error (s : bucket) (e : exn) :
  sort_options E s = Raise e -> e = TypeError.
Proof.
  intros H. apply sorted_Raise in H as (a & b & H). now apply py_lt_error in H.
Qed.

Lemma sort_options_returns (s : bucket) :
  ForallOrdPairs (comparable (fun x y => py_lt E (fst x) (fst y))) s ->
  exists s', sort_options E s = Ok s'.
Proof. apply sorted_total. Qed.

Lemma level_perm (obj : value) (tw : bool) (d : list (pytype * bucket)) (tp : pytype) :
  Permutation (filter (satisfied E obj) (bucket_of d tp)) (level E obj tw d tp).
Proof.
  unfold level. destruct tw; [| apply Permutation_refl].
  destruct (sort_options E (filter (satisfied E obj) (bucket_of d tp))) as [s'|e] eqn:Hs;
    [now apply sort_options_perm | apply Permutation_refl].
Qed.

Lemma gather_ext (obj : value) (tw : bool) (d d' : list (pytype * bucket))
    (tps : list pytype) :
  (forall tp, In tp tps -> bucket_of d' tp = bucket_of d tp) ->
  gather E obj tw d' tps = gather E obj tw d tps.
Proof.
  induction tps as [|tp tps IH]; intros Hb; simpl; [reflexivity |].
  rewrite (Hb tp (or_introl eq_refl)), IH; [reflexivity |].
  intros tp' Hin. apply Hb. now right.
Qed.

(** What [gather] returns is made of the levels. *)
Lemma gather_levels (obj : value) (tw : bool) (d : list (pytype * bucket))
    (tps : list pytype) :
  forall l, gather E obj tw d tps = Ok l -> l = flat_map (level E obj tw d) tps.
Proof.
  induction tps as [|tp tps IH]; intros l; simpl; [now intros [= <-] |].
  unfold level at 1.
  destruct tw.
  - destruct (sort_options E (filter (satisfied E obj) (bucket_of d tp))) as [s'|e];
      cbn [bind]; [| discriminate].
    destruct (gather E obj true d tps) as [rest|e]; cbn [bind]; [| discriminate].
    intros [= <-]. f_equal. now apply IH.
  - cbn [bind].
    destruct (gather E obj false d tps) as [rest|e]; cbn [bind]; [| discriminate].
    intros [= <-]. f_equal. now apply IH.
Qed.

Lemma flat_map_perm {A B : Type} (f g : A -> list B) (l : list A) :
  (forall x, Permutation (f x) (g x)) ->
  Permutation (flat_map f l) (flat_map g l).
Proof.
  intros H. induction l as [|x l IH]; simpl; [constructor |].
  now apply Permutation_app.
Qed.

Lemma gather_perm (obj : value) (tw : bool) (d : list (pytype * bucket))
    (tps : list pytype) (l : bucket) :
  gather E obj tw d tps = Ok l ->
  Permutation (flat_map (fun tp => filter (satisfied E obj) (bucket_of d tp)) tps) l.
Proof.
  intros H. rewrite (gather_levels obj tw d tps l H).
  apply flat_map_perm. intros tp. apply level_perm.
Qed.

(** [gather] returns when the sort of every level does. *)
Lemma gather_returns (obj : value) (tw : bool) (d : list (pytype * bucket))
    (tps : list pytype) :
  (forall tp, In tp tps -> tw = true ->
     exists s', sort_options E (filter (satisfied E obj) (bucket_of d tp)) = Ok s') ->
  gather E obj tw d tps = Ok (flat_map (level E obj tw d) tps).
Proof.
  intros Hs.
  assert (H : exists l, gather E obj tw d tps = Ok l).
  { induction tps as [|tp tps IH]; simpl; [now exists [] |].
    destruct IH as [rest Hrest]; [intros tp' Hin; apply Hs; now right |].
    rewrite Hrest. destruct tw.
    - destruct (Hs tp (or_introl eq_refl) eq_refl) as [s' ->]. cbn [bind]. eauto.
    - cbn [bind]. eauto. }
  destruct H as [l Hl]. now rewrite Hl, (gather_levels obj tw d tps l Hl).
Qed.

Lemma gather_error (obj : value) (tw : bool) (d : list (pytype * bucket))
    (tps : list pytype) (e : exn) :
  gather E obj tw d tps = Raise e -> e = TypeError.
Proof.
  induction tps as [|tp tps IH]; simpl; [discriminate |].
  destruct tw.
  - destruct (sort_options E (filter (satisfied E obj) (bucket_of d tp))) as [s'|e']
      eqn:Hs; cbn [bind].
    + destruct (gather E obj true d tps) as [rest|e']; cbn [bind]; [discriminate |].
      intros [= <-]. now apply IH.
    + intros [= <-]. now apply (sort_options_error _ _ Hs).
  - cbn [bind].
    destruct (gather E obj false d tps) as [rest|e']; cbn [bind]; [discriminate |].
    intros [= <-]. now apply IH.
Qed.

(** When no consulted condition raises, the loop gathers the satisfied
    entries level by level, or raises what a sort raises. *)
Lemma walk_gather (obj : value) (tw : bool) (tps : list pytype) :
  forall d acc,
    (forall tp c v, In tp tps -> In (c, v) (bucket_of d tp) ->
                    exists r, Condition_match E c obj = Ok r) ->
    fst (walk E obj tw tps d acc) = (l <- gather E obj tw d tps ;; Ok (acc ++ l)).
Proof.
  induction tps as [|tp tps IH]; intros d acc Hret; simpl.
  - now rewrite app_nil_r.
  - destruct (defaultdict_get_spec d tp) as (ex1 & -> & H1).
    rewrite (matching_filter obj (bucket_of d tp))
      by (intros c v; apply Hret; now left).
    cbn [bind].
    assert (Hstep : forall s',
              fst (walk E obj tw tps (d ++ ex1) (acc ++ s')) =
                (l <- (rest <- gather E obj tw d tps ;; Ok (s' ++ rest)) ;;
                 Ok (acc ++ l))).
    { intros s'. rewrite IH.
      - rewrite (gather_ext obj tw d (d ++ ex1) tps)
          by (intros tp' _; now apply bucket_of_empties).
        destruct (gather E obj tw d tps) as [rest|e]; cbn [bind]; [| reflexivity].
        now rewrite app_assoc.
      - intros tp' c v Hin. rewrite bucket_of_empties by assumption.
        apply Hret. now right. }
    destruct tw.
    + destruct (sort_options E (filter (satisfied E obj) (bucket_of d tp))) as [s'|e];
        cbn [bind fst]; [apply Hstep | reflexivity].
    + cbn [bind fst]. apply Hstep.
Qed.

Lemma matching_Raise (obj : value) (b : bucket) (e : exn) :
  matching E b obj = Raise e ->
  exists c v, In (c, v) b /\ Condition_match E c obj = Raise e.
Proof.
  induction b as [|[c v] b IH]; simpl; [discriminate |].
  destruct (Condition_match E c obj) as [m|e'] eqn:Hm; simpl.
  - destruct (matching E b obj) as [rest|e'] eqn:Hrest; simpl; [discriminate |].
    intros [= <-]. destruct (IH eq_refl) as (c' & v' & Hin & Hc').
    exists c', v'. split; [now right | exact Hc'].
  - intros [= <-]. exists c, v. split; [now left | exact Hm].
Qed.

Lemma matching_Ok (obj : value) (b l : bucket) :
  matching E b obj = Ok l ->
  forall c v, In (c, v) b -> exists r, Condition_match E c obj = Ok r.
Proof.
  revert l. induction b as [|[c v] b IH]; intros l; simpl; [intros _ c v [] |].
  destruct (Condition_match E c obj) as [m|e'] eqn:Hm; simpl; [| discriminate].
  destruct (matching E b obj) as [rest|e'] eqn:Hrest; simpl; [| discriminate].
  intros _ c' v' [[= <- <-] | Hin]; [now exists m |].
  now apply (IH rest eq_refl c' v').
Qed.

Lemma matching_Ok_filter (obj : value) (b l : bucket) :
  matching E b obj = Ok l -> l = filter (satisfied E obj) b.
Proof.
  intros H. pose proof (matching_Ok obj b l H) as Hret.
  rewrite (matching_filter obj b Hret) in H. congruence.
Qed.

(** When the sorts return, an exception of the loop is the exception of
    a condition's [match]. *)
Lemma walk_Raise (obj : value) (tw : bool) (tps : list pytype) (e : exn) :
  forall d acc,
    (forall tp, In tp tps -> tw = true ->
       exists s', sort_options E (filter (satisfied E obj) (bucket_of d tp)) = Ok s') ->
    fst (walk E obj tw tps d acc) = Raise e ->
    exists tp c v,
      In tp tps /\ In (c, v) (bucket_of d tp) /\ Condition_match E c obj = Raise e.
Proof.
  induction tps as [|tp tps IH]; intros d acc Hsort; simpl; [discriminate |].
  destruct (defaultdict_get_spec d tp) as (ex1 & -> & H1).
  destruct (matching E (bucket_of d tp) obj) as [s|e'] eqn:Hm; cbn [bind].
  - match goal with
    | |- context [match ?X with Ok _ => _ | Raise _ => _ end] =>
        assert (Hs : exists s', X = Ok s')
    end.
    { destruct tw; [| now exists s].
      rewrite (matching_Ok_filter obj _ _ Hm).
      apply (Hsort tp (or_introl eq_refl) eq_refl). }
    destruct Hs as [s' ->]. intros Hw.
    destruct (IH _ _ (fun tp' Hin Htw =>
                        eq_ind_r (fun b => exists s'0,
                                    sort_options E (filter (satisfied E obj) b) = Ok s'0)
                          (Hsort tp' (or_intror Hin) Htw)
                          (bucket_of_empties d ex1 tp' H1)) Hw)
      as (tp' & c & v & Hin & Hcv & Hc).
    exists tp', c, v. split; [now right |]. split; [| exact Hc].
    now rewrite bucket_of_empties in Hcv.
  - simpl. intros [= <-].
    destruct (matching_Raise obj _ _ Hm) as (c & v & Hin & Hc).
    exists tp, c, v. split; [now left |]. now split.
Qed.

(** A loop that completes has consulted conditions that all returned. *)
Lemma walk_Ok (obj : value) (tw : bool) (tps : list pytype) :
  forall d acc l,
    fst (walk E obj tw tps d acc) = Ok l ->
    forall tp c v, In tp tps -> In (c, v) (bucket_of d tp) ->
                   exists r, Condition_match E c obj = Ok r.
Proof.
  induction tps as [|tp tps IH]; intros d acc l; simpl; [intros _ tp c v [] |].
  destruct (defaultdict_get_spec d tp) as (ex1 & -> & H1).
  destruct (matching E (bucket_of d tp) obj) as [s|e'] eqn:Hm; cbn [bind];
    [| discriminate].
  match goal with
  | |- context [match ?X with Ok _ => _ | Raise _ => _ end] =>
      destruct X as [s'|e']; [| discriminate]
  end.
  intros Hw tp' c v [<- | Hin] Hcv.
  - now apply (matching_Ok obj _ _ Hm c v).
  - apply (IH _ _ _ Hw tp' c v Hin). now rewrite bucket_of_empties.
Qed.

Lemma Options_match_fst (st : Options) (obj : value) (tw : bool) :
  fst (Options_match E st obj tw) =
    (options <- fst (walk E obj tw (rev (mro E (type_of obj))) (_types st) []) ;;
     options <- (if tw then Ok options else sort_options E options) ;;
     match options with
     | [] => Raise (NoMatchError (no_match_message E obj))
     | _ => reduce E (map snd options)
     end).
Proof. unfold Options_match. now destruct (walk _ _ _ _ _ _). Qed.

Lemma Options_match_snd (st : Options) (obj : value) (tw : bool) :
  _types (snd (Options_match E st obj tw)) =
    snd (walk E obj tw (rev (mro E (type_of obj))) (_types st) []).
Proof. unfold Options_match. now destruct (walk _ _ _ _ _ _). Qed.

(** When no consulted condition raises, [Options.match] folds the values
    of the entries that [selection] gives, raises [NoMatchError] when
    there are none, and raises what a sort raises. *)
Lemma Options_match_selection (st : Options) (obj : value) (tw : bool) :
  all_return E st obj ->
  fst (Options_match E st obj tw) =
    (l <- selection E st obj tw ;; fold_or_raise E obj l).
Proof.
  intros Hret. rewrite Options_match_fst, walk_gather.
  - unfold selection.
    destruct (gather E obj tw (_types st) (rev (mro E (type_of obj)))) as [l|e];
      cbn [bind app]; [| reflexivity].
    destruct tw; cbn [bind]; [reflexivity |].
    destruct (sort_options E l) as [l'|e]; reflexivity.
  - intros tp c v Hin Hcv. apply (Hret c v). exists tp.
    split; [now apply in_rev | exact Hcv].
Qed.

Lemma Options_match_selected (st : Options) (obj : value) (tw : bool)
    (cv : Condition * value) (l : bucket) :
  all_return E st obj ->
  selected E st obj tw = cv :: l ->
  fst (Options_match E st obj tw) = reduce E (map snd (cv :: l)).
Proof.
  intros Hret Hsel. rewrite (Options_match_selection st obj tw Hret).
  unfold selected in Hsel.
  destruct (selection E st obj tw) as [l'|e]; [| discriminate].
  subst l'. reflexivity.
Qed.

(** What [selection] returns holds exactly the satisfied entries of the
    consulted buckets. *)
Lemma selection_perm (st : Options) (obj : value) (tw : bool) (l : bucket) :
  selection E st obj tw = Ok l -> Permutation (gathered E st obj) l.
Proof.
  unfold selection, gathered.
  destruct (gather E obj tw (_types st) (rev (mro E (type_of obj)))) as [opts|e] eqn:Hg;
    cbn [bind]; [| discriminate].
  apply gather_perm in Hg. destruct tw.
  - now intros [= <-].
  - intros Hs. apply sort_options_perm in Hs. eapply Permutation_trans; eassumption.
Qed.

Lemma selection_error (st : Options) (obj : value) (tw : bool) (e : exn) :
  selection E st obj tw = Raise e -> e = TypeError.
Proof.
  unfold selection.
  destruct (gather E obj tw (_types st) (rev (mro E (type_of obj)))) as [opts|e'] eqn:Hg;
    cbn [bind].
  - destruct tw; [discriminate | apply sort_options_error].
  - intros [= <-]. now apply (gather_error _ _ _ _ _ Hg).
Qed.

Lemma gathered_iff (st : Options) (obj : value) (c : Condition) (v : value) :
  In (c, v) (gathered E st obj) <->
  consulted E st obj c v /\ satisfied E obj (c, v) = true.
Proof.
  unfold gathered. rewrite in_flat_map. unfold consulted. split.
  - intros (tp & Htp & Hin). apply filter_In in Hin as [Hin Hsat].
    split; [| exact Hsat]. exists tp. split; [now apply in_rev | exact Hin].
  - intros [(tp & Htp & Hin) Hsat]. exists tp.
    split; [now apply in_rev in Htp |]. apply filter_In. now split.
Qed.

Lemma gathered_nil (st : Options) (obj : value) :
  gathered E st obj = [] <-> none_satisfied E st obj.
Proof.
  split.
  - intros Hnil c v Hc Hm.
    assert (Hin : In (c, v) (gathered E st obj)).
    { apply gathered_iff. split; [exact Hc |]. unfold satisfied. simpl. now rewrite Hm. }
    rewrite Hnil in Hin. destruct Hin.
  - intros Hnone. destruct (gathered E st obj) as [|[c v] l] eqn:Hsel; [reflexivity |].
    assert (Hin : In (c, v) (gathered E st obj)) by (rewrite Hsel; now left).
    apply gathered_iff in Hin as [Hc Hsat]. exfalso. apply (Hnone c v Hc).
    unfold satisfied in Hsat. simpl in Hsat.
    destruct (Condition_match E c obj) as [[|]|]; congruence.
Qed.

(** With nothing satisfied there is nothing to sort. *)
Lemma selection_nil (st : Options) (obj : value) (tw : bool) :
  gathered E st obj = [] -> selection E st obj tw = Ok [].
Proof.
  intros Hnil. unfold selection.
  rewrite (gather_returns obj tw (_types st) (rev (mro E (type_of obj)))).
  - assert (Hl : flat_map (level E obj tw (_types st)) (rev (mro E (type_of obj))) = []).
    { apply Permutation_nil. rewrite <- Hnil. unfold gathered.
      apply flat_map_perm. intros tp. apply level_perm. }
    rewrite Hl. cbn [bind]. now destruct tw.
  - intros tp Htp _.
    assert (Hf : filter (satisfied E obj) (bucket_of (_types st) tp) = []).
    { destruct (filter _ _) as [|cv l] eqn:Hf; [reflexivity |]. exfalso.
      assert (Hin : In cv (gathered E st obj)).
      { unfold gathered. apply in_flat_map. exists tp. split; [exact Htp |].
        rewrite Hf. now left. }
      rewrite Hnil in Hin. destruct Hin. }
    rewrite Hf. now exists [].
Qed.

Lemma ForallOrdPairs_filter {A : Type} (R : A -> A -> Prop) (f : A -> bool)
    (l : list A) :
  ForallOrdPairs R l -> ForallOrdPairs R (filter f l).
Proof.
  induction 1 as [|a l Ha _ IH]; simpl; [constructor |].
  destruct (f a); [| exact IH]. constructor; [| exact IH].
  rewrite Forall_forall in *. intros x Hx. apply filter_In in Hx as [Hx _].
  now apply Ha.
Qed.

Lemma store_ok_bucket (st : Options) (tp : pytype) :
  store_ok st -> bucket_ok tp (bucket_of (_types st) tp).
Proof.
  intros [_ Hb]. unfold bucket_of.
  destruct (dict_get pytype_eqb tp (_types st)) as [b|] eqn:Hget.
  - apply (Hb tp b). clear Hb.
    induction (_types st) as [|[tp' b'] d IH]; simpl in Hget; [discriminate |].
    destruct (pytype_eqb tp' tp) eqn:Heq.
    + apply pytype_eqb_eq in Heq. injection Hget as ->. subst. now left.
    + right. now apply IH.
  - split; [constructor | intros c v []].
Qed.

(** In a bucket that [__setitem__] fills, at most one condition is an
    [IsInstance] condition, so that any two of its conditions can be
    compared. *)
Lemma bucket_ok_comparable (tp : pytype) (b : bucket) :
  bucket_ok tp b ->
  ForallOrdPairs (comparable (fun x y => py_lt E (fst x) (fst y))) b.
Proof.
  intros [Hnd Hb]. induction b as [|[c v] b IH]; [constructor |].
  simpl in Hnd. inversion Hnd as [|? ? Hc Hnd']; subst.
  constructor; [| apply IH; [exact Hnd' | intros c' v' Hin; apply (Hb c' v'); now right]].
  apply Forall_forall. intros [c' v'] Hin. cbn [fst].
  destruct (Hb c v (or_introl eq_refl)) as [Hct _].
  destruct (Hb c' v' (or_intror Hin)) as [Hct' _].
  assert (Hk : is_Comparison c = true \/ is_Comparison c' = true).
  { destruct c as [t| | |]; [| now left | now left | now left].
    destruct c' as [t'| | |]; [| now right | now right | now right].
    exfalso. apply Hc. simpl in Hct, Hct'. subst t t'.
    now apply (in_map fst) in Hin. }
  split; apply py_lt_returns; tauto.
Qed.

Lemma store_ok_sorts (st : Options) (obj : value) (tp : pytype) :
  store_ok st ->
  exists s',
    sort_options E (filter (satisfied E obj) (bucket_of (_types st) tp)) = Ok s'.
Proof.
  intros Hok. apply sort_options_returns, ForallOrdPairs_filter.
  apply (bucket_ok_comparable tp). now apply store_ok_bucket.
Qed.

End Store.

(** ** Combining values *)

Section Combine.
Variable E : PyEnv.

Ltac raise_cases :=
  repeat (simpl in *;
          match goal with
          | |- Raise _ = Raise _ -> _ => intros [= <-]; reflexivity
          | |- Ok _ = Raise _ -> _ => discriminate
          | |- context [match ?x with _ => _ end] => destruct x eqn:?
          end);
  try discriminate.

Lemma getattr_builtin (obj name : value) (e : exn) :
  getattr E obj name = Raise e -> builtin e = true.
Proof. unfold getattr. raise_cases. Qed.

Lemma pair_of_builtin (v : value) (e : exn) :
  pair_of v = Raise e -> builtin e = true.
Proof. unfold pair_of. raise_cases. Qed.

Lemma mapM_builtin {A B : Type} (f : A -> result B) (l : list A) (e : exn) :
  (forall x e', f x = Raise e' -> builtin e' = true) ->
  mapM f l = Raise e -> builtin e = true.
Proof.
  intros Hf. induction l as [|x l IH]; simpl; [discriminate |].
  destruct (f x) eqn:Hx; simpl.
  - destruct (mapM f l); simpl; [discriminate |].
    intros [= <-]. now apply IH.
  - intros [= <-]. now apply (Hf x).
Qed.

Lemma dict_update_items_builtin (items d : list (value * value)) (e : exn) :
  dict_update_items d items = Raise e -> builtin e = true.
Proof.
  revert d. induction items as [|[k v] items IH]; intros d; simpl; [discriminate |].
  destruct (hashable k); [apply IH | now intros [= <-]].
Qed.

Lemma set_update_items_builtin (items xs : list value) (e : exn) :
  set_update_items xs items = Raise e -> builtin e = true.
Proof.
  revert xs. induction items as [|x items IH]; intros xs; simpl; [discriminate |].
  destruct (hashable x); [apply IH | now intros [= <-]].
Qed.

Lemma py_iter_builtin (v : value) (e : exn) :
  py_iter v = Raise e -> builtin e = true.
Proof. unfold py_iter. raise_cases. Qed.

Lemma py_update_builtin (new other : value) (e : exn) :
  py_update new other = Raise e -> builtin e = true.
Proof.
  unfold py_update. destruct new; try (now intros [= <-]).
  - destruct (match other with VDict kvs0 => Ok kvs0 | _ => _ end) as [items|e'] eqn:Hitems;
      simpl.
    + destruct (dict_update_items kvs items) eqn:Hd; simpl; [discriminate |].
      intros [= <-]. eapply dict_update_items_builtin; eassumption.
    + intros [= <-].
      destruct other; try discriminate; simpl in Hitems;
        try (injection Hitems as <-; reflexivity);
        try (eapply (mapM_builtin pair_of); [apply pair_of_builtin | eassumption]).
  - destruct (py_iter other) as [items|e'] eqn:Hitems; simpl.
    + destruct (set_update_items xs items) eqn:Hd; simpl; [discriminate |].
      intros [= <-]. eapply set_update_items_builtin; eassumption.
    + intros [= <-]. eapply py_iter_builtin; eassumption.
Qed.

Lemma or_method_builtin (a b : value) (e : exn) :
  or_method E a b = Raised e -> builtin e = true.
Proof.
  unfold or_method. destruct a; try discriminate.
  - destruct b; try discriminate.
  - destruct b; try discriminate.
    destruct (dict_update_items kvs kvs0) eqn:Hd; [discriminate |].
    intros [= <-]. eapply dict_update_items_builtin; eassumption.
  - destruct b; try discriminate.
    destruct (set_update_items xs xs0) eqn:Hd; [discriminate |].
    intros [= <-]. eapply set_update_items_builtin; eassumption.
  - destruct k; try discriminate. unfold CopyUpdate_or.
    destruct (if isinstance E b TWrapper then _ else _) as [other'|e'] eqn:Ho; simpl.
    + destruct (py_copy a) as [new|e'] eqn:Hc; simpl.
      * destruct (py_update new other') as [new'|e'] eqn:Hu; [discriminate |].
        apply py_update_builtin in Hu.
        destruct (update_error e'); [discriminate | now intros [= <-]].
      * intros [= <-]. destruct a; simpl in Hc; now inversion Hc.
    + intros [= <-]. destruct (isinstance E b TWrapper); [| discriminate].
      eapply getattr_builtin; eassumption.
Qed.

Lemma py_or_builtin (a b : value) (e : exn) :
  py_or E a b = Raise e -> builtin e = true.
Proof.
  unfold py_or. destruct (or_method E a b) eqn:Hor.
  - destruct (pytype_eqb _ _); [now intros [= <-] |].
    unfold ror_method. destruct b; try (now intros [= <-]).
    destruct k; try (now intros [= <-]).
  - discriminate.
  - intros [= <-]. eapply or_method_builtin; eassumption.
Qed.

(** The fold never raises [NoMatchError]. *)
Lemma reduce_builtin (l : list value) (e : exn) :
  reduce E l = Raise e -> builtin e = true.
Proof.
  destruct l as [|v l]; simpl; [now intros [= <-] |].
  revert v. induction l as [|w l IH]; intros v; simpl; [discriminate |].
  destruct (py_or E v w) eqn:Hor; simpl.
  - apply IH.
  - intros [= <-]. eapply py_or_builtin; eassumption.
Qed.

End Combine.

(** ** The matching algorithm *)

Section Algorithm.
Variable E : PyEnv.

(** With conditions that do not raise, the error is [NoMatchError]
    exactly when nothing is satisfied. *)
Lemma Options_match_NoMatchError (st : Options) (obj : value) (tw : bool) :
  all_return E st obj ->
  (none_satisfied E st obj ->
   fst (Options_match E st obj tw) = Raise (NoMatchError (no_match_message E obj))) /\
  (forall msg, fst (Options_match E st obj tw) = Raise (NoMatchError msg) ->
               none_satisfied E st obj).
Proof.
  intros Hret. rewrite (Options_match_selection E st obj tw Hret). split.
  - intros Hnone. apply gathered_nil in Hnone.
    now rewrite (selection_nil E st obj tw Hnone).
  - intros msg Hm. apply gathered_nil.
    destruct (selection E st obj tw) as [l|e] eqn:Hs; cbn [bind] in Hm.
    + apply selection_perm in Hs. destruct l as [|cv l].
      * now apply Permutation_nil, Permutation_sym.
      * apply reduce_builtin in Hm. discriminate.
    + apply selection_error in Hs. congruence.
Qed.

Lemma Options_match_all_false (st : Options) (obj : value) (tw : bool) :
  (forall c v, consulted E st obj c v -> Condition_match E c obj = Ok false) ->
  fst (Options_match E st obj tw) = Raise (NoMatchError (no_match_message E obj)).
Proof.
  intros Hfalse. apply Options_match_NoMatchError.
  - intros c v Hc. exists false. now apply (Hfalse c v).
  - intros c v Hc. rewrite (Hfalse c v Hc). discriminate.
Qed.

(** An exception of a condition's own [match] leaves [Options.match]:
    in default mode nothing is sorted before every bucket has been
    read, and with [typewise] the sort of a bucket that [__setitem__]
    filled does not raise. *)
Lemma Options_match_propagates (st : Options) (obj : value) (tw : bool) :
  ~ all_return E st obj ->
  (tw = true -> store_ok st) ->
  exists c v e,
    consulted E st obj c v /\ Condition_match E c obj = Raise e /\
    fst (Options_match E st obj tw) = Raise e.
Proof.
  intros Hnot Hok. rewrite Options_match_fst.
  destruct (fst (walk E obj tw (rev (mro E (type_of obj))) (_types st) []))
    as [l|e] eqn:Hw.
  - exfalso. apply Hnot. intros c v (tp & Htp & Hin).
    apply (walk_Ok E obj tw _ _ _ _ Hw tp c v); [now apply in_rev in Htp | exact Hin].
  - destruct (walk_Raise E obj tw _ _ _ _
                (fun tp _ Htw => store_ok_sorts E st obj tp (Hok Htw)) Hw)
      as (tp & c & v & Htp & Hin & Hc).
    exists c, v, e. split; [| now split].
    exists tp. split; [now apply in_rev | exact Hin].
Qed.

(** C3, amended: provided that no consulted condition raises from its own
    [match], [Options.match] raises [NoMatchError] if and only if no
    condition stored under a class of the linearisation of [type(obj)] is
    satisfied; the message of the error holds [repr(obj)], and when a
    condition is satisfied the error is not raised.  When a consulted
    condition does raise, [Options.match] raises what that condition
    raised: in default mode for every store, with [typewise] for every
    store that [__setitem__] built, where no sort of a bucket can raise
    before. *)
Theorem NoMatchError_iff_none_satisfied (st : Options) (obj : value) (tw : bool) :
  (all_return E st obj ->
   ((exists msg, fst (Options_match E st obj tw) = Raise (NoMatchError msg)) <->
    none_satisfied E st obj) /\
   (forall msg, fst (Options_match E st obj tw) = Raise (NoMatchError msg) ->
                msg = no_match_message E obj) /\
   ((exists c v, consulted E st obj c v /\ Condition_match E c obj = Ok true) ->
    forall msg, fst (Options_match E st obj tw) <> Raise (NoMatchError msg))) /\
  (~ all_return E st obj ->
   (tw = true -> store_ok st) ->
   exists c v e,
     consulted E st obj c v /\ Condition_match E c obj = Raise e /\
     fst (Options_match E st obj tw) = Raise e).
Proof.
  split; [| apply Options_match_propagates].
  intros Hret.
  destruct (Options_match_NoMatchError st obj tw Hret) as [H1 H2].
  split; [| split].
  - split; [intros [msg Hm]; now apply (H2 msg) | intros Hn; eauto].
  - intros msg Hm. pose proof (H1 (H2 msg Hm)) as Hm'. congruence.
  - intros (c & v & Hc & Hm) msg Hmsg. now apply (H2 msg Hmsg c v Hc).
Qed.

Lemma flat_map_empties (extra : list (pytype * bucket)) :
  empties extra -> flat_map snd extra = [].
Proof.
  induction 1 as [|[tp b] extra Hb _ IH]; simpl; [reflexivity |].
  simpl in Hb. now rewrite Hb, IH.
Qed.

Lemma Options_iter_items (st : Options) :
  Options_iter st = map fst (Options_items st).
Proof.
  unfold Options_iter, Options_items.
  induction (_types st) as [|[tp b] d IH]; simpl; [reflexivity |].
  now rewrite map_app, IH.
Qed.

Lemma Options_len_items (st : Options) :
  Options_len st = List.length (Options_items st).
Proof.
  unfold Options_len, Options_items.
  induction (_types st) as [|[tp b] d IH]; simpl; [reflexivity |].
  now rewrite length_app, IH.
Qed.

(** C9: [Options.match] leaves the contents of the store as they were,
    whatever its outcome: the entries, the result of iteration, the
    length and every bucket are the same before and after the call (the
    [defaultdict] may only gain empty buckets). *)
Theorem match_preserves_store (st : Options) (obj : value) (tw : bool) :
  Options_items (snd (Options_match E st obj tw)) = Options_items st /\
  Options_iter (snd (Options_match E st obj tw)) = Options_iter st /\
  Options_len (snd (Options_match E st obj tw)) = Options_len st /\
  (forall tp, bucket_of (_types (snd (Options_match E st obj tw))) tp =
              bucket_of (_types st) tp).
Proof.
  destruct (walk_state E obj tw (rev (mro E (type_of obj))) (_types st) [])
    as (extra & Hst & Hex).
  rewrite <- Options_match_snd in Hst.
  assert (Hitems : Options_items (snd (Options_match E st obj tw)) = Options_items st).
  { unfold Options_items.
    transitivity (flat_map snd (_types st) ++ []); [| apply app_nil_r].
    rewrite Hst, flat_map_app. f_equal. now apply flat_map_empties. }
  split; [exact Hitems |].
  split; [now rewrite !Options_iter_items, Hitems |].
  split; [now rewrite !Options_len_items, Hitems |].
  intros tp. rewrite Hst. now apply bucket_of_empties.
Qed.

Lemma Options_match_ext (st1 st2 : Options) (obj : value) (tw : bool) :
  (forall tp, In tp (mro E (type_of obj)) ->
              bucket_of (_types st1) tp = bucket_of (_types st2) tp) ->
  fst (Options_match E st1 obj tw) = fst (Options_match E st2 obj tw).
Proof.
  intros Hb. rewrite !Options_match_fst.
  rewrite (walk_ext E obj tw _ (_types st1) (_types st2)); [reflexivity |].
  intros tp Hin. apply Hb. now apply in_rev.
Qed.

Lemma Options_init_single (c : Condition) (v : value) :
  Condition_hashable c = true ->
  Options_init [(c, v)] = {| _types := [(cond_type c, [(c, v)])] |}.
Proof.
  intros Hh. unfold Options_init, Options_update, Options_setitem. simpl.
  rewrite Hh. simpl. now rewrite pytype_eqb_refl.
Qed.

Lemma Options_match_empty (obj : value) (tw : bool) :
  fst (Options_match E {| _types := [] |} obj tw) =
    Raise (NoMatchError (no_match_message E obj)).
Proof.
  apply Options_match_all_false.
  intros c v (tp & _ & Hin). destruct Hin.
Qed.

(** C10: [match] of a comparison never tests the bound type: its result
    is the same whatever the bound type, it is [True] whenever the
    retrieval succeeds and the operator holds, and there are objects that
    are not instances of the bound type for which it returns [True].  The
    bound type restricts matching only through the store:
    [Options.match] reads the buckets of the classes of the linearisation
    of [type(obj)] and no other, so that a store whose only entry is
    bound to another class gives [NoMatchError], satisfied or not. *)
Theorem bound_type_only_selects_bucket :
  (forall tp tp' i op r obj,
      Condition_match E (Comparison tp i op r) obj =
        Condition_match E (Comparison tp' i op r) obj /\
      Condition_match E (CompareAttr tp i op r) obj =
        Condition_match E (CompareAttr tp' i op r) obj /\
      Condition_match E (CompareItem tp i op r) obj =
        Condition_match E (CompareItem tp' i op r) obj) /\
  (forall c obj tp i op r x,
      attributes c = Some (tp, i, op, r) ->
      retrieve E c obj = Ok x ->
      apply_op E op x r = Ok true ->
      Condition_match E c obj = Ok true) /\
  (exists c obj,
      retrieving c = true /\
      isinstance E obj (cond_type c) = false /\
      Condition_match E c obj = Ok true) /\
  (forall st1 st2 obj tw,
      (forall tp, In tp (mro E (type_of obj)) ->
                  bucket_of (_types st1) tp = bucket_of (_types st2) tp) ->
      fst (Options_match E st1 obj tw) = fst (Options_match E st2 obj tw)) /\
  (forall c v obj tw,
      Condition_hashable c = true ->
      ~ In (cond_type c) (mro E (type_of obj)) ->
      fst (Options_match E (Options_init [(c, v)]) obj tw) =
        Raise (NoMatchError (no_match_message E obj))).
Proof.
  split; [| split; [| split; [| split]]].
  - intros. repeat split; reflexivity.
  - intros c obj tp i op r x Hattr Hr Hop.
    rewrite (Comparison_match_unfold E c obj tp i op r Hattr), Hr. simpl.
    now rewrite Hop.
  - exists (CompareItem TInt (VInt 0) op_eq (VInt 1)), (VList [VInt 1]).
    repeat split; reflexivity.
  - apply Options_match_ext.
  - intros c v obj tw Hh Hnot. rewrite (Options_init_single c v Hh).
    rewrite <- (Options_match_empty obj tw). apply Options_match_ext.
    intros tp Hin. unfold bucket_of. simpl.
    destruct (pytype_eqb (cond_type c) tp) eqn:Heq; [| reflexivity].
    apply pytype_eqb_eq in Heq. subst tp. contradiction.
Qed.

End Algorithm.

(** ** Wrappers: failing combinations and the registry *)

Section Wrappers.
Variable E : PyEnv.

Lemma pair_of_update_error (v : value) (e : exn) :
  pair_of v = Raise e -> update_error e = true.
Proof.
  unfold pair_of.
  repeat (simpl in *;
          match goal with
          | |- Raise _ = Raise _ -> _ => intros [= <-]; reflexivity
          | |- Ok _ = Raise _ -> _ => discriminate
          | |- context [match ?x with _ => _ end] => destruct x eqn:?
          end).
Qed.

Lemma mapM_pair_of_update_error (l : list value) (e : exn) :
  mapM pair_of l = Raise e -> update_error e = true.
Proof.
  induction l as [|x l IH]; simpl; [discriminate |].
  destruct (pair_of x) eqn:Hx; simpl.
  - destruct (mapM pair_of l); simpl; [discriminate |].
    intros [= <-]. now apply IH.
  - intros [= <-]. now apply (pair_of_update_error x).
Qed.

Lemma dict_update_items_error (items d : list (value * value)) (e : exn) :
  dict_update_items d items = Raise e -> e = TypeError.
Proof.
  revert d. induction items as [|[k v] items IH]; intros d; simpl; [discriminate |].
  destruct (hashable k); [apply IH | now intros [= <-]].
Qed.

Lemma set_update_items_error (items xs : list value) (e : exn) :
  set_update_items xs items = Raise e -> e = TypeError.
Proof.
  revert xs. induction items as [|x items IH]; intros xs; simpl; [discriminate |].
  destruct (hashable x); [apply IH | now intros [= <-]].
Qed.

Lemma py_iter_error (v : value) (e : exn) : py_iter v = Raise e -> e = TypeError.
Proof. destruct v; simpl; try discriminate; now intros [= <-]. Qed.

(** [dict.update] and [set.update] fail with a [ValueError] or a
    [TypeError] only. *)
Lemma py_update_error (new other : value) (e : exn) :
  (exists d, new = VDict d) \/ (exists xs, new = VSet xs) ->
  py_update new other = Raise e -> update_error e = true.
Proof.
  intros [[d ->] | [xs ->]]; simpl.
  - destruct (match other with VDict kvs0 => Ok kvs0 | _ => _ end) as [items|e'] eqn:Hitems;
      simpl.
    + destruct (dict_update_items d items) eqn:Hd; simpl; [discriminate |].
      intros [= <-]. now rewrite (dict_update_items_error _ _ _ Hd).
    + intros [= <-].
      destruct other; try discriminate; simpl in Hitems;
        try (injection Hitems as <-; reflexivity);
        try (eapply mapM_pair_of_update_error; eassumption).
  - destruct (py_iter other) as [items|e'] eqn:Hitems; simpl.
    + destruct (set_update_items xs items) eqn:Hd; simpl; [discriminate |].
      intros [= <-]. now rewrite (set_update_items_error _ _ _ Hd).
    + intros [= <-]. now rewrite (py_iter_error _ _ Hitems).
Qed.

Lemma bind_Ok {A : Type} (r : result A) : (x <- r ;; Ok x) = r.
Proof. now destruct r. Qed.

Lemma unwrap_LastSeenWins (x : value) : unwrap E (VWrapper LastSeenWins x) = Ok x.
Proof. reflexivity. Qed.

(** What [a | b] gives when [CopyUpdate.__or__] returns the sentinel. *)
Lemma py_or_after_sentinel (obj other : value) :
  or_method E (VWrapper CopyUpdate obj) other = NotImplemented ->
  (forall x, other = VWrapper LastSeenWins x ->
             py_or E (VWrapper CopyUpdate obj) other = Ok other) /\
  ((forall x, other <> VWrapper LastSeenWins x) ->
   py_or E (VWrapper CopyUpdate obj) other = Raise TypeError).
Proof.
  intros Hor. unfold py_or. rewrite Hor. split.
  - intros x ->. reflexivity.
  - intros Hne. destruct (pytype_eqb _ _); [reflexivity |].
    destruct other; try reflexivity.
    destruct k; try reflexivity. now destruct (Hne other).
Qed.

(** C7, amended: when the contents of a [CopyUpdate] wrapper (a
    dictionary or a set) cannot be updated with the other value,
    [CopyUpdate.__or__] returns the sentinel [NotImplemented] instead of
    raising.  What [match] then does depends on the other value: a
    [LastSeenWins] wrapper takes over through its reflected method and
    [match] returns its contents; with any other value the combination
    is a [TypeError], which [match] lets through. *)
Theorem failed_update_falls_back_or_raises (obj other : value) :
  (forall other' e,
      (exists d, obj = VDict d) \/ (exists xs, obj = VSet xs) ->
      unwrap E other = Ok other' ->
      py_update obj other' = Raise e ->
      or_method E (VWrapper CopyUpdate obj) other = NotImplemented) /\
  (or_method E (VWrapper CopyUpdate obj) other = NotImplemented ->
   (forall x, other = VWrapper LastSeenWins x ->
              py_or E (VWrapper CopyUpdate obj) other = Ok other) /\
   ((forall x, other <> VWrapper LastSeenWins x) ->
    py_or E (VWrapper CopyUpdate obj) other = Raise TypeError)) /\
  (forall st o tw c1 c2,
      all_return E st o ->
      selected E st o tw = [(c1, VWrapper CopyUpdate obj); (c2, other)] ->
      or_method E (VWrapper CopyUpdate obj) other = NotImplemented ->
      (forall x, other = VWrapper LastSeenWins x ->
                 fst (Spec_match E {| options := st |} o tw) = Ok x) /\
      ((forall x, other <> VWrapper LastSeenWins x) ->
       fst (Spec_match E {| options := st |} o tw) = Raise TypeError)).
Proof.
  split; [| split].
  - intros other' e Hobj Hun Hup. simpl. unfold CopyUpdate_or.
    unfold unwrap in Hun. rewrite Hun. simpl.
    assert (Hcopy : py_copy obj = Ok obj)
      by (destruct Hobj as [[d ->] | [xs ->]]; reflexivity).
    rewrite Hcopy. simpl. rewrite Hup.
    now rewrite (py_update_error obj other' e Hobj Hup).
  - apply py_or_after_sentinel.
  - intros st o tw c1 c2 Hret Hsel Hor.
    assert (Hm : fst (Spec_match E {| options := st |} o tw) =
                 (v <- py_or E (VWrapper CopyUpdate obj) other ;; unwrap E v)).
    { unfold Spec_match. simpl.
      pose proof (Options_match_selected E st o tw _ _ Hret Hsel) as Hfst.
      simpl in Hfst. rewrite bind_Ok in Hfst.
      destruct (Options_match E st o tw) as [r st']. simpl in *. now rewrite Hfst. }
    rewrite Hm. destruct (py_or_after_sentinel obj other Hor) as [H1 H2]. split.
    + intros x Hx. rewrite (H1 x Hx). subst other. reflexivity.
    + intros Hne. now rewrite (H2 Hne).
Qed.

Lemma Spec_match_fst (self : Spec) (obj : value) (tw : bool) :
  fst (Spec_match E self obj tw) =
    (v <- fst (Options_match E (options self) obj tw) ;; unwrap E v).
Proof. unfold Spec_match. now destruct (Options_match _ _ _ _). Qed.

(** C8: for a value that is already an instance of a wrapper class, the
    registry resolves to the identity function, applying it gives the
    value itself, and [add_pattern] stores the value as it is: it is not
    wrapped a second time. *)
Theorem wrapping_idempotent (registry : Spec) (k : wrapper_cls) (o : value)
    (self : Spec) (pattern : Pattern) :
  initial_rules_for E registry (VWrapper k o) ->
  isinstance E (VWrapper k o) TWrapper = true /\
  fst (Spec_match E registry (VWrapper k o) false) = Ok (VCallable Identity) /\
  call (VCallable Identity) (VWrapper k o) = Ok (VWrapper k o) /\
  fst (Spec_add_pattern E registry self pattern (VWrapper k o)) =
    fst (Options_setitem (options self)
           (make_condition_from_pattern pattern) (VWrapper k o)) /\
  options (snd (snd (Spec_add_pattern E registry self pattern (VWrapper k o)))) =
    snd (Options_setitem (options self)
           (make_condition_from_pattern pattern) (VWrapper k o)).
Proof.
  intros Hinit.
  assert (H : fst (Spec_match E registry (VWrapper k o) false) =
              Ok (VCallable Identity)).
  { rewrite Spec_match_fst.
    rewrite (Options_match_ext E (options registry) (options WRAPPER_TYPES)
               (VWrapper k o) false Hinit).
    destruct k; reflexivity. }
  split; [destruct k; reflexivity |].
  split; [exact H |]. split; [reflexivity |].
  unfold Spec_add_pattern.
  destruct (Spec_match E registry (VWrapper k o) false) as [r reg].
  simpl in H. subst r. simpl.
  destruct (Options_setitem _ _ _) as [r' o']. split; reflexivity.
Qed.

End Wrappers.

(** ** Equality of values and updates of dictionaries *)

Lemma wrapper_cls_eqb_eq (a b : wrapper_cls) : wrapper_cls_eqb a b = true <-> a = b.
Proof. destruct a, b; simpl; split; congruence. Qed.

Lemma callable_eqb_eq (a b : callable) : callable_eqb a b = true <-> a = b.
Proof.
  destruct a as [k|], b as [k'|]; simpl; split; try congruence.
  - intros H. apply wrapper_cls_eqb_eq in H. now subst.
  - intros [= ->]. now apply wrapper_cls_eqb_eq.
Qed.

Lemma py_eq_eq (a : value) : forall b, py_eq a b = true <-> a = b.
Proof.
  induction a as [z | s | xs IH | kvs IH | xs IH | cls attrs IH | k o IH | c]
    using value_induction; intros b; destruct b; simpl;
    try (split; [discriminate | congruence]).
  - rewrite Z.eqb_eq. split; congruence.
  - rewrite String.eqb_eq. split; congruence.
  - revert xs0. induction IH as [|x xs Hx _ IHl]; intros [|y ys];
      try (split; [discriminate | congruence]); [tauto |].
    rewrite andb_true_iff, Hx. specialize (IHl ys).
    split.
    + intros [-> H]. apply IHl in H. congruence.
    + intros [= -> ->]. split; [reflexivity |]. now apply IHl.
  - revert kvs0. induction IH as [|[k v] kvs [Hk Hv] _ IHl]; intros [|[k' v'] ys];
      try (split; [discriminate | congruence]); [tauto |].
    simpl in Hk, Hv.
    rewrite !andb_true_iff, Hk, Hv. specialize (IHl ys).
    split.
    + intros [[-> ->] H]. apply IHl in H. congruence.
    + intros [= -> -> ->]. repeat split. now apply IHl.
  - revert xs0. induction IH as [|x xs Hx _ IHl]; intros [|y ys];
      try (split; [discriminate | congruence]); [tauto |].
    rewrite andb_true_iff, Hx. specialize (IHl ys).
    split.
    + intros [-> H]. apply IHl in H. congruence.
    + intros [= -> ->]. split; [reflexivity |]. now apply IHl.
  - rewrite andb_true_iff, String.eqb_eq.
    assert (Hattrs : forall ys,
              (fix go (xs ys : list (string * value)) {struct xs} : bool :=
                 match xs, ys with
                 | [], [] => true
                 | (k, v) :: xs', (k', v') :: ys' =>
                     String.eqb k k' && py_eq v v' && go xs' ys'
                 | _, _ => false
                 end) attrs ys = true <-> attrs = ys).
    { induction IH as [|[k v] kvs Hv _ IHl]; intros [|[k' v'] ys];
        try (split; [discriminate | congruence]); [tauto |].
      simpl in Hv. rewrite !andb_true_iff, String.eqb_eq, Hv. specialize (IHl ys).
      split.
      - intros [[-> ->] H]. apply IHl in H. congruence.
      - intros [= -> -> ->]. repeat split. now apply IHl. }
    rewrite Hattrs. split; [intros [-> ->]; reflexivity | intros [= -> ->]; tauto].
  - rewrite andb_true_iff, wrapper_cls_eqb_eq, IH. split; [intros [-> ->] | intros [= -> ->]]; tauto.
  - rewrite callable_eqb_eq. split; congruence.
Qed.

Lemma dict_get_set (k k' v : value) (d : list (value * value)) :
  dict_get py_eq k (dict_set py_eq k' v d) =
    if py_eq k' k then Some v else dict_get py_eq k d.
Proof.
  induction d as [|[k0 v0] d IH]; simpl; [reflexivity |].
  destruct (py_eq k0 k') eqn:H1; simpl.
  - apply py_eq_eq in H1. subst k0. now destruct (py_eq k' k).
  - rewrite IH. destruct (py_eq k0 k) eqn:H2; [| reflexivity].
    apply py_eq_eq in H2. subst k0.
    destruct (py_eq k' k) eqn:H3; [| reflexivity].
    apply py_eq_eq in H3. subst k'.
    assert (H : py_eq k k = true) by now apply py_eq_eq. congruence.
Qed.

Lemma dict_update_items_ok (items d : list (value * value)) :
  Forall (fun kv => hashable (fst kv) = true) items ->
  exists d', dict_update_items d items = Ok d'.
Proof.
  intros H. revert d. induction H as [|[k v] items Hk _ IH]; intros d; simpl.
  - now exists d.
  - simpl in Hk. rewrite Hk. apply IH.
Qed.

Lemma dict_update_items_frame (items d d' : list (value * value)) (k : value) :
  dict_update_items d items = Ok d' ->
  ~ In k (map fst items) ->
  dict_get py_eq k d' = dict_get py_eq k d.
Proof.
  revert d. induction items as [|[k0 v0] items IH]; intros d; simpl.
  - now intros [= ->].
  - destruct (hashable k0); [| discriminate]. intros Hup Hnot.
    rewrite (IH _ Hup) by tauto. rewrite dict_get_set.
    destruct (py_eq k0 k) eqn:Heq; [| reflexivity].
    apply py_eq_eq in Heq. tauto.
Qed.

(** After [d.update(items)] every entry of [items] is an entry of [d]. *)
Lemma dict_update_items_get (items d d' : list (value * value)) (k v : value) :
  dict_update_items d items = Ok d' ->
  NoDup (map fst items) ->
  In (k, v) items ->
  dict_get py_eq k d' = Some v.
Proof.
  revert d. induction items as [|[k0 v0] items IH]; intros d; simpl; [tauto |].
  destruct (hashable k0); [| discriminate]. intros Hup Hnd Hin.
  inversion Hnd as [|? ? Hk0 Hnd']; subst.
  destruct Hin as [[= -> ->] | Hin].
  - rewrite (dict_update_items_frame _ _ _ k Hup Hk0), dict_get_set.
    assert (H : py_eq k k = true) by now apply py_eq_eq. now rewrite H.
  - now apply (IH _ Hup Hnd').
Qed.

(** ** Precedence with and without [typewise] *)

Section Precedence.
Variable E : PyEnv.


Lemma sort_options_nil : sort_options E [] = Ok [].
Proof. reflexivity. Qed.

Lemma sort_options_single (cv : Condition * value) : sort_options E [cv] = Ok [cv].
Proof. reflexivity. Qed.


Lemma level_short (obj : value) (tw : bool) (d : list (pytype * bucket))
    (tp : pytype) (s : bucket) :
  filter (satisfied E obj) (bucket_of d tp) = s ->
  (List.length s <= 1)%nat ->
  level E obj tw d tp = s.
Proof.
  intros Hs Hlen. unfold level. rewrite Hs. destruct tw; [| reflexivity].
  destruct s as [|cv [|cv' s]]; [reflexivity | reflexivity | simpl in Hlen; lia].
Qed.

Lemma NoDup_split (x y : pytype) (pre mid post : list pytype) :
  NoDup (pre ++ x :: mid ++ y :: post) ->
  x <> y /\
  (forall z, In z pre \/ In z mid \/ In z post -> z <> x /\ z <> y).
Proof.
  intros Hnd.
  pose proof (NoDup_remove_2 _ _ _ Hnd) as Hx.
  replace (pre ++ x :: mid ++ y :: post) with ((pre ++ x :: mid) ++ y :: post) in Hnd
    by (rewrite <- app_assoc; reflexivity).
  pose proof (NoDup_remove_2 _ _ _ Hnd) as Hy.
  split.
  - intros ->. apply Hx. apply in_or_app. right. apply in_or_app. right. now left.
  - intros z Hz. split; intros ->.
    + apply Hx. apply in_or_app. destruct Hz as [Hz | [Hz | Hz]]; [now left | |].
      * right. apply in_or_app. now left.
      * right. apply in_or_app. right. now right.
    + apply Hy. rewrite <- app_assoc. simpl. apply in_or_app.
      destruct Hz as [Hz | [Hz | Hz]]; [now left | |].
      * right. right. apply in_or_app. now left.
      * right. right. apply in_or_app. now right.
Qed.




End Precedence.

(** ** The test suite's hierarchy and instances of the theorems *)

Lemma all_return_b_spec (E : PyEnv) (st : Options) (obj : value) :
  all_return_b E st obj = true -> all_return E st obj.
Proof.
  unfold all_return_b, all_return, consulted. intros H c v (tp & Htp & Hin).
  rewrite forallb_forall in H. specialize (H tp Htp).
  rewrite forallb_forall in H. specialize (H (c, v) Hin). simpl in H.
  destruct (Condition_match E c obj) as [b|e]; [now exists b | discriminate].
Qed.

Lemma test_env_linearised_b (attrs : list (string * value)) :
  linearised test_env (type_of (VInst "B" attrs)).
Proof.
  split.
  - simpl. repeat constructor; simpl; intuition discriminate.
  - intros S S' HS HS' Hne. simpl in HS.
    destruct HS as [<- | [<- | [<- | []]]]; simpl in HS';
      repeat (destruct HS' as [<- | HS']; try congruence); try contradiction.
    + exists [], [], [TObject]. reflexivity.
    + exists [], [TUser "A"], []. reflexivity.
    + exists [TUser "B"], [], []. reflexivity.
Qed.


(** *** The assertions of the test suite, replayed *)

Example test_conditions_sorting :
  sorted (py_lt test_env)
    [ Comparison type_c (VStr "a") op_eq (VInt 0);
      Comparison type_a (VStr "a") op_eq (VInt 0);
      IsInstance type_b;
      Comparison type_b (VStr "a") op_eq (VInt 0);
      IsInstance type_c;
      IsInstance type_a ]
  = Ok [ IsInstance type_a; IsInstance type_b; IsInstance type_c;
         Comparison type_c (VStr "a") op_eq (VInt 0);
         Comparison type_a (VStr "a") op_eq (VInt 0);
         Comparison type_b (VStr "a") op_eq (VInt 0) ].
Proof. vm_compute. reflexivity. Qed.

Example test_spec_match_attr :
  fst (Spec_match test_env test_spec (VInst "A" []) false) = Ok (name_ "a") /\
  fst (Spec_match test_env test_spec (VInst "A" [("a", VInt (-1))]) false) = Ok (name_ "a-") /\
  fst (Spec_match test_env test_spec (VInst "C" []) false) = Ok (name_ "c") /\
  fst (Spec_match test_env test_spec (VInst "C" [("a", VInt 1)]) false) = Ok (name_ "ca+").
Proof. vm_compute. repeat split; reflexivity. Qed.

Example test_spec_match_attr_typewise :
  fst (Spec_match test_env test_spec b_with_a false) = Ok (name_ "a+") /\
  fst (Spec_match test_env test_spec b_with_a true) = Ok (name_ "b").
Proof. vm_compute. split; reflexivity. Qed.

Example test_spec_match_item :
  fst (Spec_match test_env test_spec (VDict []) false) = Ok (msg_ "just a dict") /\
  fst (Spec_match test_env test_spec (VDict [(VStr "key", VStr "value")]) false)
    = Ok (msg_ "dict with value") /\
  fst (Spec_match test_env test_spec (VList []) false)
    = Raise (NoMatchError (no_match_message test_env (VList []))) /\
  fst (Spec_match test_env test_spec (VList [VStr "first"]) false)
    = Ok (msg_ "first things first").
Proof. vm_compute. repeat split; reflexivity. Qed.

Example test_comparison_missing_attribute :
  Condition_match test_env (CompareAttr type_c (VStr "c") op_eq (VInt 0)) (VInt 0)
  = Ok false.
Proof. reflexivity. Qed.

(** The [defaultdict] grows while [match] runs: the registry gains an
    empty bucket for [int]. *)
Example match_adds_empty_buckets :
  map fst (_types (options (snd (Spec_match test_env WRAPPER_TYPES (VInt 0) false))))
  = [TObject; TDict; TSet; TWrapper; TInt].
Proof. reflexivity. Qed.

(** *** Instances *)

Lemma cross_kind_ordering_witness :
  py_lt test_env (IsInstance type_c) (CompareAttr type_a (VStr "c") op_eq (VInt 0))
    = Ok true /\
  py_lt test_env (CompareAttr type_a (VStr "c") op_eq (VInt 0)) (IsInstance type_c)
    = Ok false.
Proof. apply (cross_kind_ordering test_env); reflexivity. Defined.

Lemma IsInstance_lt_reflexive_witness :
  is_metaclass test_env TInt = false /\
  py_lt test_env (IsInstance TInt) (IsInstance TInt) = Ok true /\
  Condition_eq (IsInstance TInt) (IsInstance TInt) = true /\
  py_le test_env (IsInstance TInt) (IsInstance TInt) = Ok true /\
  py_ge test_env (IsInstance TInt) (IsInstance TInt) = Ok false.
Proof.
  split; [reflexivity |].
  exact (IsInstance_lt_reflexive test_env TInt eq_refl).
Defined.



(** C2, as stated, fails: the item of an object that is not subscriptable
    is a [TypeError], which [match] does not catch, and so is an operator
    that cannot compare its operands. *)
Lemma Comparison_match_raises :
  retrieving item_of_int = true /\
  retrieve test_env item_of_int (VInt 5) = Raise TypeError /\
  Condition_match test_env item_of_int (VInt 5) = Raise TypeError /\
  Condition_match test_env a_positive a_with_string = Raise TypeError /\
  ~ (forall c obj, retrieving c = true ->
                   exists b, Condition_match test_env c obj = Ok b).
Proof.
  repeat split; try reflexivity.
  intros H. destruct (H item_of_int (VInt 5) eq_refl) as [b Hb]. discriminate.
Qed.

Lemma Comparison_match_outcome_witness :
  retrieving (CompareItem TList (VInt 2) op_eq (VInt 0)) = true /\
  retrieve test_env (CompareItem TList (VInt 2) op_eq (VInt 0)) (VList [VInt 0; VInt 1])
    = Raise IndexError /\
  Condition_match test_env (CompareItem TList (VInt 2) op_eq (VInt 0))
    (VList [VInt 0; VInt 1]) = Ok false.
Proof.
  split; [reflexivity |]. split; [reflexivity |].
  apply (Comparison_match_outcome test_env (CompareItem TList (VInt 2) op_eq (VInt 0))
           (VList [VInt 0; VInt 1]) TList (VInt 2) op_eq (VInt 0) eq_refl eq_refl)
    with (e := IndexError); reflexivity.
Defined.

(** C3, as stated, fails: the only condition of the store is not
    satisfied by an instance of [A] whose [a] is a string, yet [match]
    raises the [TypeError] of ['x' > 0], not [NoMatchError]. *)
Lemma NoMatchError_not_iff :
  Condition_match test_env a_positive a_with_string = Raise TypeError /\
  none_satisfied test_env a_positive_store a_with_string /\
  fst (Options_match test_env a_positive_store a_with_string false) = Raise TypeError /\
  ~ ((exists msg, fst (Options_match test_env a_positive_store a_with_string false)
                  = Raise (NoMatchError msg)) <->
     none_satisfied test_env a_positive_store a_with_string).
Proof.
  assert (Hnone : none_satisfied test_env a_positive_store a_with_string).
  { intros c v (tp & Htp & Hin). simpl in Htp.
    destruct Htp as [<- | [<- | []]]; vm_compute in Hin.
    - destruct Hin as [[= <- <-] | []]. discriminate.
    - destruct Hin. }
  split; [reflexivity |]. split; [exact Hnone |]. split; [reflexivity |].
  intros [_ H]. destruct (H Hnone) as [msg Hmsg]. discriminate.
Qed.

Lemma NoMatchError_iff_none_satisfied_witness :
  all_return test_env (options test_spec) (VInt 0) /\
  none_satisfied test_env (options test_spec) (VInt 0) /\
  fst (Options_match test_env (options test_spec) (VInt 0) false)
    = Raise (NoMatchError (no_match_message test_env (VInt 0))) /\
  ~ all_return test_env a_positive_store a_with_string /\
  store_ok a_positive_store /\
  exists c v e,
    consulted test_env a_positive_store a_with_string c v /\
    Condition_match test_env c a_with_string = Raise e /\
    fst (Options_match test_env a_positive_store a_with_string true) = Raise e.
Proof.
  assert (Hret : all_return test_env (options test_spec) (VInt 0))
    by (apply all_return_b_spec; reflexivity).
  split; [exact Hret |].
  destruct (proj1 (NoMatchError_iff_none_satisfied test_env (options test_spec)
                     (VInt 0) false) Hret) as [Hiff _].
  split; [apply Hiff; eexists; reflexivity |]. split; [reflexivity |].
  assert (Hnot : ~ all_return test_env a_positive_store a_with_string).
  { intros H.
    destruct (H a_positive (VWrapper LastSeenWins (VStr "v"))) as [b Hb];
      [| discriminate].
    exists type_a. split; [simpl; tauto | now left]. }
  assert (Hok : store_ok a_positive_store).
  { unfold a_positive_store, Options_init. simpl. split.
    - repeat constructor. simpl. tauto.
    - intros tp b [[= <- <-] | []]. split; [repeat constructor; simpl; tauto |].
      intros c v [[= <- <-] | []]. split; reflexivity. }
  split; [exact Hnot |]. split; [exact Hok |].
  exact (proj2 (NoMatchError_iff_none_satisfied test_env a_positive_store
                  a_with_string true) Hnot (fun _ => Hok)).
Defined.


(** C7, as stated, fails: the dictionary of [object] cannot be updated
    with ['not a mapping'], [CopyUpdate.__or__] returns the sentinel, and
    [match] returns the second value instead of raising. *)
Lemma failed_update_not_raised :
  or_method test_env (VWrapper CopyUpdate (VDict []))
    (VWrapper LastSeenWins (VStr "not a mapping")) = NotImplemented /\
  py_or test_env (VWrapper CopyUpdate (VDict []))
    (VWrapper LastSeenWins (VStr "not a mapping"))
    = Ok (VWrapper LastSeenWins (VStr "not a mapping")) /\
  selected test_env (options impossible_update_spec) (VInt 0) false
    = [ (IsInstance TObject, VWrapper CopyUpdate (VDict []));
        (IsInstance TInt, VWrapper LastSeenWins (VStr "not a mapping")) ] /\
  fst (Spec_match test_env impossible_update_spec (VInt 0) false)
    = Ok (VStr "not a mapping").
Proof. vm_compute. repeat split; reflexivity. Qed.

Lemma failed_update_falls_back_or_raises_witness :
  or_method test_env (VWrapper CopyUpdate (VDict [(VStr "x", VInt 1)]))
    (VWrapper CopyUpdate (VSet [VInt 0])) = NotImplemented /\
  py_or test_env (VWrapper CopyUpdate (VDict [(VStr "x", VInt 1)]))
    (VWrapper CopyUpdate (VSet [VInt 0])) = Raise TypeError.
Proof.
  assert (Hor : or_method test_env (VWrapper CopyUpdate (VDict [(VStr "x", VInt 1)]))
                  (VWrapper CopyUpdate (VSet [VInt 0])) = NotImplemented).
  { apply (failed_update_falls_back_or_raises test_env
             (VDict [(VStr "x", VInt 1)]) (VWrapper CopyUpdate (VSet [VInt 0])))
      with (other' := VSet [VInt 0]) (e := TypeError).
    - left. eexists. reflexivity.
    - reflexivity.
    - reflexivity. }
  split; [exact Hor |].
  apply (failed_update_falls_back_or_raises test_env
           (VDict [(VStr "x", VInt 1)]) (VWrapper CopyUpdate (VSet [VInt 0])));
    [exact Hor | discriminate].
Defined.

Lemma bound_type_only_selects_bucket_witness :
  Condition_match test_env (CompareItem TInt (VInt 0) op_eq (VInt 1)) (VList [VInt 1])
    = Ok true /\
  fst (Options_match test_env
         (Options_init [(CompareItem TInt (VInt 0) op_eq (VInt 1), VStr "v")])
         (VList [VInt 1]) false)
    = Raise (NoMatchError (no_match_message test_env (VList [VInt 1]))).
Proof.
  split; [reflexivity |].
  apply (bound_type_only_selects_bucket test_env); [reflexivity |].
  simpl. intros [H | [H | []]]; discriminate.
Defined.

Lemma wrapping_idempotent_witness :
  fst (Spec_add_pattern test_env
         (snd (Spec_match test_env WRAPPER_TYPES (VInt 0) false))
         (Spec_init None) (PType TInt) (VWrapper LastSeenWins (VInt 1)))
    = Ok tt /\
  Options_items
    (options (snd (snd (Spec_add_pattern test_env
                          (snd (Spec_match test_env WRAPPER_TYPES (VInt 0) false))
                          (Spec_init None) (PType TInt)
                          (VWrapper LastSeenWins (VInt 1))))))
    = [(IsInstance TInt, VWrapper LastSeenWins (VInt 1))].
Proof.
  destruct (wrapping_idempotent test_env
              (snd (Spec_match test_env WRAPPER_TYPES (VInt 0) false))
              LastSeenWins (VInt 1) (Spec_init None) (PType TInt))
    as (_ & _ & _ & Hres & Hstore).
  - intros tp Htp. simpl in Htp.
    destruct Htp as [<- | [<- | [<- | []]]]; reflexivity.
  - rewrite Hres, Hstore. split; reflexivity.
Defined.

(** * Further properties of the store, the fold and the facade *)

(** ** Dictionaries with a key equality that decides identity *)

Section DictFacts.
Context {K V : Type} (eqb : K -> K -> bool).
Hypothesis eqb_eq : forall a b, eqb a b = true <-> a = b.

Lemma eqb_refl (k : K) : eqb k k = true.
Proof. now apply eqb_eq. Qed.

Lemma eqb_neq (a b : K) : a <> b -> eqb a b = false.
Proof.
  intros H. destruct (eqb a b) eqn:Heq; [| reflexivity].
  apply eqb_eq in Heq. contradiction.
Qed.

Lemma dict_get_In (k : K) (v : V) (d : list (K * V)) :
  dict_get eqb k d = Some v -> In (k, v) d.
Proof.
  induction d as [|[k' v'] d IH]; simpl; [discriminate |].
  destruct (eqb k' k) eqn:Heq.
  - apply eqb_eq in Heq. subst. intros [= ->]. now left.
  - intros H. right. now apply IH.
Qed.

Lemma dict_get_None (k : K) (d : list (K * V)) :
  dict_get eqb k d = None <-> ~ In k (map fst d).
Proof.
  induction d as [|[k' v'] d IH]; simpl; [tauto |].
  destruct (eqb k' k) eqn:Heq.
  - apply eqb_eq in Heq. subst. split; [discriminate | tauto].
  - rewrite IH. split; [| tauto].
    intros H [-> | Hin]; [| tauto]. rewrite eqb_refl in Heq. discriminate.
Qed.

Lemma In_dict_get (k : K) (v : V) (d : list (K * V)) :
  NoDup (map fst d) -> In (k, v) d -> dict_get eqb k d = Some v.
Proof.
  induction d as [|[k' v'] d IH]; simpl; [tauto |].
  intros Hnd. inversion Hnd as [|? ? Hk' Hnd']; subst.
  intros [[= -> ->] | Hin].
  - now rewrite eqb_refl.
  - rewrite eqb_neq; [now apply IH |].
    intros ->. apply Hk'. apply (in_map fst) in Hin. exact Hin.
Qed.

Lemma dict_get_set_same (k : K) (v : V) (d : list (K * V)) :
  dict_get eqb k (dict_set eqb k v d) = Some v.
Proof.
  induction d as [|[k' v'] d IH]; simpl.
  - now rewrite eqb_refl.
  - destruct (eqb k' k) eqn:Heq; simpl; rewrite Heq; [reflexivity | exact IH].
Qed.

Lemma dict_get_set_other (k k' : K) (v : V) (d : list (K * V)) :
  k <> k' -> dict_get eqb k (dict_set eqb k' v d) = dict_get eqb k d.
Proof.
  intros Hne. induction d as [|[k0 v0] d IH]; simpl.
  - rewrite eqb_neq; [reflexivity | congruence].
  - destruct (eqb k0 k') eqn:Heq; simpl.
    + apply eqb_eq in Heq. subst k0.
      rewrite !eqb_neq; [reflexivity | congruence ..].
    + now rewrite IH.
Qed.

Lemma dict_set_keys (k : K) (v : V) (d : list (K * V)) :
  map fst (dict_set eqb k v d) =
    match dict_get eqb k d with
    | Some _ => map fst d
    | None => map fst d ++ [k]
    end.
Proof.
  induction d as [|[k' v'] d IH]; simpl; [reflexivity |].
  destruct (eqb k' k) eqn:Heq; simpl; [reflexivity |].
  rewrite IH. now destruct (dict_get eqb k d).
Qed.

Lemma dict_set_NoDup (k : K) (v : V) (d : list (K * V)) :
  NoDup (map fst d) -> NoDup (map fst (dict_set eqb k v d)).
Proof.
  intros Hnd. rewrite dict_set_keys.
  destruct (dict_get eqb k d) eqn:Hget; [exact Hnd |].
  apply dict_get_None in Hget.
  apply NoDup_app; [exact Hnd | repeat constructor; intros [] |].
  intros x Hx [<- | []]. contradiction.
Qed.

Lemma dict_set_In (k k' : K) (v v' : V) (d : list (K * V)) :
  In (k', v') (dict_set eqb k v d) -> (k' = k /\ v' = v) \/ In (k', v') d.
Proof.
  induction d as [|[k0 v0] d IH]; simpl.
  - intros [[= <- <-] | []]. now left.
  - destruct (eqb k0 k) eqn:Heq; simpl.
    + apply eqb_eq in Heq. subst k0.
      intros [[= <- <-] | Hin]; [now left | tauto].
    + intros [H | Hin]; [tauto |]. destruct (IH Hin); tauto.
Qed.

Lemma dict_set_length (k : K) (v : V) (d : list (K * V)) :
  List.length (dict_set eqb k v d) =
    match dict_get eqb k d with
    | Some _ => List.length d
    | None => S (List.length d)
    end.
Proof.
  induction d as [|[k' v'] d IH]; simpl; [reflexivity |].
  destruct (eqb k' k); simpl; [reflexivity |].
  rewrite IH. now destruct (dict_get eqb k d).
Qed.

Lemma dict_del_In (k k' : K) (v' : V) (d : list (K * V)) :
  In (k', v') (dict_del eqb k d) -> In (k', v') d.
Proof.
  induction d as [|[k0 v0] d IH]; simpl; [tauto |].
  destruct (eqb k0 k); simpl; [tauto |]. intros [H | H]; [tauto |]. right. now apply IH.
Qed.

Lemma dict_del_keys_incl (k : K) (d : list (K * V)) :
  forall x, In x (map fst (dict_del eqb k d)) -> In x (map fst d).
Proof.
  induction d as [|[k0 v0] d IH]; simpl; [tauto |].
  destruct (eqb k0 k); simpl; [tauto |]. intros x [H | H]; [tauto |]. right. now apply IH.
Qed.

Lemma dict_del_NoDup (k : K) (d : list (K * V)) :
  NoDup (map fst d) -> NoDup (map fst (dict_del eqb k d)).
Proof.
  induction d as [|[k0 v0] d IH]; simpl; [tauto |].
  intros Hnd. inversion Hnd as [|? ? Hk Hnd']; subst.
  destruct (eqb k0 k); simpl; [exact Hnd' |].
  constructor; [| now apply IH].
  intros Hin. apply Hk. now apply (dict_del_keys_incl k d).
Qed.

Lemma dict_get_del_same (k : K) (d : list (K * V)) :
  NoDup (map fst d) -> dict_get eqb k (dict_del eqb k d) = None.
Proof.
  induction d as [|[k0 v0] d IH]; simpl; [reflexivity |].
  intros Hnd. inversion Hnd as [|? ? Hk Hnd']; subst.
  destruct (eqb k0 k) eqn:Heq; simpl.
  - apply eqb_eq in Heq. subst k0. now apply dict_get_None.
  - rewrite Heq. now apply IH.
Qed.

Lemma dict_get_del_other (k k' : K) (d : list (K * V)) :
  k <> k' -> dict_get eqb k (dict_del eqb k' d) = dict_get eqb k d.
Proof.
  intros Hne. induction d as [|[k0 v0] d IH]; simpl; [reflexivity |].
  destruct (eqb k0 k') eqn:Heq; simpl.
  - apply eqb_eq in Heq. subst k0. rewrite eqb_neq; [reflexivity | congruence].
  - now rewrite IH.
Qed.

Lemma dict_del_length (k : K) (v : V) (d : list (K * V)) :
  dict_get eqb k d = Some v -> S (List.length (dict_del eqb k d)) = List.length d.
Proof.
  induction d as [|[k0 v0] d IH]; simpl; [discriminate |].
  destruct (eqb k0 k); simpl; [reflexivity |]. intros H. now rewrite IH.
Qed.

End DictFacts.

(** ** The methods of [Options] *)

Lemma operator_eqb_eq (a b : operator) : operator_eqb a b = true <-> a = b.
Proof. unfold operator_eqb. destruct (operator_eq_dec a b); split; congruence. Qed.

(** [==] on conditions decides identity of class and fields. *)
Lemma Condition_eq_eq (a b : Condition) : Condition_eq a b = true <-> a = b.
Proof.
  destruct a, b; simpl; try (split; [discriminate | congruence]).
  - rewrite pytype_eqb_eq. split; congruence.
  - rewrite !andb_true_iff, pytype_eqb_eq, !py_eq_eq, operator_eqb_eq.
    split; [intros [[[-> ->] ->] ->]; reflexivity | intros [= -> -> -> ->]; tauto].
  - rewrite !andb_true_iff, pytype_eqb_eq, !py_eq_eq, operator_eqb_eq.
    split; [intros [[[-> ->] ->] ->]; reflexivity | intros [= -> -> -> ->]; tauto].
  - rewrite !andb_true_iff, pytype_eqb_eq, !py_eq_eq, operator_eqb_eq.
    split; [intros [[[-> ->] ->] ->]; reflexivity | intros [= -> -> -> ->]; tauto].
Qed.

Lemma ceq_eq (a b : Condition) : (fun k c => Condition_eq k c) a b = true <-> a = b.
Proof. apply Condition_eq_eq. Qed.

Lemma defaultdict_get_cases (d : list (pytype * bucket)) (tp : pytype) :
  (exists b, dict_get pytype_eqb tp d = Some b /\ defaultdict_get d tp = (b, d)) \/
  (dict_get pytype_eqb tp d = None /\ defaultdict_get d tp = ([], d ++ [(tp, [])])).
Proof.
  unfold defaultdict_get. destruct (dict_get pytype_eqb tp d) as [b|]; [left | right].
  - now exists b.
  - now split.
Qed.

Lemma bucket_of_set (d : list (pytype * bucket)) (tp tp' : pytype) (b : bucket) :
  bucket_of (dict_set pytype_eqb tp b d) tp' =
    if pytype_eqb tp tp' then b else bucket_of d tp'.
Proof.
  unfold bucket_of. destruct (pytype_eqb tp tp') eqn:Heq.
  - apply pytype_eqb_eq in Heq. subst tp'.
    now rewrite (dict_get_set_same pytype_eqb pytype_eqb_eq).
  - rewrite (dict_get_set_other pytype_eqb pytype_eqb_eq); [reflexivity |].
    intros ->. now rewrite pytype_eqb_refl in Heq.
Qed.

(** The outcome of the three accessors in terms of the bucket of the
    condition's class. *)
Lemma Options_getitem_fst (st : Options) (c : Condition) :
  fst (Options_getitem st c) =
    if Condition_hashable c then
      match dict_get (fun k c => Condition_eq k c) c
              (bucket_of (_types st) (cond_type c)) with
      | Some v => Ok v
      | None => Raise KeyError
      end
    else Raise TypeError.
Proof.
  unfold Options_getitem.
  destruct (defaultdict_get_spec (_types st) (cond_type c)) as (extra & -> & _).
  reflexivity.
Qed.

Lemma Options_getitem_snd (st : Options) (c : Condition) :
  exists extra,
    _types (snd (Options_getitem st c)) = _types st ++ extra /\ empties extra.
Proof.
  unfold Options_getitem.
  destruct (defaultdict_get_spec (_types st) (cond_type c)) as (extra & -> & H).
  now exists extra.
Qed.

Lemma Options_setitem_buckets (st : Options) (c : Condition) (v : value) (tp : pytype) :
  Condition_hashable c = true ->
  bucket_of (_types (snd (Options_setitem st c v))) tp =
    if pytype_eqb (cond_type c) tp
    then dict_set (fun k c => Condition_eq k c) c v (bucket_of (_types st) tp)
    else bucket_of (_types st) tp.
Proof.
  intros Hh. unfold Options_setitem.
  destruct (defaultdict_get_spec (_types st) (cond_type c)) as (extra & -> & Hex).
  rewrite Hh. cbn [snd _types]. rewrite bucket_of_set.
  destruct (pytype_eqb (cond_type c) tp) eqn:Heq.
  - apply pytype_eqb_eq in Heq. now subst tp.
  - now apply bucket_of_empties.
Qed.

Lemma Options_setitem_fst (st : Options) (c : Condition) (v : value) :
  fst (Options_setitem st c v) =
    if Condition_hashable c then Ok tt else Raise TypeError.
Proof.
  unfold Options_setitem.
  destruct (defaultdict_get (_types st) (cond_type c)) as [b d].
  now destruct (Condition_hashable c).
Qed.

(** X1: after [options[c] = v] with a hashable condition, [options[c]]
    returns [v], and the lookup of every other condition [c'] gives what
    it gave before; the latter for a condition [c'] whose identifier and
    reference value are numbers, strings or lists of these, for which
    being another condition than [c] is being unequal to it. *)
Theorem getitem_after_setitem (st : Options) (c c' : Condition) (v : value) :
  Condition_hashable c = true ->
  fst (Options_setitem st c v) = Ok tt /\
  fst (Options_getitem (snd (Options_setitem st c v)) c) = Ok v /\
  (plain_condition c' = true ->
   c' <> c ->
   fst (Options_getitem (snd (Options_setitem st c v)) c') =
     fst (Options_getitem st c')).
Proof.
  intros Hh. split; [now rewrite Options_setitem_fst, Hh |].
  rewrite !Options_getitem_fst, !Options_setitem_buckets by exact Hh.
  split.
  - rewrite Hh, pytype_eqb_refl.
    now rewrite (dict_get_set_same _ ceq_eq).
  - intros _ Hne. destruct (Condition_hashable c'); [| reflexivity].
    destruct (pytype_eqb (cond_type c) (cond_type c')); [| reflexivity].
    now rewrite (dict_get_set_other _ ceq_eq).
Qed.

Lemma defaultdict_get_lookup (d : list (pytype * bucket)) (tp : pytype) :
  dict_get pytype_eqb tp (snd (defaultdict_get d tp)) = Some (bucket_of d tp) /\
  fst (defaultdict_get d tp) = bucket_of d tp /\
  list_sum (map (fun tb => List.length (snd tb)) (snd (defaultdict_get d tp))) =
    list_sum (map (fun tb => List.length (snd tb)) d).
Proof.
  unfold bucket_of.
  destruct (defaultdict_get_cases d tp) as [(b & Hget & ->) | [Hget ->]];
    rewrite Hget; cbn [fst snd].
  - now rewrite Hget.
  - rewrite dict_get_app, Hget. simpl. rewrite pytype_eqb_refl.
    split; [reflexivity |]. split; [reflexivity |].
    rewrite map_app, list_sum_app. cbn [map snd List.length list_sum fold_right].
    apply Nat.add_0_r.
Qed.

Lemma len_after_set (d : list (pytype * bucket)) (tp : pytype) (b b' : bucket) :
  dict_get pytype_eqb tp d = Some b ->
  list_sum (map (fun tb => List.length (snd tb)) (dict_set pytype_eqb tp b' d))
    + List.length b =
  list_sum (map (fun tb => List.length (snd tb)) d) + List.length b'.
Proof.
  induction d as [|[tp0 b0] d IH]; simpl; [discriminate |].
  destruct (pytype_eqb tp0 tp); simpl.
  - intros [= ->]. lia.
  - intros H. specialize (IH H). lia.
Qed.

Lemma Options_len_setitem (st : Options) (c : Condition) (v : value) :
  Condition_hashable c = true ->
  Options_len (snd (Options_setitem st c v)) =
    match dict_get (fun k c => Condition_eq k c) c
            (bucket_of (_types st) (cond_type c)) with
    | Some _ => Options_len st
    | None => S (Options_len st)
    end.
Proof.
  intros Hh.
  unfold Options_setitem, Options_len.
  destruct (defaultdict_get_lookup (_types st) (cond_type c)) as (Hget & Hb & Hsum).
  destruct (defaultdict_get (_types st) (cond_type c)) as [b d].
  cbn [fst snd] in *. subst b. rewrite Hh. cbn [snd _types].
  pose proof (len_after_set d (cond_type c) _
                (dict_set (fun k c0 => Condition_eq k c0) c v
                   (bucket_of (_types st) (cond_type c))) Hget) as Hlen.
  rewrite dict_set_length in Hlen.
  destruct (dict_get _ c (bucket_of (_types st) (cond_type c))).
  - apply Nat.add_cancel_r in Hlen.
    etransitivity; [exact Hlen | exact Hsum].
  - rewrite Nat.add_succ_r, <- Nat.add_succ_l in Hlen.
    apply Nat.add_cancel_r in Hlen.
    etransitivity; [exact Hlen | f_equal; exact Hsum].
Qed.

(** X2: [options[c] = v] replaces the value of a condition that is
    present and adds an entry for one that is not: the length stays, or
    grows by one. *)
Theorem len_after_setitem (st : Options) (c : Condition) (v : value) :
  Condition_hashable c = true ->
  Options_len (snd (Options_setitem st c v)) =
    match fst (Options_getitem st c) with
    | Ok _ => Options_len st
    | Raise _ => S (Options_len st)
    end.
Proof.
  intros Hh. rewrite Options_getitem_fst, Hh, (Options_len_setitem st c v Hh).
  now destruct (dict_get _ c (bucket_of (_types st) (cond_type c))).
Qed.

Lemma Options_delitem_fst (st : Options) (c : Condition) :
  fst (Options_delitem st c) =
    if Condition_hashable c then
      match dict_get (fun k c => Condition_eq k c) c
              (bucket_of (_types st) (cond_type c)) with
      | Some _ => Ok tt
      | None => Raise KeyError
      end
    else Raise TypeError.
Proof.
  unfold Options_delitem.
  destruct (defaultdict_get_spec (_types st) (cond_type c)) as (extra & -> & _).
  destruct (Condition_hashable c); [| reflexivity].
  now destruct (dict_get _ c (bucket_of (_types st) (cond_type c))).
Qed.

Lemma Options_delitem_buckets (st : Options) (c : Condition) (tp : pytype) :
  fst (Options_delitem st c) = Ok tt ->
  bucket_of (_types (snd (Options_delitem st c))) tp =
    if pytype_eqb (cond_type c) tp
    then dict_del (fun k c => Condition_eq k c) c (bucket_of (_types st) tp)
    else bucket_of (_types st) tp.
Proof.
  rewrite Options_delitem_fst. unfold Options_delitem.
  destruct (defaultdict_get_spec (_types st) (cond_type c)) as (extra & -> & Hex).
  destruct (Condition_hashable c); [| discriminate].
  destruct (dict_get _ c (bucket_of (_types st) (cond_type c))); [| discriminate].
  intros _. cbn [snd _types]. rewrite bucket_of_set.
  destruct (pytype_eqb (cond_type c) tp) eqn:Heq.
  - apply pytype_eqb_eq in Heq. now subst tp.
  - now apply bucket_of_empties.
Qed.

Lemma Options_items_empties (d extra : list (pytype * bucket)) :
  empties extra ->
  Options_items {| _types := d ++ extra |} = Options_items {| _types := d |}.
Proof.
  intros Hex. unfold Options_items. cbn [_types].
  transitivity (flat_map snd d ++ []); [| apply app_nil_r].
  rewrite flat_map_app. f_equal. now apply flat_map_empties.
Qed.

(** X3: when the lookup [options[c]] raises [KeyError], so does
    [del options[c]], and both leave the entries of the store as they
    were. *)
Theorem missing_key_raises (st : Options) (c : Condition) :
  fst (Options_getitem st c) = Raise KeyError ->
  fst (Options_delitem st c) = Raise KeyError /\
  Options_items (snd (Options_getitem st c)) = Options_items st /\
  Options_items (snd (Options_delitem st c)) = Options_items st.
Proof.
  rewrite Options_getitem_fst, Options_delitem_fst.
  destruct (Condition_hashable c) eqn:Hh; [| discriminate].
  destruct (dict_get _ c (bucket_of (_types st) (cond_type c))) eqn:Hget;
    [discriminate |].
  intros _. split; [reflexivity |].
  unfold Options_getitem, Options_delitem.
  destruct (defaultdict_get_spec (_types st) (cond_type c)) as (extra & -> & Hex).
  rewrite Hh, Hget. cbn [snd].
  destruct st as [d]. cbn [_types]. split; now apply Options_items_empties.
Qed.

(** X4: a condition that cannot be hashed is refused by the three
    accessors with a [TypeError], and the entries stay as they were. *)
Theorem unhashable_condition_refused (st : Options) (c : Condition) (v : value) :
  Condition_hashable c = false ->
  fst (Options_getitem st c) = Raise TypeError /\
  fst (Options_setitem st c v) = Raise TypeError /\
  fst (Options_delitem st c) = Raise TypeError /\
  Options_items (snd (Options_getitem st c)) = Options_items st /\
  Options_items (snd (Options_setitem st c v)) = Options_items st /\
  Options_items (snd (Options_delitem st c)) = Options_items st.
Proof.
  intros Hh.
  rewrite Options_getitem_fst, Options_setitem_fst, Options_delitem_fst, Hh.
  do 3 (split; [reflexivity |]).
  unfold Options_getitem, Options_setitem, Options_delitem.
  destruct (defaultdict_get_spec (_types st) (cond_type c)) as (extra & -> & Hex).
  rewrite Hh. cbn [snd].
  destruct st as [d]. cbn [_types]. repeat split; now apply Options_items_empties.
Qed.

(** *** The invariant *)

Lemma store_ok_defaultdict_get (d : list (pytype * bucket)) (tp : pytype) :
  store_ok {| _types := d |} ->
  store_ok {| _types := snd (defaultdict_get d tp) |} /\
  In (tp, fst (defaultdict_get d tp)) (snd (defaultdict_get d tp)).
Proof.
  intros [Hnd Hb]. cbn [_types] in *.
  destruct (defaultdict_get_cases d tp) as [(b & Hget & ->) | [Hget ->]];
    cbn [fst snd].
  - split; [now split |].
    now apply (dict_get_In pytype_eqb pytype_eqb_eq).
  - split; [| apply in_or_app; right; now left].
    split; cbn [_types].
    + rewrite map_app. apply NoDup_app; [exact Hnd | repeat constructor; intros [] |].
      intros x Hx [<- | []].
      now apply (dict_get_None pytype_eqb pytype_eqb_eq) in Hget.
    + intros tp' b' Hin. apply in_app_or in Hin as [Hin | [[= <- <-] | []]].
      * now apply Hb.
      * split; [constructor | intros c v []].
Qed.

Lemma store_ok_replace (d : list (pytype * bucket)) (tp : pytype) (b : bucket) :
  store_ok {| _types := d |} ->
  bucket_ok tp b ->
  store_ok {| _types := dict_set pytype_eqb tp b d |}.
Proof.
  intros [Hnd Hb] Hok. split; cbn [_types] in *.
  - now apply (dict_set_NoDup pytype_eqb pytype_eqb_eq).
  - intros tp' b' Hin.
    apply (dict_set_In pytype_eqb pytype_eqb_eq) in Hin as [[-> ->] | Hin];
      [exact Hok | now apply Hb].
Qed.

Lemma store_ok_setitem (st : Options) (c : Condition) (v : value) :
  store_ok st -> store_ok (snd (Options_setitem st c v)).
Proof.
  destruct st as [d]. intros Hok. unfold Options_setitem. cbn [_types].
  destruct (store_ok_defaultdict_get d (cond_type c) Hok) as [Hok' Hin].
  destruct (defaultdict_get d (cond_type c)) as [b d']. cbn [fst snd] in *.
  destruct (Condition_hashable c) eqn:Hh; cbn [snd]; [| exact Hok'].
  apply store_ok_replace; [exact Hok' |].
  destruct (proj2 Hok' _ _ Hin) as [Hnd Hb]. split.
  - now apply (dict_set_NoDup _ ceq_eq).
  - intros c' v' Hin'.
    apply (dict_set_In _ ceq_eq) in Hin' as [[-> ->] | Hin']; [now split | now apply (Hb c' v')].
Qed.

Lemma store_ok_delitem (st : Options) (c : Condition) :
  store_ok st -> store_ok (snd (Options_delitem st c)).
Proof.
  destruct st as [d]. intros Hok. unfold Options_delitem. cbn [_types].
  destruct (store_ok_defaultdict_get d (cond_type c) Hok) as [Hok' Hin].
  destruct (defaultdict_get d (cond_type c)) as [b d']. cbn [fst snd] in *.
  destruct (Condition_hashable c) eqn:Hh; cbn [snd]; [| exact Hok'].
  destruct (dict_get _ c b); cbn [snd]; [| exact Hok'].
  apply store_ok_replace; [exact Hok' |].
  destruct (proj2 Hok' _ _ Hin) as [Hnd Hb]. split.
  - now apply dict_del_NoDup.
  - intros c' v' Hin'. apply dict_del_In in Hin'. now apply (Hb c' v').
Qed.

Lemma store_ok_getitem (st : Options) (c : Condition) :
  store_ok st -> store_ok (snd (Options_getitem st c)).
Proof.
  destruct st as [d]. intros Hok. unfold Options_getitem. cbn [_types].
  destruct (store_ok_defaultdict_get d (cond_type c) Hok) as [Hok' _].
  now destruct (defaultdict_get d (cond_type c)) as [b d'].
Qed.

Lemma store_ok_walk (E : PyEnv) (obj : value) (tw : bool) (tps : list pytype) :
  forall d acc,
    store_ok {| _types := d |} ->
    store_ok {| _types := snd (walk E obj tw tps d acc) |}.
Proof.
  induction tps as [|tp tps IH]; intros d acc Hok; simpl; [exact Hok |].
  destruct (store_ok_defaultdict_get d tp Hok) as [Hok' _].
  destruct (defaultdict_get d tp) as [b d']. cbn [snd] in Hok'.
  destruct (_ <- matching E b obj ;; _) as [s|e]; [now apply IH | exact Hok'].
Qed.

Lemma store_ok_match (E : PyEnv) (st : Options) (obj : value) (tw : bool) :
  store_ok st -> store_ok (snd (Options_match E st obj tw)).
Proof.
  destruct st as [d]. intros Hok.
  pose proof (store_ok_walk E obj tw (rev (mro E (type_of obj))) d [] Hok) as H.
  pose proof (Options_match_snd E {| _types := d |} obj tw) as Hsnd.
  cbn [_types] in Hsnd. rewrite <- Hsnd in H.
  now destruct (snd (Options_match E {| _types := d |} obj tw)).
Qed.

Lemma store_ok_update (other : list (Condition * value)) :
  forall st, store_ok st -> store_ok (Options_update st other).
Proof.
  induction other as [|[c v] other IH]; intros st Hok; simpl; [exact Hok |].
  apply IH. now apply store_ok_setitem.
Qed.

Lemma store_ok_init (other : list (Condition * value)) : store_ok (Options_init other).
Proof. apply store_ok_update. split; [constructor | intros tp b []]. Qed.

(** X5: the store that [Options(other)] builds has one bucket per class
    and, in the bucket of a class, only hashable conditions bound to that
    class, each once; [__setitem__], [__delitem__], [__getitem__] and
    [match] keep it so, whatever their outcome. *)
Theorem store_invariant (E : PyEnv) (other : list (Condition * value)) (st : Options)
    (c : Condition) (v : value) (obj : value) (tw : bool) :
  store_ok (Options_init other) /\
  (store_ok st ->
   store_ok (snd (Options_setitem st c v)) /\
   store_ok (snd (Options_delitem st c)) /\
   store_ok (snd (Options_getitem st c)) /\
   store_ok (snd (Options_match E st obj tw))).
Proof.
  split.
  - apply store_ok_update. split; [constructor | intros tp b []].
  - intros Hok. split; [now apply store_ok_setitem |].
    split; [now apply store_ok_delitem |].
    split; [now apply store_ok_getitem | now apply store_ok_match].
Qed.

Lemma Options_items_In (st : Options) (c : Condition) (v : value) :
  store_ok st ->
  (In (c, v) (Options_items st) <->
   In (c, v) (bucket_of (_types st) (cond_type c))).
Proof.
  intros Hok. unfold Options_items. rewrite in_flat_map. split.
  - intros ([tp b] & Hin & Hcv). cbn [snd] in Hcv.
    destruct (proj2 Hok tp b Hin) as [_ Hb].
    destruct (Hb c v Hcv) as [<- _].
    unfold bucket_of.
    now rewrite (In_dict_get pytype_eqb pytype_eqb_eq _ _ _ (proj1 Hok) Hin).
  - intros Hin. unfold bucket_of in Hin.
    destruct (dict_get pytype_eqb (cond_type c) (_types st)) as [b|] eqn:Hget;
      [| destruct Hin].
    apply (dict_get_In pytype_eqb pytype_eqb_eq) in Hget.
    now exists (cond_type c, b).
Qed.

Lemma Options_iter_NoDup (d : list (pytype * bucket)) :
  store_ok {| _types := d |} -> NoDup (Options_iter {| _types := d |}).
Proof.
  unfold Options_iter. cbn [_types].
  induction d as [|[tp b] d IH]; intros [Hnd Hb]; cbn [_types] in *; simpl;
    [constructor |].
  inversion Hnd as [|? ? Htp Hnd']; subst.
  apply NoDup_app.
  - apply (Hb tp b). now left.
  - apply IH. split; [exact Hnd' | intros tp' b' Hin; apply Hb; now right].
  - intros c Hc Hc'. apply in_map_iff in Hc as ([c0 v] & <- & Hin).
    apply in_flat_map in Hc' as ([tp' b'] & Hin' & Hc').
    apply in_map_iff in Hc' as ([c1 v'] & Heq & Hin''). cbn [fst snd] in *. subst c1.
    destruct (proj2 (Hb tp b (or_introl eq_refl)) c0 v Hin) as [H1 _].
    destruct (proj2 (Hb tp' b' (or_intror Hin')) c0 v' Hin'') as [H2 _].
    apply Htp. rewrite <- H1, H2. now apply (in_map fst) in Hin'.
Qed.

(** X6: in a store that keeps the invariant, and for a condition [c]
    whose identifier and reference value are numbers, strings or lists of
    these, [options[c]] returns [v] exactly when [(c, v)] is among the
    entries that iteration yields, and it raises [KeyError] exactly when
    a hashable [c] is not among the conditions; iteration yields no
    condition twice. *)
Theorem lookup_agrees_with_iteration (st : Options) (c : Condition) (v : value) :
  store_ok st ->
  (plain_condition c = true ->
   (fst (Options_getitem st c) = Ok v <-> In (c, v) (Options_items st)) /\
   (Condition_hashable c = true ->
    (fst (Options_getitem st c) = Raise KeyError <-> ~ In c (Options_iter st)))) /\
  NoDup (Options_iter st).
Proof.
  intros Hok. destruct (store_ok_bucket st (cond_type c) Hok) as [Hnd Hb].
  split; [intros _; split |].
  - rewrite (Options_items_In st c v Hok), Options_getitem_fst. split.
    + destruct (Condition_hashable c); [| discriminate].
      destruct (dict_get _ c _) as [v'|] eqn:Hget; [| discriminate].
      intros [= ->]. now apply (dict_get_In _ ceq_eq).
    + intros Hin. destruct (Hb c v Hin) as [_ ->].
      now rewrite (In_dict_get _ ceq_eq _ _ _ Hnd Hin).
  - intros Hh. rewrite Options_getitem_fst, Hh, Options_iter_items.
    split.
    + destruct (dict_get _ c _) as [v'|] eqn:Hget; [discriminate |]. intros _ Hin.
      apply in_map_iff in Hin as ([c' v'] & Heq & Hin). cbn [fst] in Heq. subst c'.
      apply (Options_items_In st c v' Hok) in Hin.
      apply (dict_get_None _ ceq_eq) in Hget. apply Hget.
      now apply (in_map fst) in Hin.
    + intros Hnot. destruct (dict_get _ c _) as [v'|] eqn:Hget; [| reflexivity].
      exfalso. apply Hnot. apply (dict_get_In _ ceq_eq) in Hget.
      apply (Options_items_In st c v' Hok) in Hget.
      now apply (in_map fst) in Hget.
  - destruct st as [d]. now apply Options_iter_NoDup.
Qed.

(** X7: [del options[c]] with a condition that is in the store succeeds
    and takes one entry away; the lookup of every other condition [c']
    gives what it gave before (for a [c'] whose identifier and reference
    value are numbers, strings or lists of these), and in a store that
    keeps the invariant the lookup of [c] itself then raises
    [KeyError]. *)
Theorem delitem_removes_entry (st : Options) (c c' : Condition) (v : value) :
  fst (Options_getitem st c) = Ok v ->
  fst (Options_delitem st c) = Ok tt /\
  S (Options_len (snd (Options_delitem st c))) = Options_len st /\
  (plain_condition c' = true ->
   c' <> c ->
   fst (Options_getitem (snd (Options_delitem st c)) c') =
     fst (Options_getitem st c')) /\
  (store_ok st ->
   fst (Options_getitem (snd (Options_delitem st c)) c) = Raise KeyError).
Proof.
  intros Hget0.
  assert (Hdel : fst (Options_delitem st c) = Ok tt).
  { rewrite Options_getitem_fst in Hget0. rewrite Options_delitem_fst.
    destruct (Condition_hashable c); [| discriminate].
    now destruct (dict_get _ c _). }
  rewrite Options_getitem_fst in Hget0.
  destruct (Condition_hashable c) eqn:Hh; [| discriminate].
  destruct (dict_get _ c (bucket_of (_types st) (cond_type c))) as [v0|] eqn:Hget;
    [| discriminate].
  split; [exact Hdel |]. split; [| split].
  - unfold Options_delitem, Options_len.
    destruct (defaultdict_get_lookup (_types st) (cond_type c)) as (Hl & Hb & Hsum).
    destruct (defaultdict_get (_types st) (cond_type c)) as [b d].
    cbn [fst snd] in *. subst b. rewrite Hh, Hget. cbn [snd _types].
    pose proof (len_after_set d (cond_type c) _
                  (dict_del (fun k c0 => Condition_eq k c0) c
                     (bucket_of (_types st) (cond_type c))) Hl) as Hlen.
    rewrite <- (dict_del_length _ c v0 _ Hget) in Hlen at 1.
    rewrite Nat.add_succ_r, <- Nat.add_succ_l in Hlen.
    apply Nat.add_cancel_r in Hlen.
    etransitivity; [exact Hlen | exact Hsum].
  - intros _ Hne. rewrite !Options_getitem_fst, (Options_delitem_buckets st c _ Hdel).
    destruct (Condition_hashable c'); [| reflexivity].
    destruct (pytype_eqb (cond_type c) (cond_type c')); [| reflexivity].
    now rewrite (dict_get_del_other _ ceq_eq).
  - intros Hok. rewrite Options_getitem_fst, Hh, (Options_delitem_buckets st c _ Hdel).
    rewrite pytype_eqb_refl.
    rewrite (dict_get_del_same _ ceq_eq); [reflexivity |].
    apply (store_ok_bucket st (cond_type c) Hok).
Qed.

(** ** What [sorted] does with two kinds of elements *)

Lemma split_by_cons_first {A : Type} (P Q : A -> Prop) (x : A) (l : list A) :
  P x -> split_by P Q l -> split_by P Q (x :: l).
Proof.
  intros Hx (l1 & l2 & -> & H1 & H2). exists (x :: l1), l2.
  split; [reflexivity |]. split; [now constructor | exact H2].
Qed.

Lemma split_by_all_second {A : Type} (P Q : A -> Prop) (l : list A) :
  Forall Q l -> split_by P Q l.
Proof. intros H. exists [], l. split; [reflexivity |]. split; [constructor | exact H]. Qed.

Lemma split_by_inv {A : Type} (P Q : A -> Prop) (x : A) (l : list A) :
  (forall y, P y -> Q y -> False) ->
  split_by P Q (x :: l) -> Q x -> Forall Q (x :: l).
Proof.
  intros Hexcl (l1 & l2 & Heq & H1 & H2) Hx.
  destruct l1 as [|y l1]; simpl in Heq.
  - now subst l2.
  - injection Heq as <- _. inversion H1; subst. exfalso. eauto.
Qed.

Lemma split_by_rev {A : Type} (P Q : A -> Prop) (l : list A) :
  split_by P Q l -> split_by Q P (rev l).
Proof.
  intros (l1 & l2 & -> & H1 & H2). exists (rev l2), (rev l1).
  rewrite rev_app_distr. split; [reflexivity |]. split; now apply Forall_rev.
Qed.

Section SortedSplit.
Context {A : Type} (lt : A -> A -> result bool) (P Q : A -> Prop).
Hypothesis PQ_dec : forall x, P x \/ Q x.
Hypothesis PQ_excl : forall x, P x -> Q x -> False.
Hypothesis lt_PQ : forall a b, P a -> Q b -> lt a b = Ok true.
Hypothesis lt_QP : forall a b, Q a -> P b -> lt a b = Ok false.

Lemma split_by_single (x : A) : split_by P Q [x].
Proof.
  destruct (PQ_dec x) as [H | H].
  - apply split_by_cons_first; [exact H |]. apply split_by_all_second. constructor.
  - apply split_by_all_second. now repeat constructor.
Qed.

Lemma split_by_single' (x : A) : split_by Q P [x].
Proof. apply (split_by_rev P Q [x]), split_by_single. Qed.

Lemma run_ascending_split_by (l : list A) :
  forall prev run rest,
    run_ascending lt prev l = Ok (run, rest) -> split_by P Q (prev :: run).
Proof.
  induction l as [|x l IH]; intros prev run rest; simpl.
  - intros [= <- <-]. apply split_by_single.
  - destruct (lt x prev) as [b|e] eqn:Hlt; simpl; [| discriminate].
    destruct b; [intros [= <- <-]; apply split_by_single |].
    destruct (run_ascending lt x l) as [[run' rest']|e] eqn:Hrun; simpl;
      [| discriminate].
    intros [= <- <-]. specialize (IH _ _ _ Hrun).
    destruct (PQ_dec prev) as [Hp | Hq]; [now apply split_by_cons_first |].
    assert (Hx : Q x).
    { destruct (PQ_dec x) as [Hx | Hx]; [| exact Hx].
      rewrite (lt_PQ x prev Hx Hq) in Hlt. discriminate. }
    apply split_by_all_second. constructor; [exact Hq |].
    now apply (split_by_inv P Q x run' PQ_excl).
Qed.

Lemma run_descending_split_by (l : list A) :
  forall prev run rest,
    run_descending lt prev l = Ok (run, rest) -> split_by Q P (prev :: run).
Proof.
  induction l as [|x l IH]; intros prev run rest; simpl.
  - intros [= <- <-]. apply split_by_single'.
  - destruct (lt x prev) as [b|e] eqn:Hlt; simpl; [| discriminate].
    destruct b; [| intros [= <- <-]; apply split_by_single'].
    destruct (run_descending lt x l) as [[run' rest']|e] eqn:Hrun; simpl;
      [| discriminate].
    intros [= <- <-]. specialize (IH _ _ _ Hrun).
    destruct (PQ_dec prev) as [Hp | Hq]; [| now apply split_by_cons_first].
    assert (Hx : P x).
    { destruct (PQ_dec x) as [Hx | Hx]; [exact Hx |].
      rewrite (lt_QP x prev Hx Hp) in Hlt. discriminate. }
    apply split_by_all_second. constructor; [exact Hp |].
    apply (split_by_inv Q P x run'); [intros y Hy Hy'; eauto | exact IH | exact Hx].
Qed.

Lemma count_run_split_by (l run rest : list A) :
  count_run lt l = Ok (run, rest) -> split_by P Q run.
Proof.
  destruct l as [|x [|y l]]; simpl.
  - intros [= <- <-]. apply split_by_all_second. constructor.
  - intros [= <- <-]. apply split_by_single.
  - destruct (lt y x) as [b|e] eqn:Hlt; simpl; [| discriminate]. destruct b.
    + destruct (run_descending lt y l) as [[run' rest']|e] eqn:Hrun; simpl;
        [| discriminate].
      intros [= <- <-].
      change (split_by P Q (rev (x :: y :: run'))). apply split_by_rev.
      apply (run_descending_split_by (y :: l) x (y :: run') rest').
      simpl. rewrite Hlt. simpl. now rewrite Hrun.
    + destruct (run_ascending lt y l) as [[run' rest']|e] eqn:Hrun; simpl;
        [| discriminate].
      intros [= <- <-].
      apply (run_ascending_split_by (y :: l) x (y :: run') rest').
      simpl. rewrite Hlt. simpl. now rewrite Hrun.
Qed.

Lemma nth_error_first (l1 l2 : list A) (p : nat) (x : A) :
  Forall P l1 -> Forall Q l2 ->
  nth_error (l1 ++ l2) p = Some x ->
  (P x -> (p < List.length l1)%nat) /\ (Q x -> (List.length l1 <= p)%nat).
Proof.
  intros H1 H2 Hnth. destruct (Nat.lt_ge_cases p (List.length l1)) as [Hlt | Hge].
  - rewrite nth_error_app1 in Hnth by exact Hlt.
    apply nth_error_In in Hnth. rewrite Forall_forall in H1.
    split; [tauto | intros Hq; exfalso; eauto].
  - rewrite nth_error_app2 in Hnth by exact Hge.
    apply nth_error_In in Hnth. rewrite Forall_forall in H2.
    split; [intros Hp; exfalso; eauto | tauto].
Qed.

(** The position that [bisect] finds for an element with [P] is within
    the elements with [P], and for one with [Q] it is past them. *)
Lemma bisect_low (pivot : A) (l1 l2 : list A) :
  Forall P l1 -> Forall Q l2 -> P pivot ->
  forall fuel l r i,
    (l <= List.length l1)%nat ->
    bisect lt fuel pivot (l1 ++ l2) l r = Ok i ->
    (i <= List.length l1)%nat.
Proof.
  intros H1 H2 Hp. induction fuel as [|fuel IH]; intros l r i Hl; simpl.
  - now intros [= <-].
  - destruct (l <? r)%nat; [| now intros [= <-]].
    destruct (nth_error (l1 ++ l2) (l + Nat.div2 (r - l))) as [x|] eqn:Hnth;
      [| now intros [= <-]].
    destruct (lt pivot x) as [b|e] eqn:Hlt; simpl; [| discriminate].
    destruct b; [now apply IH |].
    apply IH.
    assert (Hx : P x).
    { destruct (PQ_dec x) as [Hx | Hx]; [exact Hx |].
      rewrite (lt_PQ pivot x Hp Hx) in Hlt. discriminate. }
    now apply (nth_error_first l1 l2 _ x H1 H2 Hnth).
Qed.

Lemma bisect_high (pivot : A) (l1 l2 : list A) :
  Forall P l1 -> Forall Q l2 -> Q pivot ->
  forall fuel l r i,
    (r - l < fuel)%nat ->
    (List.length l1 <= r)%nat ->
    (r <= List.length (l1 ++ l2))%nat ->
    bisect lt fuel pivot (l1 ++ l2) l r = Ok i ->
    (List.length l1 <= i)%nat.
Proof.
  intros H1 H2 Hq. induction fuel as [|fuel IH]; intros l r i Hfuel Hr Hlen; [lia |].
  simpl. destruct (l <? r)%nat eqn:Hlr.
  - apply Nat.ltb_lt in Hlr.
    assert (Hdiv : (Nat.div2 (r - l) < r - l)%nat) by (apply Nat.lt_div2; lia).
    generalize dependent (Nat.div2 (r - l)). intros k Hk.
    destruct (nth_error (l1 ++ l2) (l + k)) as [x|] eqn:Hnth.
    + destruct (lt pivot x) as [b|e] eqn:Hlt; simpl; [| discriminate].
      destruct b.
      * apply IH; [lia | | lia].
        assert (Hx : Q x).
        { destruct (PQ_dec x) as [Hx | Hx]; [| exact Hx].
          rewrite (lt_QP pivot x Hq Hx) in Hlt. discriminate. }
        now apply (nth_error_first l1 l2 _ x H1 H2 Hnth).
      * apply IH; [lia | exact Hr | exact Hlen].
    + apply nth_error_None in Hnth. lia.
  - apply Nat.ltb_ge in Hlr. intros [= <-]. lia.
Qed.

Lemma Forall_firstn_skipn (R : A -> Prop) (i : nat) (x : A) (l : list A) :
  Forall R l -> R x -> Forall R (firstn i l ++ x :: skipn i l).
Proof.
  intros Hl Hx. rewrite <- (firstn_skipn i l) in Hl.
  apply Forall_app in Hl as [Ha Hb]. apply Forall_app. split; [exact Ha |].
  now constructor.
Qed.

Lemma insert_at_split_by (i : nat) (x : A) (l1 l2 : list A) :
  Forall P l1 -> Forall Q l2 ->
  (P x /\ (i <= List.length l1)%nat) \/ (Q x /\ (List.length l1 <= i)%nat) ->
  split_by P Q (insert_at i x (l1 ++ l2)).
Proof.
  intros H1 H2 Hcase. unfold insert_at. rewrite firstn_app, skipn_app.
  destruct Hcase as [[Hx Hi] | [Hx Hi]].
  - replace (i - List.length l1)%nat with 0%nat by lia. simpl.
    exists (firstn i l1 ++ x :: skipn i l1), l2.
    rewrite app_nil_r, <- app_assoc. split; [reflexivity |].
    split; [now apply Forall_firstn_skipn | exact H2].
  - rewrite firstn_all2, skipn_all2 by exact Hi. simpl.
    exists l1, (firstn (i - List.length l1) l2 ++ x :: skipn (i - List.length l1) l2).
    rewrite <- app_assoc. split; [reflexivity |].
    split; [exact H1 | now apply Forall_firstn_skipn].
Qed.

Lemma binarysort_split_by (rest : list A) :
  forall pre l', split_by P Q pre -> binarysort lt pre rest = Ok l' -> split_by P Q l'.
Proof.
  induction rest as [|x rest IH]; intros pre l' Hpre; cbn [binarysort].
  - now intros [= <-].
  - destruct (bisect lt (S (List.length pre)) x pre 0 (List.length pre)) as [i|e] eqn:Hb;
      cbn [bind]; [| discriminate].
    apply IH. destruct Hpre as (l1 & l2 & -> & H1 & H2).
    apply insert_at_split_by; [exact H1 | exact H2 |].
    destruct (PQ_dec x) as [Hx | Hx]; [left | right]; split; try exact Hx.
    + apply (bisect_low x l1 l2 H1 H2 Hx _ _ _ _ (Nat.le_0_l _) Hb).
    + apply (bisect_high x l1 l2 H1 H2 Hx _ _ _ _) with (4 := Hb).
      * lia.
      * rewrite length_app. lia.
      * lia.
Qed.

(** When every element with [P] is below every element with [Q] and none
    with [Q] is below one with [P], [sorted] puts the elements with [P]
    first. *)
Lemma sorted_split_by (l l' : list A) :
  sorted lt l = Ok l' -> split_by P Q l'.
Proof.
  unfold sorted.
  destruct (count_run lt l) as [[run rest]|e] eqn:Hrun; simpl; [| discriminate].
  apply binarysort_split_by. now apply (count_run_split_by l run rest).
Qed.

End SortedSplit.

(** ** The order in which [Options.match] folds *)

Section FoldOrder.
Variable E : PyEnv.

Lemma kind_dec (cv : Condition * value) : type_based cv \/ comparison_based cv.
Proof. unfold type_based, comparison_based. destruct (is_Comparison (fst cv)); tauto. Qed.

Lemma kind_excl (cv : Condition * value) : type_based cv -> comparison_based cv -> False.
Proof. unfold type_based, comparison_based. congruence. Qed.

Lemma sort_options_split_by (s s' : bucket) :
  sort_options E s = Ok s' -> split_by type_based comparison_based s'.
Proof.
  unfold sort_options.
  apply (sorted_split_by _ type_based comparison_based kind_dec kind_excl).
  - intros [a va] [b vb] Ha Hb. unfold type_based, comparison_based in *.
    cbn [fst] in *. destruct a; try discriminate.
    apply (IsInstance_lt_Comparison E tp b Hb).
  - intros [a va] [b vb] Ha Hb. unfold type_based, comparison_based in *.
    cbn [fst] in *. destruct b; try discriminate.
    apply (IsInstance_lt_Comparison E tp a Ha).
Qed.

Lemma sort_options_short (s : bucket) :
  (List.length s <= 1)%nat -> sort_options E s = Ok s.
Proof. destruct s as [|x [|y s]]; simpl; [reflexivity | reflexivity | lia]. Qed.

Lemma flat_map_length_le {A B : Type} (f : A -> list B) (l : list A) (x : A) :
  In x l -> (List.length (f x) <= List.length (flat_map f l))%nat.
Proof.
  induction l as [|a l IH]; intros Hin; [destruct Hin |].
  simpl. rewrite length_app. destruct Hin as [-> | Hin]; [lia |].
  specialize (IH Hin). lia.
Qed.

(** A satisfied entry of the buckets of an object that is not a class is
    a comparison or is bound to a class that is not a metaclass. *)
Lemma gathered_not_metaclass (st : Options) (obj : value) (c : Condition) (v : value) :
  not_a_class E obj ->
  In (c, v) (gathered E st obj) ->
  is_Comparison c = true \/ is_metaclass E (cond_type c) = false.
Proof.
  intros Hnc Hin. apply gathered_iff in Hin as [_ Hsat].
  destruct c as [tp| | |]; [right | now left | now left | now left].
  apply Hnc. apply type_in_In.
  unfold satisfied, Condition_match, IsInstance_match, isinstance in Hsat.
  cbn [fst cond_type] in Hsat. cbn [cond_type].
  now destruct (type_in tp (mro E (type_of obj))).
Qed.

Lemma gathered_comparable (st : Options) (obj : value) :
  not_a_class E obj ->
  ForallOrdPairs (comparable (fun x y => py_lt E (fst x) (fst y))) (gathered E st obj).
Proof.
  intros Hnc.
  assert (H : forall x y, In x (gathered E st obj) -> In y (gathered E st obj) ->
                          comparable (fun x y => py_lt E (fst x) (fst y)) x y).
  { intros [c1 v1] [c2 v2] H1 H2. cbn [fst].
    pose proof (gathered_not_metaclass st obj c1 v1 Hnc H1) as K1.
    pose proof (gathered_not_metaclass st obj c2 v2 Hnc H2) as K2.
    split; apply py_lt_returns; tauto. }
  induction (gathered E st obj) as [|a l IH]; constructor.
  - apply Forall_forall. intros y Hy. apply H; [now left | now right].
  - apply IH. intros x y Hx Hy. apply H; now right.
Qed.

Lemma gather_default (st : Options) (obj : value) :
  gather E obj false (_types st) (rev (mro E (type_of obj))) = Ok (gathered E st obj).
Proof.
  rewrite gather_returns by (intros tp _ Htw; discriminate). reflexivity.
Qed.

(** X8: with [typewise=True], conditions that do not raise and a store
    that [__setitem__] built, [Options.match] folds the satisfied entries
    class by class, from the most general class of the object to its
    own; within a class, each satisfied entry occurs once and the
    type-based entries come before the comparisons. *)
Theorem typewise_folds_class_by_class (st : Options) (obj : value) :
  store_ok st ->
  all_return E st obj ->
  fst (Options_match E st obj true) =
    fold_or_raise E obj
      (flat_map (level E obj true (_types st)) (rev (mro E (type_of obj)))) /\
  forall tp,
    Permutation (filter (satisfied E obj) (bucket_of (_types st) tp))
      (level E obj true (_types st) tp) /\
    split_by type_based comparison_based (level E obj true (_types st) tp).
Proof.
  intros Hok Hret. split.
  - rewrite (Options_match_selection E st obj true Hret). unfold selection.
    rewrite gather_returns by (intros tp _ _; now apply store_ok_sorts).
    reflexivity.
  - intros tp. split; [apply level_perm |].
    unfold level.
    destruct (store_ok_sorts E st obj tp Hok) as [s' Hs].
    rewrite Hs. exact (sort_options_split_by _ s' Hs).
Qed.

(** X9: in default mode, with conditions that do not raise and an object
    that is not itself a class, [Options.match] folds every satisfied
    entry of the consulted buckets once, and all type-based entries
    before all comparisons, wherever in the class hierarchy they are
    bound: a comparison always updates a type-based condition.  (For an
    object that is a class, two satisfied type-based conditions can be
    bound to [type] or a metaclass, and sorting them raises.) *)
Theorem default_folds_type_based_first (st : Options) (obj : value) :
  all_return E st obj ->
  not_a_class E obj ->
  exists l,
    Permutation (gathered E st obj) l /\
    split_by type_based comparison_based l /\
    fst (Options_match E st obj false) = fold_or_raise E obj l.
Proof.
  intros Hret Hnc.
  destruct (sort_options_returns E (gathered E st obj) (gathered_comparable st obj Hnc))
    as [l Hl].
  exists l. split; [now apply (sort_options_perm E) |].
  split; [exact (sort_options_split_by _ l Hl) |].
  rewrite (Options_match_selection E st obj false Hret). unfold selection.
  rewrite gather_default. cbn [bind]. now rewrite Hl.
Qed.

Lemma run_ascending_all {A : Type} (lt : A -> A -> result bool) (l : list A) :
  forall prev,
    Forall (fun y => lt y prev = Ok false) l ->
    ForallOrdPairs (fun x y => lt y x = Ok false) l ->
    run_ascending lt prev l = Ok (l, []).
Proof.
  induction l as [|x l IH]; intros prev Hprev Hord; simpl; [reflexivity |].
  inversion Hprev as [|? ? Hx _]; subst. inversion Hord as [|? ? Hxl Hord']; subst.
  rewrite Hx. simpl. now rewrite (IH x Hxl Hord').
Qed.

(** A list in which no element is below an earlier one is left as it is
    by [sorted]. *)
Lemma sorted_ordered {A : Type} (lt : A -> A -> result bool) (l : list A) :
  ForallOrdPairs (fun x y => lt y x = Ok false) l -> sorted lt l = Ok l.
Proof.
  intros Hord. unfold sorted, count_run.
  destruct l as [|x [|y l]]; [reflexivity | reflexivity |].
  inversion Hord as [|? ? Hx Hord']; subst.
  inversion Hx as [|? ? Hyx Hxl]; subst.
  inversion Hord' as [|? ? Hy Hord'']; subst.
  rewrite Hyx. simpl. now rewrite (run_ascending_all lt l y Hy Hord'').
Qed.

Lemma ForallOrdPairs_all {A : Type} (R : A -> A -> Prop) (l : list A) :
  (forall x y, In x l -> In y l -> R x y) -> ForallOrdPairs R l.
Proof.
  induction l as [|a l IH]; intros H; constructor.
  - apply Forall_forall. intros y Hy. apply H; [now left | now right].
  - apply IH. intros x y Hx Hy. apply H; now right.
Qed.

(** X10: two comparisons of the classes [CompareAttr] and [CompareItem]
    are never below one another, whatever they are bound to, so that
    sorting leaves a list of such entries in the order in which they were
    gathered. *)
Theorem comparisons_keep_their_order (c1 c2 : Condition) (s : bucket) :
  (retrieving c1 = true -> retrieving c2 = true -> py_lt E c1 c2 = Ok false) /\
  (Forall (fun cv => retrieving (fst cv) = true) s -> sort_options E s = Ok s).
Proof.
  assert (Hlt : forall a b, retrieving a = true -> retrieving b = true ->
                            py_lt E a b = Ok false).
  { intros a b Ha Hb. destruct a; try discriminate; destruct b; try discriminate;
      reflexivity. }
  split; [apply Hlt |].
  intros Hs. unfold sort_options. apply sorted_ordered, ForallOrdPairs_all.
  rewrite Forall_forall in Hs. intros x y Hx Hy. apply Hlt; now apply Hs.
Qed.

(** X11: when exactly one entry of the consulted buckets is satisfied,
    [Options.match] returns its value in either mode, and [Spec.match]
    returns that value unwrapped. *)
Theorem single_satisfied_entry (st : Options) (obj : value) (tw : bool)
    (c : Condition) (v : value) :
  all_return E st obj ->
  gathered E st obj = [(c, v)] ->
  fst (Options_match E st obj tw) = Ok v /\
  fst (Spec_match E {| options := st |} obj tw) = unwrap E v.
Proof.
  intros Hret Hg.
  assert (Hshort : forall tp, In tp (rev (mro E (type_of obj))) ->
            (List.length (filter (satisfied E obj) (bucket_of (_types st) tp)) <= 1)%nat).
  { intros tp Htp.
    pose proof (flat_map_length_le
                  (fun tp => filter (satisfied E obj) (bucket_of (_types st) tp))
                  _ tp Htp) as Hle.
    fold (gathered E st obj) in Hle. now rewrite Hg in Hle. }
  assert (Hlev : flat_map (level E obj tw (_types st)) (rev (mro E (type_of obj))) =
                 [(c, v)]).
  { apply Permutation_length_1_inv. rewrite <- Hg. unfold gathered.
    apply flat_map_perm. intros tp. apply level_perm. }
  assert (Hsel : selection E st obj tw = Ok [(c, v)]).
  { unfold selection. rewrite gather_returns.
    - rewrite Hlev. cbn [bind]. now destruct tw.
    - intros tp Htp _. eexists. apply sort_options_short. now apply Hshort. }
  assert (Hm : fst (Options_match E st obj tw) = Ok v).
  { now rewrite (Options_match_selection E st obj tw Hret), Hsel. }
  split; [exact Hm |].
  rewrite Spec_match_fst. cbn [options]. now rewrite Hm.
Qed.

End FoldOrder.

(** ** Type-based entries along the linearisation *)

Lemma precedes_antisym (a b : pytype) (l : list pytype) :
  NoDup l -> precedes a b l -> precedes b a l -> False.
Proof.
  induction l as [|x l IH]; intros Hnd (p1 & m1 & q1 & H1) (p2 & m2 & q2 & H2).
  - destruct p1; discriminate.
  - inversion Hnd as [|? ? Hx Hnd']; subst.
    destruct p1 as [|y p1], p2 as [|z p2]; simpl in H1, H2;
      injection H1 as -> H1; injection H2 as E2 H2.
    + subst b. apply Hx. rewrite H1. apply in_or_app. right. now left.
    + subst z. apply Hx. rewrite H2. apply in_or_app. right. right.
      apply in_or_app. right. now left.
    + subst y. apply Hx. rewrite H1. apply in_or_app. right. right.
      apply in_or_app. right. now left.
    + apply (IH Hnd'); [now exists p1, m1, q1 | now exists p2, m2, q2].
Qed.

Lemma precedes_neq (a b : pytype) (l : list pytype) :
  NoDup l -> precedes a b l -> a <> b.
Proof.
  intros Hnd (p & m & q & ->). now destruct (NoDup_split a b p m q Hnd).
Qed.

Lemma ForallOrdPairs_precedes (l : list pytype) :
  forall pre, ForallOrdPairs (fun a b => precedes a b (pre ++ l)) l.
Proof.
  induction l as [|a l IH]; intros pre; constructor.
  - apply Forall_forall. intros b Hb.
    destruct (in_split _ _ Hb) as (m & q & ->). now exists pre, m, q.
  - specialize (IH (pre ++ [a])). rewrite <- app_assoc in IH. exact IH.
Qed.

Lemma ForallOrdPairs_app {A : Type} (R : A -> A -> Prop) (l1 l2 : list A) :
  ForallOrdPairs R l1 -> ForallOrdPairs R l2 ->
  (forall x y, In x l1 -> In y l2 -> R x y) ->
  ForallOrdPairs R (l1 ++ l2).
Proof.
  induction 1 as [|a l1 Ha H1 IH]; intros H2 Hc; simpl; [exact H2 |].
  constructor.
  - apply Forall_app. split; [exact Ha |].
    apply Forall_forall. intros y Hy. apply Hc; [now left | exact Hy].
  - apply IH; [exact H2 |]. intros x y Hx Hy. apply Hc; [now right | exact Hy].
Qed.

Lemma ForallOrdPairs_rev {A : Type} (R : A -> A -> Prop) (l : list A) :
  ForallOrdPairs R l -> ForallOrdPairs (fun a b => R b a) (rev l).
Proof.
  induction 1 as [|a l Ha _ IH]; simpl; [constructor |].
  apply ForallOrdPairs_app; [exact IH | repeat constructor |].
  intros x y Hx [<- | []]. rewrite Forall_forall in Ha. apply Ha.
  now apply in_rev.
Qed.

Lemma ForallOrdPairs_impl_In {A : Type} (R R' : A -> A -> Prop) (l : list A) :
  ForallOrdPairs R l ->
  (forall a b, In a l -> In b l -> R a b -> R' a b) ->
  ForallOrdPairs R' l.
Proof.
  induction 1 as [|a l Ha _ IH]; intros Himp; constructor.
  - rewrite Forall_forall in *. intros b Hb.
    apply Himp; [now left | now right | now apply Ha].
  - apply IH. intros x y Hx Hy. apply Himp; now right.
Qed.

Lemma ForallOrdPairs_flat_map {A B : Type} (R : B -> B -> Prop) (g : A -> list B)
    (l : list A) :
  (forall a, In a l -> ForallOrdPairs R (g a)) ->
  ForallOrdPairs (fun a b => forall x y, In x (g a) -> In y (g b) -> R x y) l ->
  ForallOrdPairs R (flat_map g l).
Proof.
  intros Hin Hord. induction Hord as [|a l Ha _ IH]; simpl; [constructor |].
  apply ForallOrdPairs_app.
  - apply Hin. now left.
  - apply IH. intros b Hb. apply Hin. now right.
  - intros x y Hx Hy. apply in_flat_map in Hy. destruct Hy as (b & Hb & Hy).
    rewrite Forall_forall in Ha. now apply (Ha b Hb).
Qed.

Lemma flat_map_ext_on {A B : Type} (f g : A -> list B) (l : list A) :
  (forall a, In a l -> f a = g a) -> flat_map f l = flat_map g l.
Proof.
  induction l as [|a l IH]; intros H; simpl; [reflexivity |].
  rewrite (H a (or_introl eq_refl)), IH; [reflexivity |].
  intros b Hb. apply H. now right.
Qed.

(** Of the entries of a dictionary at most one has a given key. *)
Lemma filter_one_key {K V : Type} (f : K * V -> bool) (k : K) (b : list (K * V)) :
  NoDup (map fst b) ->
  (forall kv, In kv b -> f kv = true -> fst kv = k) ->
  (List.length (filter f b) <= 1)%nat.
Proof.
  induction b as [|kv b IH]; intros Hnd Hk; simpl; [lia |].
  inversion Hnd as [|? ? Hkv Hnd']; subst.
  assert (IH' := IH Hnd' (fun x Hx => Hk x (or_intror Hx))).
  destruct (f kv) eqn:Hf; [| exact IH'].
  assert (Hnil : filter f b = []).
  { destruct (filter f b) as [|x r] eqn:Hfb; [reflexivity |]. exfalso.
    assert (Hx : In x (filter f b)) by (rewrite Hfb; now left).
    apply filter_In in Hx. destruct Hx as [Hx Hfx].
    apply Hkv. rewrite (Hk kv (or_introl eq_refl) Hf), <- (Hk x (or_intror Hx) Hfx).
    now apply in_map. }
  rewrite Hnil. simpl. lia.
Qed.

Section Ancestry.
Variable E : PyEnv.

Lemma gathered_In (st : Options) (obj : value) (tp : pytype) (cv : Condition * value) :
  In tp (mro E (type_of obj)) ->
  In cv (filter (satisfied E obj) (bucket_of (_types st) tp)) ->
  In cv (gathered E st obj).
Proof.
  intros Htp Hcv. unfold gathered. apply in_flat_map. exists tp.
  split; [now apply in_rev in Htp | exact Hcv].
Qed.

Lemma type_based_level (st : Options) (obj : value) (tp : pytype) :
  store_ok st ->
  Forall type_based (gathered E st obj) ->
  In tp (mro E (type_of obj)) ->
  (forall cv, In cv (filter (satisfied E obj) (bucket_of (_types st) tp)) ->
              fst cv = IsInstance tp) /\
  (List.length (filter (satisfied E obj) (bucket_of (_types st) tp)) <= 1)%nat.
Proof.
  intros Hok Hall Htp. rewrite Forall_forall in Hall.
  destruct (store_ok_bucket st tp Hok) as [Hnd Hb].
  assert (Hfst : forall cv, In cv (filter (satisfied E obj) (bucket_of (_types st) tp)) ->
                            fst cv = IsInstance tp).
  { intros [c v] Hcv. pose proof (Hall _ (gathered_In st obj tp _ Htp Hcv)) as Hty.
    apply filter_In in Hcv. destruct Hcv as [Hcv _].
    destruct (Hb c v Hcv) as [Hct _]. unfold type_based in Hty. cbn [fst] in *.
    destruct c; try discriminate. simpl in Hct. now subst. }
  split; [exact Hfst |].
  apply (filter_one_key _ (IsInstance tp)); [exact Hnd |].
  intros cv Hcv Hf. apply Hfst. apply filter_In. now split.
Qed.

Lemma gathered_ordered (st : Options) (obj : value) :
  store_ok st ->
  linearised E (type_of obj) ->
  not_a_class E obj ->
  Forall type_based (gathered E st obj) ->
  ForallOrdPairs (fun x y => py_lt E (fst y) (fst x) = Ok false) (gathered E st obj).
Proof.
  intros Hok [Hnd Hlin] Hnc Hall. unfold gathered.
  apply ForallOrdPairs_flat_map.
  - intros tp Htp. apply in_rev in Htp.
    destruct (type_based_level st obj tp Hok Hall Htp) as [_ Hlen].
    destruct (filter _ _) as [|x [|y r]]; [constructor | repeat constructor |].
    simpl in Hlen. lia.
  - apply (ForallOrdPairs_rev
             (fun b a => forall x y,
                  In x (filter (satisfied E obj) (bucket_of (_types st) a)) ->
                  In y (filter (satisfied E obj) (bucket_of (_types st) b)) ->
                  py_lt E (fst y) (fst x) = Ok false)).
    apply (ForallOrdPairs_impl_In (fun a b => precedes a b (mro E (type_of obj))));
      [apply (ForallOrdPairs_precedes _ []) |].
    intros s g Hs Hg Hsg x y Hx Hy.
    destruct (type_based_level st obj g Hok Hall Hg) as [Hfg _].
    destruct (type_based_level st obj s Hok Hall Hs) as [Hfs _].
    rewrite (Hfg x Hx), (Hfs y Hy), py_lt_IsInstance. unfold mro_call.
    rewrite (Hnc g Hg). cbn [bind].
    destruct (type_in s (mro E g)) eqn:Hin; [| reflexivity]. exfalso.
    apply type_in_In in Hin.
    apply (precedes_antisym s g _ Hnd Hsg).
    apply Hlin; [exact Hg | exact Hin |].
    now apply (precedes_neq s g _ Hnd).
Qed.

(** X12: when only type-based entries are satisfied (the store being one
    that [__setitem__] builds, the linearisation of the object's class
    well formed and the object not itself a class), at most one entry per
    class is satisfied and [Options.match] folds them from the most
    general class to the most specific one, with or without
    [typewise]. *)
Theorem type_based_entries_fold_by_ancestry (st : Options) (obj : value) (tw : bool) :
  store_ok st ->
  linearised E (type_of obj) ->
  not_a_class E obj ->
  all_return E st obj ->
  Forall type_based (gathered E st obj) ->
  fst (Options_match E st obj tw) = fold_or_raise E obj (gathered E st obj) /\
  forall tp, In tp (mro E (type_of obj)) ->
    filter (satisfied E obj) (bucket_of (_types st) tp) = [] \/
    exists v, filter (satisfied E obj) (bucket_of (_types st) tp) = [(IsInstance tp, v)].
Proof.
  intros Hok Hlin Hnc Hret Hall.
  assert (Hlev : forall tp, In tp (mro E (type_of obj)) ->
            level E obj tw (_types st) tp =
            filter (satisfied E obj) (bucket_of (_types st) tp)).
  { intros tp Htp. apply level_short; [reflexivity |].
    apply (type_based_level st obj tp Hok Hall Htp). }
  assert (Hflat : flat_map (level E obj tw (_types st)) (rev (mro E (type_of obj))) =
                  gathered E st obj).
  { unfold gathered. apply flat_map_ext_on. intros tp Htp. apply Hlev.
    now apply in_rev. }
  split.
  - rewrite (Options_match_selection E st obj tw Hret). unfold selection.
    rewrite gather_returns, Hflat.
    + cbn [bind]. destruct tw; [reflexivity |].
      unfold sort_options.
      rewrite (sorted_ordered _ _ (gathered_ordered st obj Hok Hlin Hnc Hall)).
      reflexivity.
    + intros tp Htp _. eexists. apply sort_options_short.
      apply in_rev in Htp. apply (type_based_level st obj tp Hok Hall Htp).
  - intros tp Htp.
    destruct (type_based_level st obj tp Hok Hall Htp) as [Hfst Hlen].
    destruct (filter _ _) as [|[c v] [|y r]]; [now left | right | simpl in Hlen; lia].
    exists v. specialize (Hfst (c, v) (or_introl eq_refl)). simpl in Hfst.
    now subst.
Qed.

End Ancestry.

(** ** Combining values *)

Section Combination.
Variable E : PyEnv.

Lemma reduce_from_LastSeenWins (v : value) (l : list value) :
  forall o,
    Forall (fun x => exists o', x = VWrapper LastSeenWins o') l ->
    reduce_from E (VWrapper LastSeenWins o) (l ++ [v]) = Ok v.
Proof.
  induction l as [|x l IH]; intros o Hl; simpl; [reflexivity |].
  inversion Hl as [|? ? [o' ->] Hl']; subst. cbn. now apply IH.
Qed.

(** X13: folding values of which all but possibly the last are
    [LastSeenWins] wrappers gives the last value: every earlier one is
    discarded. *)
Theorem last_seen_wins_fold (l : list value) (v : value) :
  Forall (fun x => exists o, x = VWrapper LastSeenWins o) l ->
  reduce E (l ++ [v]) = Ok v.
Proof.
  intros Hl. destruct l as [|x l]; [reflexivity |].
  inversion Hl as [|? ? [o ->] Hl']; subst. simpl.
  now apply reduce_from_LastSeenWins.
Qed.

Lemma dict_update_items_lookup (d1 d2 m : list (value * value)) (k : value) :
  dict_update_items d1 d2 = Ok m ->
  NoDup (map fst d2) ->
  dict_get py_eq k m =
    match dict_get py_eq k d2 with
    | Some v => Some v
    | None => dict_get py_eq k d1
    end.
Proof.
  intros Hm Hnd. destruct (dict_get py_eq k d2) as [v|] eqn:Hget.
  - apply (dict_get_In py_eq py_eq_eq) in Hget.
    now apply (dict_update_items_get d2 d1 m k v Hm Hnd).
  - apply (dict_get_None py_eq py_eq_eq) in Hget.
    now apply (dict_update_items_frame d2 d1 m k Hm).
Qed.

(** X14: a [CopyUpdate] wrapper of a dictionary combined with a
    dictionary, bare or under [CopyUpdate], gives the [CopyUpdate]
    wrapper of a dictionary in which a key has the value of the right
    operand where that has the key, and the value of the left operand
    otherwise. *)
Theorem CopyUpdate_or_merges_keywise (d1 d2 : list (value * value)) (other : value) :
  other = VDict d2 \/ other = VWrapper CopyUpdate (VDict d2) ->
  dict_ok d2 ->
  exists m,
    py_or E (VWrapper CopyUpdate (VDict d1)) other = Ok (VWrapper CopyUpdate (VDict m)) /\
    forall k, dict_get py_eq k m =
                match dict_get py_eq k d2 with
                | Some v => Some v
                | None => dict_get py_eq k d1
                end.
Proof.
  intros Hother [Hnd Hhash].
  destruct (dict_update_items_ok d2 d1 Hhash) as [m Hm].
  exists m. split.
  - unfold py_or, or_method, CopyUpdate_or.
    destruct Hother as [-> | ->].
    + change (isinstance E (VDict d2) TWrapper) with false.
      cbn [bind py_copy py_update]. rewrite Hm. reflexivity.
    + change (isinstance E (VWrapper CopyUpdate (VDict d2)) TWrapper) with true.
      cbn [getattr instance_dict dict_get String.eqb Ascii.eqb Bool.eqb bind py_copy
           py_update].
      rewrite Hm. reflexivity.
  - intros k. now apply (dict_update_items_lookup d1 d2 m k Hm).
Qed.

Lemma py_in_app (x : value) (xs ys : list value) :
  py_in x (xs ++ ys) = (py_in x xs || py_in x ys)%bool.
Proof. unfold py_in. apply existsb_app. Qed.

Lemma py_in_eq (x y : value) (xs : list value) :
  py_eq x y = true -> py_in y xs = py_in x xs.
Proof. intros H. apply py_eq_eq in H. now subst. Qed.

Lemma set_update_items_union (ys : list value) :
  forall xs,
    Forall (fun y => hashable y = true) ys ->
    exists m, set_update_items xs ys = Ok m /\
              forall x, py_in x m = (py_in x xs || py_in x ys)%bool.
Proof.
  induction ys as [|y ys IH]; intros xs Hh; simpl.
  - exists xs. split; [reflexivity |]. intros x. now rewrite Bool.orb_false_r.
  - inversion Hh as [|? ? Hy Hh']; subst. rewrite Hy.
    destruct (IH (if py_in y xs then xs else xs ++ [y]) Hh') as (m & Hm & Hin).
    exists m. split; [exact Hm |]. intros x. rewrite Hin.
    destruct (py_in y xs) eqn:Hyx.
    + destruct (py_eq x y) eqn:Hxy; simpl; [| reflexivity].
      rewrite <- (py_in_eq x y xs Hxy), Hyx. reflexivity.
    + rewrite py_in_app. simpl. rewrite Bool.orb_false_r.
      now rewrite Bool.orb_assoc.
Qed.

(** X15: a [CopyUpdate] wrapper of a set combined with a set of hashable
    elements, bare or under [CopyUpdate], gives the [CopyUpdate] wrapper
    of their union. *)
Theorem CopyUpdate_or_unites_sets (xs ys : list value) (other : value) :
  other = VSet ys \/ other = VWrapper CopyUpdate (VSet ys) ->
  Forall (fun y => hashable y = true) ys ->
  exists m,
    py_or E (VWrapper CopyUpdate (VSet xs)) other = Ok (VWrapper CopyUpdate (VSet m)) /\
    forall x, py_in x m = (py_in x xs || py_in x ys)%bool.
Proof.
  intros Hother Hh.
  destruct (set_update_items_union ys xs Hh) as (m & Hm & Hin).
  exists m. split; [| exact Hin].
  unfold py_or, or_method, CopyUpdate_or.
  destruct Hother as [-> | ->].
  - change (isinstance E (VSet ys) TWrapper) with false.
    cbn [bind py_copy py_update py_iter]. rewrite Hm. reflexivity.
  - change (isinstance E (VWrapper CopyUpdate (VSet ys)) TWrapper) with true.
    cbn [getattr instance_dict dict_get String.eqb Ascii.eqb Bool.eqb bind py_copy
         py_update py_iter].
    rewrite Hm. reflexivity.
Qed.

(** X16: [CopyUpdate.__or__] catches [ValueError] and [TypeError] only:
    around a value that lacks [copy] or [update] (a number, a string, a
    list, a function, a wrapper) it raises [AttributeError], whatever the
    other operand, and no reflected method is tried. *)
Theorem CopyUpdate_without_copy_raises (obj other other' : value) :
  lacks_copy_or_update obj ->
  unwrap E other = Ok other' ->
  or_method E (VWrapper CopyUpdate obj) other = Raised AttributeError /\
  py_or E (VWrapper CopyUpdate obj) other = Raise AttributeError.
Proof.
  intros Hobj Hun.
  assert (H : or_method E (VWrapper CopyUpdate obj) other = Raised AttributeError).
  { simpl. unfold CopyUpdate_or. unfold unwrap in Hun. rewrite Hun.
    destruct obj; try contradiction; reflexivity. }
  split; [exact H |]. unfold py_or. now rewrite H.
Qed.

End Combination.

(** ** The facade [Spec] *)

Section Facade.
Variable E : PyEnv.

Lemma Spec_add_pattern_resolved (registry self : Spec) (pattern : Pattern)
    (v : value) (f : callable) :
  fst (Spec_match E registry v false) = Ok (VCallable f) ->
  exists wrapped,
    call (VCallable f) v = Ok wrapped /\
    fst (Spec_add_pattern E registry self pattern v) =
      fst (Options_setitem (options self) (make_condition_from_pattern pattern) wrapped) /\
    options (snd (snd (Spec_add_pattern E registry self pattern v))) =
      snd (Options_setitem (options self) (make_condition_from_pattern pattern) wrapped).
Proof.
  intros H. unfold Spec_add_pattern.
  destruct (Spec_match E registry v false) as [r reg]. simpl in H. subst r.
  cbn [bind]. destruct (call (VCallable f) v) as [wrapped|e] eqn:Hcall;
    [| destruct f; discriminate].
  exists wrapped. split; [reflexivity |].
  destruct (Options_setitem _ _ _) as [r' o']. split; reflexivity.
Qed.

Lemma initial_rules_resolve (registry : Spec) (v : value) (k : wrapper_cls) :
  initial_rules_for E registry v ->
  builtin_wrapper v = Some k ->
  fst (Spec_match E registry v false) = Ok (VCallable (Cls k)).
Proof.
  intros Hinit Hk. rewrite Spec_match_fst.
  rewrite (Options_match_ext E (options registry) (options WRAPPER_TYPES) v false Hinit).
  destruct v as [z|s|l|d|xs|cls attrs|w o|f]; try discriminate; injection Hk as <-;
    try reflexivity.
  destruct f as [w|]; [destruct w |]; reflexivity.
Qed.

Lemma add_pattern_wraps_by_class_aux (registry self : Spec) (pattern : Pattern)
    (v : value) (k : wrapper_cls) :
  initial_rules_for E registry v ->
  builtin_wrapper v = Some k ->
  fst (Spec_add_pattern E registry self pattern v) =
    fst (Options_setitem (options self) (make_condition_from_pattern pattern)
           (VWrapper k v)) /\
  options (snd (snd (Spec_add_pattern E registry self pattern v))) =
    snd (Options_setitem (options self) (make_condition_from_pattern pattern)
           (VWrapper k v)).
Proof.
  intros Hinit Hk. pose proof (initial_rules_resolve registry v k Hinit Hk) as H.
  destruct (Spec_add_pattern_resolved registry self pattern v (Cls k) H)
    as (wrapped & [= <-] & H1 & H2).
  now split.
Qed.

(** X17: with the initial rules of the registry, [add_pattern] stores a
    dictionary or a set under [CopyUpdate], and a number, a string, a
    list or a function under [LastSeenWins]. *)
Theorem add_pattern_wraps_by_class (registry self : Spec) (pattern : Pattern)
    (v : value) (k : wrapper_cls) :
  initial_rules_for E registry v ->
  builtin_wrapper v = Some k ->
  fst (Spec_match E registry v false) = Ok (VCallable (Cls k)) /\
  fst (Spec_add_pattern E registry self pattern v) =
    fst (Options_setitem (options self) (make_condition_from_pattern pattern)
           (VWrapper k v)) /\
  options (snd (snd (Spec_add_pattern E registry self pattern v))) =
    snd (Options_setitem (options self) (make_condition_from_pattern pattern)
           (VWrapper k v)).
Proof.
  intros Hinit Hk. split; [now apply initial_rules_resolve |].
  now apply add_pattern_wraps_by_class_aux.
Qed.

Lemma get_value_fst (self : Spec) (pattern : Pattern) :
  fst (get_value E self pattern) =
    (v <- fst (Options_getitem (options self) (make_condition_from_pattern pattern)) ;;
     unwrap E v).
Proof.
  unfold get_value, Spec_getitem. now destruct (Options_getitem _ _).
Qed.

Lemma Options_getitem_setitem_same (st : Options) (c : Condition) (v : value) :
  Condition_hashable c = true ->
  fst (Options_getitem (snd (Options_setitem st c v)) c) = Ok v.
Proof.
  intros Hh. rewrite Options_getitem_fst, Options_setitem_buckets by exact Hh.
  rewrite Hh, pytype_eqb_refl. now rewrite (dict_get_set_same _ ceq_eq).
Qed.

(** X18: after [spec.add_pattern(p, v)] with a hashable condition,
    [spec.get_value(p')] of any pattern [p'] that stands for the same
    condition (the class, a [Match] of it or the [IsInstance] condition
    itself) returns [v] when the registry resolved to a wrapper class,
    and [v] without its wrapper when the registry left [v] as it was. *)
Theorem get_value_after_add_pattern (registry self : Spec) (p p' : Pattern)
    (v : value) (f : callable) :
  fst (Spec_match E registry v false) = Ok (VCallable f) ->
  Condition_hashable (make_condition_from_pattern p) = true ->
  make_condition_from_pattern p' = make_condition_from_pattern p ->
  fst (Spec_add_pattern E registry self p v) = Ok tt /\
  fst (get_value E (snd (snd (Spec_add_pattern E registry self p v))) p') =
    match f with
    | Cls _ => Ok v
    | Identity => unwrap E v
    end.
Proof.
  intros Hf Hh Hp.
  destruct (Spec_add_pattern_resolved registry self p v f Hf)
    as (wrapped & Hcall & H1 & H2).
  split; [now rewrite H1, Options_setitem_fst, Hh |].
  rewrite get_value_fst, H2, Hp, (Options_getitem_setitem_same _ _ _ Hh).
  cbn [bind]. destruct f as [k|]; injection Hcall as <-; [| reflexivity].
  destruct k; reflexivity.
Qed.


Lemma list_sum_zero (l : list nat) : list_sum l = 0 -> Forall (fun n => n = 0) l.
Proof.
  induction l as [|n l IH]; simpl; intros H; constructor; [lia | apply IH; lia].
Qed.

Lemma len_zero_buckets (st : Options) (tp : pytype) :
  Options_len st = 0 -> bucket_of (_types st) tp = [].
Proof.
  unfold Options_len, bucket_of. intros H.
  destruct (dict_get pytype_eqb tp (_types st)) as [b|] eqn:Hget; [| reflexivity].
  apply (dict_get_In pytype_eqb pytype_eqb_eq) in Hget.
  apply list_sum_zero in H. rewrite Forall_forall in H.
  specialize (H (List.length b)).
  apply length_zero_iff_nil. apply H.
  apply in_map_iff. exists (tp, b). now split.
Qed.

(** X20: matching against options of length zero raises [NoMatchError]
    for every object, with or without [typewise], through [Options.match]
    and through [Spec.match]; a fresh [Spec()] is such a
    specification. *)
Theorem empty_options_match_nothing (st : Options) (obj : value) (tw : bool) :
  Options_len st = 0 ->
  fst (Options_match E st obj tw) = Raise (NoMatchError (no_match_message E obj)) /\
  fst (Spec_match E {| options := st |} obj tw) =
    Raise (NoMatchError (no_match_message E obj)) /\
  fst (Spec_match E (Spec_init (Some st)) obj tw) =
    Raise (NoMatchError (no_match_message E obj)).
Proof.
  intros Hlen.
  assert (H : fst (Options_match E st obj tw) =
              Raise (NoMatchError (no_match_message E obj))).
  { apply Options_match_all_false. intros c v (tp & _ & Hin).
    rewrite (len_zero_buckets st tp Hlen) in Hin. destruct Hin. }
  split; [exact H |]. split.
  - rewrite Spec_match_fst. cbn [options]. now rewrite H.
  - unfold Spec_init. rewrite Hlen. cbn [Nat.eqb].
    rewrite Spec_match_fst. cbn [options]. unfold Options_init. cbn [Options_update].
    now rewrite Options_match_empty.
Qed.

Lemma Options_getitem_setitem_other (st : Options) (c c' : Condition) (v : value) :
  Condition_hashable c = true ->
  c' <> c ->
  fst (Options_getitem (snd (Options_setitem st c v)) c') = fst (Options_getitem st c').
Proof.
  intros Hh Hne. rewrite !Options_getitem_fst, !Options_setitem_buckets by exact Hh.
  destruct (Condition_hashable c'); [| reflexivity].
  destruct (pytype_eqb (cond_type c) (cond_type c')); [| reflexivity].
  now rewrite (dict_get_set_other _ ceq_eq).
Qed.

Lemma Spec_add_pattern_registry (registry self : Spec) (pattern : Pattern) (v : value)
    (tp : pytype) :
  bucket_of (_types (options (fst (snd (Spec_add_pattern E registry self pattern v))))) tp =
    bucket_of (_types (options registry)) tp.
Proof.
  unfold Spec_add_pattern, Spec_match.
  destruct (walk_state E v false (rev (mro E (type_of v))) (_types (options registry)) [])
    as (extra & Hst & Hex).
  rewrite <- Options_match_snd in Hst.
  destruct (Options_match E (options registry) v false) as [r o]. cbn [snd] in Hst.
  assert (Hb : bucket_of (_types o) tp = bucket_of (_types (options registry)) tp)
    by (rewrite Hst; now apply bucket_of_empties).
  destruct (w_type <- (v0 <- r ;; unwrap E v0) ;; call w_type v); cbn [fst snd options];
    [| exact Hb].
  destruct (Options_setitem _ _ _). exact Hb.
Qed.

Lemma store_ok_empty : store_ok {| _types := [] |}.
Proof. split; [constructor | intros tp b []]. Qed.

Lemma unwrap_wrapper (k : wrapper_cls) (v : value) : unwrap E (VWrapper k v) = Ok v.
Proof. destruct k; reflexivity. Qed.

Lemma add_patterns_ok (patterns : list (Pattern * value)) :
  forall registry self,
    NoDup (map (fun pv => make_condition_from_pattern (fst pv)) patterns) ->
    (forall p v, In (p, v) patterns ->
       Condition_hashable (make_condition_from_pattern p) = true /\
       builtin_wrapper v <> None /\
       initial_rules_for E registry v) ->
    exists registry' self',
      add_patterns E registry self patterns = (Ok tt, (registry', self')) /\
      (store_ok (options self) -> store_ok (options self')) /\
      (forall p v, In (p, v) patterns -> fst (get_value E self' p) = Ok v) /\
      (forall c, ~ In c (map (fun pv => make_condition_from_pattern (fst pv)) patterns) ->
                 fst (Options_getitem (options self') c) =
                   fst (Options_getitem (options self) c)) /\
      ((forall c, In c (map (fun pv => make_condition_from_pattern (fst pv)) patterns) ->
                  fst (Options_getitem (options self) c) = Raise KeyError) ->
       Options_len (options self') = Options_len (options self) + List.length patterns).
Proof.
  induction patterns as [|[p v] patterns IH]; intros registry self Hnd Hpat.
  - exists registry, self. simpl. split; [reflexivity |]. split; [tauto |].
    split; [intros p v [] |]. split; [reflexivity |]. intros _. lia.
  - cbn [map fst] in Hnd. inversion Hnd as [|? ? Hfresh Hnd']; subst.
    destruct (Hpat p v (or_introl eq_refl)) as (Hh & Hk & Hinit).
    destruct (builtin_wrapper v) as [k|] eqn:Hbw; [clear Hk | congruence].
    destruct (add_pattern_wraps_by_class_aux registry self p v k Hinit Hbw)
      as (Hfst & Hopt).
    pose proof (Spec_add_pattern_registry registry self p v) as Hreg.
    cbn [add_patterns].
    destruct (Spec_add_pattern E registry self p v) as [r [reg1 self1]].
    cbn [fst snd] in Hfst, Hopt, Hreg.
    rewrite Options_setitem_fst, Hh in Hfst. subst r.
    destruct (IH reg1 self1 Hnd') as (reg' & self' & Hadd & Hok & Hget & Hframe & Hlen).
    { intros p' v' Hin. destruct (Hpat p' v' (or_intror Hin)) as (H1 & H2 & H3).
      split; [exact H1 |]. split; [exact H2 |].
      intros tp Htp. rewrite Hreg. now apply H3. }
    exists reg', self'. split; [exact Hadd |].
    split; [intros Hs; apply Hok; rewrite Hopt; now apply store_ok_setitem |].
    split; [| split].
    + intros p' v' [[= -> ->] | Hin]; [| now apply Hget].
      rewrite get_value_fst, (Hframe _ Hfresh), Hopt.
      rewrite (Options_getitem_setitem_same _ _ _ Hh). cbn [bind].
      apply unwrap_wrapper.
    + intros c Hc. cbn [map fst] in Hc.
      rewrite Hframe by (intros Hin; apply Hc; now right). rewrite Hopt.
      apply Options_getitem_setitem_other; [exact Hh |]. intros ->. apply Hc. now left.
    + intros Hmissing. rewrite Hlen.
      * rewrite Hopt, (Options_len_setitem _ _ _ Hh).
        specialize (Hmissing _ (or_introl eq_refl)). cbn [fst] in Hmissing.
        rewrite Options_getitem_fst, Hh in Hmissing.
        destruct (dict_get _ _ _); [discriminate |]. cbn [List.length]. lia.
      * intros c Hc. rewrite Hopt.
        rewrite Options_getitem_setitem_other; [| exact Hh |].
        -- apply Hmissing. now right.
        -- intros ->. contradiction.
Qed.

(** X21: [Spec.from_patterns] on patterns that stand for pairwise
    distinct hashable conditions, with values of built-in classes and the
    initial rules of the registry, returns a specification with one entry
    per pattern, whose store satisfies the invariant and from which
    [get_value] returns the value of each pattern. *)
Theorem from_patterns_round_trip (registry : Spec) (patterns : list (Pattern * value)) :
  NoDup (map (fun pv => make_condition_from_pattern (fst pv)) patterns) ->
  (forall p v, In (p, v) patterns ->
     Condition_hashable (make_condition_from_pattern p) = true /\
     builtin_wrapper v <> None /\
     initial_rules_for E registry v) ->
  exists spec,
    fst (from_patterns E registry patterns) = Ok spec /\
    store_ok (options spec) /\
    Options_len (options spec) = List.length patterns /\
    forall p v, In (p, v) patterns -> fst (get_value E spec p) = Ok v.
Proof.
  intros Hnd Hpat.
  destruct (add_patterns_ok patterns registry (Spec_init None) Hnd Hpat)
    as (reg' & spec & Hadd & Hok & Hget & _ & Hlen).
  exists spec. unfold from_patterns. rewrite Hadd. cbn [fst].
  split; [reflexivity |]. split; [apply Hok, store_ok_empty |].
  split; [| exact Hget].
  rewrite Hlen; [reflexivity |].
  intros c Hc. apply in_map_iff in Hc. destruct Hc as ([p v] & <- & Hin).
  destruct (Hpat p v Hin) as (Hh & _). cbn [fst].
  rewrite Options_getitem_fst, Hh. reflexivity.
Qed.

End Facade.

(** ** Patterns on items and the derived order of comparisons *)

Section Builder.
Variable E : PyEnv.

(** The order of values raises nothing but [TypeError]. *)
Lemma py_ord_error (o : ordering) (a : value) :
  forall b e, py_ord o a b = Raise e -> e = TypeError.
Proof.
  induction a as [z|s|xs IH|kvs IH|xs IH|cls attrs IH|k a IH|c] using value_induction;
    intros b e; destruct b as [| |ys| | | | |]; simpl; try discriminate;
    try (intros [= <-]; reflexivity).
  revert ys.
  induction IH as [|x xs Hx _ IHxs]; intros ys; destruct ys as [|y ys]; simpl;
    try discriminate.
  destruct (py_eq x y); [apply IHxs | apply Hx].
Qed.

Lemma apply_op_error (op : operator) (a b : value) (e : exn) :
  (forall id, op <> op_custom id) ->
  apply_op E op a b = Raise e -> e = TypeError.
Proof.
  intros Hop. destruct op; simpl; try discriminate; try apply py_ord_error.
  now destruct (Hop id).
Qed.

(** X22: the condition that [match(T)[k] op ref] builds, for a hashable
    key and one of the six comparison operators, is a [CompareItem]
    bound to [T]; matched against a dictionary it gives [False] when the
    key is missing and otherwise what the operator gives for the item and
    the reference value, its [TypeError] included. *)
Theorem item_pattern_on_dict (m : Match) (k ref : value) (op : operator)
    (d : list (value * value)) :
  hashable k = true ->
  (forall id, op <> op_custom id) ->
  op_func op (Match_getitem m k) ref = Some (CompareItem (Match_type m) k op ref) /\
  Condition_hashable (CompareItem (Match_type m) k op ref) = true /\
  Condition_match E (CompareItem (Match_type m) k op ref) (VDict d) =
    match dict_get py_eq k d with
    | Some x => apply_op E op x ref
    | None => Ok false
    end.
Proof.
  intros Hk Hop. split; [reflexivity |]. split; [exact Hk |].
  unfold Condition_match, Comparison_match.
  cbn [attributes retrieve getitem]. rewrite Hk.
  destruct (dict_get py_eq k d) as [x|]; [| reflexivity].
  cbn [bind]. destruct (apply_op E op x ref) as [b|e] eqn:Hap; [reflexivity |].
  now rewrite (apply_op_error op x ref e Hop Hap).
Qed.

(** X23: the order that [functools.total_ordering] derives for two
    comparisons of the classes [CompareAttr] and [CompareItem]: each is
    [>=] the other, and [<=] holds exactly when they are equal. *)
Theorem derived_order_of_comparisons (c1 c2 : Condition) :
  retrieving c1 = true ->
  retrieving c2 = true ->
  py_ge E c1 c2 = Ok true /\
  py_ge E c2 c1 = Ok true /\
  py_le E c1 c2 = Ok (Condition_eq c1 c2).
Proof.
  intros H1 H2.
  destruct c1; try discriminate; destruct c2; try discriminate;
    repeat split; reflexivity.
Qed.

End Builder.

(** ** The further properties at the fixtures of the test suite *)

Lemma getitem_after_setitem_witness :
  Condition_hashable a_positive = true /\
  plain_condition item_of_int = true /\
  item_of_int <> a_positive /\
  fst (Options_getitem (snd (Options_setitem a_positive_store a_positive (VInt 1)))
         a_positive) = Ok (VInt 1) /\
  fst (Options_getitem (snd (Options_setitem a_positive_store a_positive (VInt 1)))
         item_of_int) = fst (Options_getitem a_positive_store item_of_int).
Proof.
  split; [reflexivity |]. split; [reflexivity |]. split; [discriminate |].
  destruct (getitem_after_setitem a_positive_store a_positive item_of_int (VInt 1)
              eq_refl) as (_ & Hsame & Hother).
  split; [exact Hsame |]. apply Hother; [reflexivity | discriminate].
Defined.

Lemma len_after_setitem_witness :
  Condition_hashable item_of_int = true /\
  Options_len (snd (Options_setitem a_positive_store item_of_int (VInt 1))) = 2.
Proof.
  split; [reflexivity |].
  exact (len_after_setitem a_positive_store item_of_int (VInt 1) eq_refl).
Defined.

Lemma missing_key_raises_witness :
  fst (Options_getitem a_positive_store item_of_int) = Raise KeyError /\
  fst (Options_delitem a_positive_store item_of_int) = Raise KeyError.
Proof.
  split; [reflexivity |].
  apply (missing_key_raises a_positive_store item_of_int). reflexivity.
Defined.

Lemma unhashable_condition_refused_witness :
  Condition_hashable (CompareItem TDict (VList []) op_eq (VInt 0)) = false /\
  fst (Options_setitem a_positive_store (CompareItem TDict (VList []) op_eq (VInt 0))
         (VInt 1)) = Raise TypeError.
Proof.
  split; [reflexivity |].
  apply (unhashable_condition_refused a_positive_store
           (CompareItem TDict (VList []) op_eq (VInt 0)) (VInt 1)).
  reflexivity.
Defined.

Lemma store_invariant_witness :
  store_ok precedence_store /\
  store_ok (snd (Options_match test_env precedence_store b_with_a false)).
Proof.
  split; [apply store_ok_init |].
  apply (store_invariant test_env [] precedence_store a_positive (VInt 0) b_with_a false).
  apply store_ok_init.
Defined.

Lemma lookup_agrees_with_iteration_witness :
  store_ok a_positive_store /\
  plain_condition a_positive = true /\
  In (a_positive, VWrapper LastSeenWins (VStr "v")) (Options_items a_positive_store).
Proof.
  split; [apply store_ok_init |]. split; [reflexivity |].
  apply (proj1 (lookup_agrees_with_iteration a_positive_store a_positive
                  (VWrapper LastSeenWins (VStr "v")) (store_ok_init _)) eq_refl).
  reflexivity.
Defined.

Lemma delitem_removes_entry_witness :
  fst (Options_getitem a_positive_store a_positive) = Ok (VWrapper LastSeenWins (VStr "v")) /\
  store_ok a_positive_store /\
  plain_condition item_of_int = true /\
  item_of_int <> a_positive /\
  fst (Options_getitem (snd (Options_delitem a_positive_store a_positive)) a_positive)
    = Raise KeyError /\
  fst (Options_getitem (snd (Options_delitem a_positive_store a_positive)) item_of_int)
    = fst (Options_getitem a_positive_store item_of_int).
Proof.
  split; [reflexivity |]. split; [apply store_ok_init |].
  split; [reflexivity |]. split; [discriminate |].
  destruct (delitem_removes_entry a_positive_store a_positive item_of_int
              (VWrapper LastSeenWins (VStr "v")) eq_refl) as (_ & _ & Hother & Hgone).
  split; [apply Hgone, store_ok_init | apply Hother; [reflexivity | discriminate]].
Defined.

Lemma typewise_folds_class_by_class_witness :
  store_ok precedence_store /\
  all_return test_env precedence_store b_with_a /\
  fst (Options_match test_env precedence_store b_with_a true) =
    fold_or_raise test_env b_with_a
      (flat_map (level test_env b_with_a true (_types precedence_store))
         (rev (mro test_env (type_of b_with_a)))).
Proof.
  assert (Hret : all_return test_env precedence_store b_with_a)
    by (apply all_return_b_spec; reflexivity).
  split; [apply store_ok_init |]. split; [exact Hret |].
  apply (typewise_folds_class_by_class test_env precedence_store b_with_a
           (store_ok_init _) Hret).
Defined.

Lemma default_folds_type_based_first_witness :
  all_return test_env precedence_store b_with_a /\
  not_a_class test_env b_with_a /\
  exists l,
    Permutation (gathered test_env precedence_store b_with_a) l /\
    split_by type_based comparison_based l /\
    fst (Options_match test_env precedence_store b_with_a false) =
      fold_or_raise test_env b_with_a l.
Proof.
  assert (Hret : all_return test_env precedence_store b_with_a)
    by (apply all_return_b_spec; reflexivity).
  assert (Hnc : not_a_class test_env b_with_a).
  { intros tp Htp. simpl in Htp. destruct Htp as [<- | [<- | [<- | []]]]; reflexivity. }
  split; [exact Hret |]. split; [exact Hnc |].
  exact (default_folds_type_based_first test_env precedence_store b_with_a Hret Hnc).
Defined.

Lemma comparisons_keep_their_order_witness :
  retrieving a_positive = true /\
  retrieving item_of_int = true /\
  py_lt test_env a_positive item_of_int = Ok false /\
  sort_options test_env [(a_positive, VInt 1); (item_of_int, VInt 2)] =
    Ok [(a_positive, VInt 1); (item_of_int, VInt 2)].
Proof.
  split; [reflexivity |]. split; [reflexivity |]. split.
  - apply (comparisons_keep_their_order test_env a_positive item_of_int []);
      reflexivity.
  - apply (comparisons_keep_their_order test_env a_positive item_of_int
             [(a_positive, VInt 1); (item_of_int, VInt 2)]).
    repeat constructor.
Defined.

Lemma single_satisfied_entry_witness :
  all_return test_env a_positive_store b_with_a /\
  gathered test_env a_positive_store b_with_a =
    [(a_positive, VWrapper LastSeenWins (VStr "v"))] /\
  fst (Spec_match test_env {| options := a_positive_store |} b_with_a true) = Ok (VStr "v").
Proof.
  assert (Hret : all_return test_env a_positive_store b_with_a)
    by (apply all_return_b_spec; reflexivity).
  split; [exact Hret |]. split; [reflexivity |].
  apply (single_satisfied_entry test_env a_positive_store b_with_a true a_positive
           (VWrapper LastSeenWins (VStr "v")) Hret eq_refl).
Defined.

Lemma type_based_entries_fold_by_ancestry_witness :
  store_ok (Options_init [(IsInstance type_b, VWrapper LastSeenWins (VStr "b"));
                          (IsInstance type_a, VWrapper LastSeenWins (VStr "a"))]) /\
  linearised test_env (type_of (VInst "B" [])) /\
  not_a_class test_env (VInst "B" []) /\
  fst (Options_match test_env
         (Options_init [(IsInstance type_b, VWrapper LastSeenWins (VStr "b"));
                        (IsInstance type_a, VWrapper LastSeenWins (VStr "a"))])
         (VInst "B" []) false) =
    Ok (VWrapper LastSeenWins (VStr "b")).
Proof.
  assert (Hnc : not_a_class test_env (VInst "B" [])).
  { intros tp Htp. simpl in Htp. destruct Htp as [<- | [<- | [<- | []]]]; reflexivity. }
  split; [apply store_ok_init |]. split; [apply test_env_linearised_b |].
  split; [exact Hnc |].
  apply (type_based_entries_fold_by_ancestry test_env
           (Options_init [(IsInstance type_b, VWrapper LastSeenWins (VStr "b"));
                          (IsInstance type_a, VWrapper LastSeenWins (VStr "a"))])
           (VInst "B" []) false).
  - apply store_ok_init.
  - apply test_env_linearised_b.
  - exact Hnc.
  - apply all_return_b_spec. reflexivity.
  - repeat constructor.
Defined.

Lemma last_seen_wins_fold_witness :
  reduce test_env [VWrapper LastSeenWins (VInt 1); VWrapper LastSeenWins (VInt 2); VInt 3]
    = Ok (VInt 3).
Proof.
  apply (last_seen_wins_fold test_env
           [VWrapper LastSeenWins (VInt 1); VWrapper LastSeenWins (VInt 2)] (VInt 3)).
  repeat constructor; eexists; reflexivity.
Defined.

Lemma CopyUpdate_or_merges_keywise_witness :
  dict_ok [(VStr "name", VStr "b")] /\
  exists m,
    py_or test_env (VWrapper CopyUpdate (name_ "a")) (VWrapper CopyUpdate (name_ "b"))
      = Ok (VWrapper CopyUpdate (VDict m)) /\
    dict_get py_eq (VStr "name") m = Some (VStr "b").
Proof.
  assert (Hok : dict_ok [(VStr "name", VStr "b")]).
  { split; repeat constructor. simpl. tauto. }
  split; [exact Hok |].
  destruct (CopyUpdate_or_merges_keywise test_env [(VStr "name", VStr "a")]
              [(VStr "name", VStr "b")] (VWrapper CopyUpdate (name_ "b"))
              (or_intror eq_refl) Hok) as (m & Hm & Hget).
  exists m. split; [exact Hm |]. exact (Hget (VStr "name")).
Defined.

Lemma CopyUpdate_or_unites_sets_witness :
  Forall (fun y => hashable y = true) [VInt 2] /\
  exists m,
    py_or test_env (VWrapper CopyUpdate (VSet [VInt 1])) (VSet [VInt 2])
      = Ok (VWrapper CopyUpdate (VSet m)) /\
    py_in (VInt 1) m = true /\ py_in (VInt 2) m = true /\ py_in (VInt 3) m = false.
Proof.
  assert (Hh : Forall (fun y => hashable y = true) [VInt 2]) by repeat constructor.
  split; [exact Hh |].
  destruct (CopyUpdate_or_unites_sets test_env [VInt 1] [VInt 2] (VSet [VInt 2])
              (or_introl eq_refl) Hh) as (m & Hm & Hin).
  exists m. split; [exact Hm |].
  split; [exact (Hin (VInt 1)) |]. split; [exact (Hin (VInt 2)) | exact (Hin (VInt 3))].
Defined.

Lemma CopyUpdate_without_copy_raises_witness :
  lacks_copy_or_update (VInt 5) /\
  unwrap test_env (VWrapper LastSeenWins (VInt 1)) = Ok (VInt 1) /\
  py_or test_env (VWrapper CopyUpdate (VInt 5)) (VWrapper LastSeenWins (VInt 1))
    = Raise AttributeError.
Proof.
  split; [exact I |]. split; [reflexivity |].
  apply (CopyUpdate_without_copy_raises test_env (VInt 5)
           (VWrapper LastSeenWins (VInt 1)) (VInt 1) I eq_refl).
Defined.

Lemma add_pattern_wraps_by_class_witness :
  initial_rules_for test_env WRAPPER_TYPES (name_ "a") /\
  builtin_wrapper (name_ "a") = Some CopyUpdate /\
  fst (Spec_match test_env WRAPPER_TYPES (name_ "a") false)
    = Ok (VCallable (Cls CopyUpdate)).
Proof.
  assert (Hinit : initial_rules_for test_env WRAPPER_TYPES (name_ "a"))
    by (intros tp _; reflexivity).
  split; [exact Hinit |]. split; [reflexivity |].
  apply (add_pattern_wraps_by_class test_env WRAPPER_TYPES (Spec_init None)
           (PType type_a) (name_ "a") CopyUpdate Hinit eq_refl).
Defined.

Lemma get_value_after_add_pattern_witness :
  fst (Spec_match test_env WRAPPER_TYPES (name_ "a") false)
    = Ok (VCallable (Cls CopyUpdate)) /\
  Condition_hashable (make_condition_from_pattern (PType type_a)) = true /\
  make_condition_from_pattern (PMatch (Match_ type_a)) =
    make_condition_from_pattern (PType type_a) /\
  fst (get_value test_env
         (snd (snd (Spec_add_pattern test_env WRAPPER_TYPES (Spec_init None)
                      (PType type_a) (name_ "a"))))
         (PMatch (Match_ type_a))) = Ok (name_ "a").
Proof.
  split; [reflexivity |]. split; [reflexivity |]. split; [reflexivity |].
  apply (get_value_after_add_pattern test_env WRAPPER_TYPES (Spec_init None)
           (PType type_a) (PMatch (Match_ type_a)) (name_ "a") (Cls CopyUpdate));
    reflexivity.
Defined.


Lemma empty_options_match_nothing_witness :
  Options_len (snd (Options_delitem a_positive_store a_positive)) = 0 /\
  fst (Options_match test_env (snd (Options_delitem a_positive_store a_positive))
         b_with_a false) = Raise (NoMatchError (no_match_message test_env b_with_a)).
Proof.
  split; [reflexivity |].
  apply (empty_options_match_nothing test_env
           (snd (Options_delitem a_positive_store a_positive)) b_with_a false).
  reflexivity.
Defined.

Lemma from_patterns_round_trip_witness :
  exists spec,
    fst (from_patterns test_env WRAPPER_TYPES
           [(PType type_a, name_ "a"); (PCondition a_positive, VStr "a+")]) = Ok spec /\
    store_ok (options spec) /\
    Options_len (options spec) = 2 /\
    fst (get_value test_env spec (PCondition a_positive)) = Ok (VStr "a+").
Proof.
  destruct (from_patterns_round_trip test_env WRAPPER_TYPES
              [(PType type_a, name_ "a"); (PCondition a_positive, VStr "a+")])
    as (spec & Hfrom & Hok & Hlen & Hget).
  - repeat constructor; simpl; intuition discriminate.
  - intros p v [[= <- <-] | [[= <- <-] | []]];
      (split; [reflexivity |]; split; [discriminate |]; intros tp _; reflexivity).
  - exists spec. split; [exact Hfrom |]. split; [exact Hok |]. split; [exact Hlen |].
    apply Hget. right. now left.
Defined.

Lemma item_pattern_on_dict_witness :
  hashable (VStr "key") = true /\
  Condition_match test_env (CompareItem TDict (VStr "key") op_eq (VStr "value"))
    (VDict [(VStr "key", VStr "value")]) = Ok true.
Proof.
  split; [reflexivity |].
  apply (item_pattern_on_dict test_env (Match_ TDict) (VStr "key") (VStr "value") op_eq
           [(VStr "key", VStr "value")] eq_refl).
  discriminate.
Defined.

Lemma derived_order_of_comparisons_witness :
  retrieving a_positive = true /\
  retrieving item_of_int = true /\
  py_ge test_env a_positive item_of_int = Ok true /\
  py_ge test_env item_of_int a_positive = Ok true /\
  py_le test_env a_positive item_of_int = Ok false.
Proof.
  split; [reflexivity |]. split; [reflexivity |].
  apply (derived_order_of_comparisons test_env a_positive item_of_int); reflexivity.
Defined.
